(** * wiperf speed test: the throughput-test protocol of server.ts and client.ts

    A shallow embedding of the two endpoints of the WebSocket throughput
    tester (src/wiperf-speedtest/server.ts and client.ts) and the properties
    of its protocol: the first-payload clock reset, the dispatch registry of
    the server, the flood loops with their backpressure test, the stop
    handshake of a download and the speed computation of the client.

    Conventions of the embedding.
    - A JavaScript [number] is a rational or one of the three special
      values; rounding to binary64 and the sign of zero are not modelled
      (a zero divisor is taken to be +0).
    - Every handler runs to completion in one turn of the event loop.  What
      the environment answers during a turn (the successive readings of
      [performance.now()], [socket.bufferedAmount], [ws.readyState]) is an
      argument of the turn.
    - [socket.send] and [setTimeout] are recorded in the world: the frames
      sent, oldest first, and the table of pending timers.  Console output
      is not modelled, but for the number that the backpressure log of the
      server prints.  Of the page, the calls of [updateSpeedDisplay] are
      recorded as the display updates of the client and the label of the
      start button is a field of the world; what [updateDebugDisplay] and
      [setTheme] write is given by functions of their own. *)

From Stdlib Require Import QArith Qround Lqa.
From stdpp Require Import gmap strings list.
Close Scope Q_scope.

(** ** JavaScript numbers *)

Inductive number : Type :=
| Fin (q : Q)
| PosInf
| NegInf
| NaN.

Module JS.

Definition of_Z (z : Z) : number := Fin (inject_Z z).
Definition of_N (n : N) : number := of_Z (Z.of_N n).

Definition neg (a : number) : number :=
  match a with
  | Fin x => Fin (Qopp x)
  | PosInf => NegInf
  | NegInf => PosInf
  | NaN => NaN
  end.

(** [a + b] *)
Definition add (a b : number) : number :=
  match a, b with
  | NaN, _ | _, NaN => NaN
  | Fin x, Fin y => Fin (Qplus x y)
  | PosInf, NegInf | NegInf, PosInf => NaN
  | PosInf, _ | _, PosInf => PosInf
  | NegInf, _ | _, NegInf => NegInf
  end.

(** [a - b] *)
Definition sub (a b : number) : number := add a (neg b).

(** The infinity that has the sign of [x], NaN for zero. *)
Definition signed_inf (x : Q) (pos : bool) : number :=
  match Qcompare x 0 with
  | Gt => if pos then PosInf else NegInf
  | Lt => if pos then NegInf else PosInf
  | Eq => NaN
  end.

(** [a * b] *)
Definition mul (a b : number) : number :=
  match a, b with
  | NaN, _ | _, NaN => NaN
  | Fin x, Fin y => Fin (Qmult x y)
  | Fin x, PosInf | PosInf, Fin x => signed_inf x true
  | Fin x, NegInf | NegInf, Fin x => signed_inf x false
  | PosInf, PosInf | NegInf, NegInf => PosInf
  | PosInf, NegInf | NegInf, PosInf => NegInf
  end.

(** [a / b]; a zero divisor is +0. *)
Definition div (a b : number) : number :=
  match a, b with
  | NaN, _ | _, NaN => NaN
  | Fin x, Fin y => if Qeq_bool y 0 then signed_inf x true else Fin (Qdiv x y)
  | Fin _, PosInf | Fin _, NegInf => Fin 0
  | PosInf, Fin y => if Qle_bool 0 y then PosInf else NegInf
  | NegInf, Fin y => if Qle_bool 0 y then NegInf else PosInf
  | _, _ => NaN
  end.

(** [a <= b]; false as soon as one side is NaN. *)
Definition le (a b : number) : bool :=
  match a, b with
  | NaN, _ | _, NaN => false
  | Fin x, Fin y => Qle_bool x y
  | NegInf, _ | _, PosInf => true
  | _, _ => false
  end.

(** [a < b] *)
Definition lt (a b : number) : bool :=
  match a, b with
  | NaN, _ | _, NaN => false
  | Fin x, Fin y => negb (Qle_bool y x)
  | PosInf, _ | _, NegInf => false
  | _, _ => true
  end.

(** [a >= b] and [a > b] *)
Definition ge (a b : number) : bool := le b a.
Definition gt (a b : number) : bool := lt b a.

(** [a === b] on numbers *)
Definition eq (a b : number) : bool :=
  match a, b with
  | Fin x, Fin y => Qeq_bool x y
  | PosInf, PosInf | NegInf, NegInf => true
  | _, _ => false
  end.

(** [Math.min(a, b)] *)
Definition min (a b : number) : number :=
  match a, b with
  | NaN, _ | _, NaN => NaN
  | _, _ => if le a b then a else b
  end.

(** [Math.floor(a)] *)
Definition floor (a : number) : number :=
  match a with
  | Fin x => of_Z (Qfloor x)
  | _ => a
  end.

Definition is_finite (a : number) : bool :=
  match a with Fin _ => true | _ => false end.

(** [new ArrayBuffer(len)]: the byte length ToIndex gives, or None for
    the RangeError it raises outside [0, 2^53 - 1].  A failure of the
    allocation itself is not modelled. *)
Definition to_index (len : number) : option N :=
  match len with
  | Fin x =>
      let z := if Qle_bool 0 x then Qfloor x else Qceiling x in
      if bool_decide (0 ≤ z ≤ 2 ^ 53 - 1)%Z then Some (Z.to_N z) else None
  | NaN => Some 0%N
  | PosInf | NegInf => None
  end.

End JS.

(** ** The values [JSON.parse] returns *)

Unset Elimination Schemes.
Inductive json : Type :=
| JNull
| JBool (b : bool)
| JNum (n : number)
| JStr (s : string)
| JArr (items : list json)
| JObj (fields : list (string * json)).
Set Elimination Schemes.

(** Own property of an object after parsing, first binding of the key. *)
Fixpoint assoc (k : string) (fields : list (string * json)) : option json :=
  match fields with
  | [] => None
  | (k', v) :: rest => if String.eqb k k' then Some v else assoc k rest
  end.

(** [v.k] for the keys the endpoints read ([type], [durationMs],
    [payloadSizeBytes]): the outer None is the TypeError of a read on
    null, the inner None is [undefined]. *)
Definition get_prop (v : json) (k : string) : option (option json) :=
  match v with
  | JNull => None
  | JObj fields => Some (assoc k fields)
  | _ => Some None
  end.

(** [x === s] for a string literal [s] *)
Definition is_str (x : option json) (s : string) : bool :=
  match x with
  | Some (JStr s') => String.eqb s' s
  | _ => false
  end.

(** [typeof x === "number"], with the number *)
Definition as_number (x : option json) : option number :=
  match x with
  | Some (JNum n) => Some n
  | _ => None
  end.

(** * The server (server.ts) *)

Module Server.

(** ** Wire protocol *)

Inductive Action : Type :=
| StartUpload (durationMs : number)
| StartDownload (durationMs payloadSizeBytes : number)
| StopUpload
| StopDownload
| UploadData (byteLength : N).

Inductive ServerMessage : Type :=
| uploadProgress (elapsedMs receivedBytes progressPercent : number)
| uploadResult (elapsedMs receivedBytes : number)
| downloadComplete.

(** [event.data] of a MessageEvent: a string, given by what [JSON.parse]
    makes of it (None when it throws SyntaxError), or an ArrayBuffer,
    given by its [byteLength]. *)
Inductive MessageEvent : Type :=
| TextData (parsed : option json)
| BinaryData (byteLength : N).

(** What went through [socket.send]. *)
Inductive Frame : Type :=
| Text (message : ServerMessage)
| Binary (byteLength : N).

(** ** Constants *)

Definition DOWNLOAD_DURATION_BUFFER_MS : number := JS.of_Z 500.
Definition FLOOD_ACTIVE_NOT_YET_SCHEDULED : Z := (-1)%Z.
Definition FLOOD_CANCELLED : Z := (-2)%Z.
Definition BACKPRESSURE_LOG_DEBOUNCE_MS : Z := 1000%Z.

(** ** Per-client state *)

Record UploadState : Type := {
  startTimeOnServerMs : number;
  requestedDurationMs : number;
  bytesReceived : number;
}.

(** The DownloadState object.  It lives in the heap: the closure of its
    flood loop and the [clients] map point to the same object. *)
Record DownloadState : Type := {
  d_startTimeOnServerMs : number;
  d_requestedDurationMs : number;
  downloadFloodTimer : Z;
}.

Inductive ClientState : Type :=
| Idle
| Upload (state : UploadState)
| Download (ref : nat).

(** The variables of one call of [initiateDownloadFlooding] that its
    inner functions capture; [clientState] is the address of the
    DownloadState object. *)
Record FloodClosure : Type := {
  clientState : nat;
  floodStartTimeMs : number;
  f_requestedDurationMs : number;
  backpressureThresholdBytes : number;
  payload : N;
  backpressureCount : nat;
  backpressureDebounceTimer : option positive;
}.

(** The functions handed to [setTimeout], with the closure they belong to. *)
Inductive Callback : Type :=
| cb_sendDownloadChunk (flood : nat)
| cb_debounceExpired (flood : nat).

(** One connection of the server: the entry of its socket in [clients],
    the heap of DownloadState objects, the flood closures, the pending
    timers with their delay, and the frames sent on the socket. *)
Record World : Type := {
  clients_get : option ClientState;
  heap : gmap nat DownloadState;
  floods : gmap nat FloodClosure;
  next_ref : nat;
  timers : gmap positive (Callback * Z);
  next_timer : positive;
  sent : list Frame;
}.

(** What the environment answers during one turn. *)
Record Env : Type := {
  performance_now : nat → Q;
  bufferedAmount : N;
}.

Definition set_clients (c : option ClientState) (w : World) : World :=
  {| clients_get := c; heap := heap w; floods := floods w; next_ref := next_ref w;
     timers := timers w; next_timer := next_timer w; sent := sent w |}.

Definition set_heap (h : gmap nat DownloadState) (w : World) : World :=
  {| clients_get := clients_get w; heap := h; floods := floods w; next_ref := next_ref w;
     timers := timers w; next_timer := next_timer w; sent := sent w |}.

Definition set_floods (f : gmap nat FloodClosure) (w : World) : World :=
  {| clients_get := clients_get w; heap := heap w; floods := f; next_ref := next_ref w;
     timers := timers w; next_timer := next_timer w; sent := sent w |}.

(** [socket.send(frame)] *)
Definition socket_send (f : Frame) (w : World) : World :=
  {| clients_get := clients_get w; heap := heap w; floods := floods w; next_ref := next_ref w;
     timers := timers w; next_timer := next_timer w; sent := sent w ++ [f] |}.

(** [setTimeout(cb, delay)]: a fresh positive id. *)
Definition setTimeout (cb : Callback) (delay : Z) (w : World) : positive * World :=
  (next_timer w,
   {| clients_get := clients_get w; heap := heap w; floods := floods w; next_ref := next_ref w;
      timers := <[next_timer w := (cb, delay)]> (timers w);
      next_timer := Pos.succ (next_timer w); sent := sent w |}).

(** [clearTimeout(id)]; an id that is not a pending timer is ignored. *)
Definition clearTimeout (id : Z) (w : World) : World :=
  match id with
  | Zpos p =>
      {| clients_get := clients_get w; heap := heap w; floods := floods w; next_ref := next_ref w;
         timers := delete p (timers w); next_timer := next_timer w; sent := sent w |}
  | _ => w
  end.

(** [state.downloadFloodTimer = v] on the object at [ref]. *)
Definition set_downloadFloodTimer (ref : nat) (v : Z) (w : World) : World :=
  match heap w !! ref with
  | Some st =>
      set_heap (<[ref := {| d_startTimeOnServerMs := d_startTimeOnServerMs st;
                            d_requestedDurationMs := d_requestedDurationMs st;
                            downloadFloodTimer := v |}]> (heap w)) w
  | None => w
  end.

(** ** Message parser *)

Definition parseEventToAction (event : MessageEvent) : option Action :=
  match event with
  | TextData None => None
  | TextData (Some action) =>
      match get_prop action "type" with
      | None => None
      | Some type =>
          if is_str type "startUpload" || is_str type "startDownload" then
            match get_prop action "durationMs" with
            | None => None
            | Some durationMs =>
                match as_number durationMs with
                | None => None
                | Some d =>
                    if JS.le d (JS.of_Z 0) then None
                    else if is_str type "startDownload" then
                      match get_prop action "payloadSizeBytes" with
                      | None => None
                      | Some payloadSizeBytes =>
                          match as_number payloadSizeBytes with
                          | None => None
                          | Some p =>
                              if JS.le p (JS.of_Z 0) then None
                              else Some (StartDownload d p)
                          end
                      end
                    else Some (StartUpload d)
                end
            end
          else if is_str type "stopUpload" then Some StopUpload
          else if is_str type "stopDownload" then Some StopDownload
          else None
      end
  | BinaryData byteLength => Some (UploadData byteLength)
  end.

(** [const newState: DownloadState = {...}]: a new object in the heap. *)
Definition alloc (st : DownloadState) (w : World) : nat * World :=
  (next_ref w,
   {| clients_get := clients_get w; heap := <[next_ref w := st]> (heap w);
      floods := floods w; next_ref := S (next_ref w);
      timers := timers w; next_timer := next_timer w; sent := sent w |}).

(** A handler returns, or an exception leaves it. *)
Inductive Exn : Type := RangeError.

Inductive Completion (A : Type) : Type :=
| Normal (a : A)
| Abrupt (e : Exn).
Arguments Normal {A} a.
Arguments Abrupt {A} e.

(** ** The five handlers *)

Definition startUpload (durationMs : number) (now : Q) : UploadState :=
  {| startTimeOnServerMs := Fin now;
     requestedDurationMs := durationMs;
     bytesReceived := JS.of_Z (-1) |}.

Definition stopUpload (state : UploadState) (now : Q) (w : World)
  : ClientState * World :=
  let elapsedMs := JS.sub (Fin now) (startTimeOnServerMs state) in
  (Idle, socket_send (Text (uploadResult elapsedMs (bytesReceived state))) w).

Definition stopDownload (ref : nat) (w : World) : ClientState * World :=
  let w1 :=
    match heap w !! ref with
    | Some state =>
        if bool_decide (downloadFloodTimer state > 0)%Z
        then clearTimeout (downloadFloodTimer state) w
        else w
    | None => w
    end in
  (Idle, socket_send (Text downloadComplete) w1).

Definition uploadData (state : UploadState) (byteLength : N) (now : Q) (w : World)
  : ClientState * World :=
  if JS.eq (bytesReceived state) (JS.of_Z (-1)) then
    (Upload {| startTimeOnServerMs := Fin now;
               requestedDurationMs := requestedDurationMs state;
               bytesReceived := JS.of_Z 0 |}, w)
  else
    let newBytesReceived := JS.add (bytesReceived state) (JS.of_N byteLength) in
    let elapsedMs := JS.sub (Fin now) (startTimeOnServerMs state) in
    if JS.ge elapsedMs (requestedDurationMs state) then
      (Idle, socket_send (Text (uploadResult elapsedMs newBytesReceived)) w)
    else
      let updatedState :=
        {| startTimeOnServerMs := startTimeOnServerMs state;
           requestedDurationMs := requestedDurationMs state;
           bytesReceived := newBytesReceived |} in
      let progressPercent :=
        JS.min (JS.mul (JS.div elapsedMs (requestedDurationMs state)) (JS.of_Z 100))
               (JS.of_Z 100) in
      (Upload updatedState,
       socket_send (Text (uploadProgress elapsedMs newBytesReceived progressPercent)) w).

(** ** The download flood *)

Definition debounceBackPressureLog (flood : nat) (w : World) : World :=
  match floods w !! flood with
  | None => w
  | Some cl =>
      match backpressureDebounceTimer cl with
      | None =>
          let '(id, w1) := setTimeout (cb_debounceExpired flood) BACKPRESSURE_LOG_DEBOUNCE_MS w in
          set_floods (<[flood := {| clientState := clientState cl;
                                    floodStartTimeMs := floodStartTimeMs cl;
                                    f_requestedDurationMs := f_requestedDurationMs cl;
                                    backpressureThresholdBytes := backpressureThresholdBytes cl;
                                    payload := payload cl;
                                    backpressureCount := 0;
                                    backpressureDebounceTimer := Some id |}]> (floods w1)) w1
      | Some _ =>
          set_floods (<[flood := {| clientState := clientState cl;
                                    floodStartTimeMs := floodStartTimeMs cl;
                                    f_requestedDurationMs := f_requestedDurationMs cl;
                                    backpressureThresholdBytes := backpressureThresholdBytes cl;
                                    payload := payload cl;
                                    backpressureCount := S (backpressureCount cl);
                                    backpressureDebounceTimer := backpressureDebounceTimer cl |}]>
                        (floods w)) w
      end
  end.

(** The callback of the debounce timer. *)
Definition debounceExpired (flood : nat) (w : World) : World :=
  match floods w !! flood with
  | None => w
  | Some cl =>
      set_floods (<[flood := {| clientState := clientState cl;
                                floodStartTimeMs := floodStartTimeMs cl;
                                f_requestedDurationMs := f_requestedDurationMs cl;
                                backpressureThresholdBytes := backpressureThresholdBytes cl;
                                payload := payload cl;
                                backpressureCount := backpressureCount cl;
                                backpressureDebounceTimer := None |}]> (floods w)) w
  end.

(** One tick of the flood loop of closure [flood]; [buffered] is
    [socket.bufferedAmount] and [now] the reading of the clock after the
    send. *)
Definition sendDownloadChunk (flood : nat) (buffered : N) (now : Q) (w : World) : World :=
  match floods w !! flood with
  | None => w
  | Some cl =>
      match heap w !! clientState cl with
      | None => w
      | Some st =>
          if bool_decide (downloadFloodTimer st = FLOOD_CANCELLED) then w
          else if JS.ge (JS.of_N buffered) (backpressureThresholdBytes cl) then
            let w1 := debounceBackPressureLog flood w in
            let '(id, w2) := setTimeout (cb_sendDownloadChunk flood) 1 w1 in
            set_downloadFloodTimer (clientState cl) (Zpos id) w2
          else
            let w1 := socket_send (Binary (payload cl)) w in
            let elapsedMs := JS.sub (Fin now) (floodStartTimeMs cl) in
            if JS.ge elapsedMs (JS.add (f_requestedDurationMs cl) DOWNLOAD_DURATION_BUFFER_MS)
            then set_downloadFloodTimer (clientState cl) FLOOD_CANCELLED w1
            else
              let '(id, w2) := setTimeout (cb_sendDownloadChunk flood) 0 w1 in
              set_downloadFloodTimer (clientState cl) (Zpos id) w2
      end
  end.

(** [initiateDownloadFlooding(socket, clientState, requestedDurationMs,
    payloadSizeBytes)]; the closure is filed under the address of the
    object it captures. *)
Definition initiateDownloadFlooding (ref : nat) (requestedDurationMs payloadSizeBytes : number)
    (now_start : Q) (buffered : N) (now_sent : Q) (w : World) : Completion World :=
  let floodStartTimeMs := Fin now_start in
  let backpressureThresholdBytes := JS.mul (JS.of_Z 2) payloadSizeBytes in
  match JS.to_index payloadSizeBytes with
  | None => Abrupt RangeError
  | Some payload =>
      let cl := {| clientState := ref;
                   floodStartTimeMs := floodStartTimeMs;
                   f_requestedDurationMs := requestedDurationMs;
                   backpressureThresholdBytes := backpressureThresholdBytes;
                   payload := payload;
                   backpressureCount := 0;
                   backpressureDebounceTimer := None |} in
      Normal (sendDownloadChunk ref buffered now_sent (set_floods (<[ref := cl]> (floods w)) w))
  end.

Definition startDownload (durationMs payloadSizeBytes : number) (env : Env) (w : World)
  : Completion (ClientState * World) :=
  let newState := {| d_startTimeOnServerMs := Fin (performance_now env 0);
                     d_requestedDurationMs := durationMs;
                     downloadFloodTimer := FLOOD_ACTIVE_NOT_YET_SCHEDULED |} in
  let '(ref, w1) := alloc newState w in
  match initiateDownloadFlooding ref durationMs payloadSizeBytes
          (performance_now env 1) (bufferedAmount env) (performance_now env 2) w1 with
  | Abrupt e => Abrupt e
  | Normal w2 => Normal (Download ref, w2)
  end.

(** ** Dispatcher *)

Definition Handler : Type := Env → World → Completion (ClientState * World).

(** The registry: the handler filed under [clientState.status] and
    [action.type], if there is one. *)
Definition STATE_HANDLERS (clientState : ClientState) (action : Action) : option Handler :=
  match clientState, action with
  | Idle, StartUpload durationMs =>
      Some (λ env w, Normal (Upload (startUpload durationMs (performance_now env 0)), w))
  | Idle, StartDownload durationMs payloadSizeBytes =>
      Some (startDownload durationMs payloadSizeBytes)
  | Upload state, StopUpload =>
      Some (λ env w, Normal (stopUpload state (performance_now env 0) w))
  | Upload state, UploadData byteLength =>
      Some (λ env w, Normal (uploadData state byteLength (performance_now env 0) w))
  | Download ref, StopDownload =>
      Some (λ env w, Normal (stopDownload ref w))
  | _, _ => None
  end.

(** The keys of the registry as the source writes them: for each status,
    the action types that have a handler. *)
Definition status_of (clientState : ClientState) : string :=
  match clientState with
  | Idle => "idle"
  | Upload _ => "upload"
  | Download _ => "download"
  end.

Definition type_of (action : Action) : string :=
  match action with
  | StartUpload _ => "startUpload"
  | StartDownload _ _ => "startDownload"
  | StopUpload => "stopUpload"
  | StopDownload => "stopDownload"
  | UploadData _ => "uploadData"
  end.

Definition registered : list (string * list string) :=
  [("idle", ["startUpload"; "startDownload"]);
   ("upload", ["stopUpload"; "uploadData"]);
   ("download", ["stopDownload"])].

Definition has_handler (status type : string) : bool :=
  match list_find (λ row, row.1 = status) registered with
  | Some (_, (_, types)) => bool_decide (type ∈ types)
  | None => false
  end.

Definition processMessage (clientState : ClientState) (event : MessageEvent)
    (env : Env) (w : World) : Completion (ClientState * World) :=
  match parseEventToAction event with
  | None => Normal (clientState, w)
  | Some action =>
      match STATE_HANDLERS clientState action with
      | None => Normal (clientState, w)
      | Some handler => handler env w
      end
  end.

(** ** The socket handlers of [main] *)

Definition cleanupForDownloadFlood (w : World) : World :=
  match clients_get w with
  | Some (Download ref) =>
      match heap w !! ref with
      | Some clientState =>
          if bool_decide (downloadFloodTimer clientState > 0)%Z
          then set_downloadFloodTimer ref FLOOD_CANCELLED
                 (clearTimeout (downloadFloodTimer clientState) w)
          else w
      | None => w
      end
  | _ => w
  end.

Definition onopen (w : World) : World := set_clients (Some Idle) w.
Definition onclose (w : World) : World := set_clients None (cleanupForDownloadFlood w).
Definition onerror (w : World) : World := set_clients None (cleanupForDownloadFlood w).

(** A turn ends normally, or with an exception nobody caught. *)
Inductive Outcome : Type :=
| Done (w : World)
| Uncaught (e : Exn) (w : World).

Definition onmessage (event : MessageEvent) (env : Env) (w : World) : Outcome :=
  match clients_get w with
  | None => Done w
  | Some clientState =>
      match processMessage clientState event env w with
      | Normal (newClientState, w1) => Done (set_clients (Some newClientState) w1)
      | Abrupt e => Uncaught e w
      end
  end.

(** ** The event loop of one connection *)

Inductive Event : Type :=
| SocketOpen
| SocketClose
| SocketError
| SocketMessage (event : MessageEvent)
| TimerFired (id : positive).

Definition run_callback (cb : Callback) (env : Env) (w : World) : World :=
  match cb with
  | cb_sendDownloadChunk flood =>
      sendDownloadChunk flood (bufferedAmount env) (performance_now env 0) w
  | cb_debounceExpired flood => debounceExpired flood w
  end.

Definition step (w : World) (ev : Event) (env : Env) : Outcome :=
  match ev with
  | SocketOpen => Done (onopen w)
  | SocketClose => Done (onclose w)
  | SocketError => Done (onerror w)
  | SocketMessage event => onmessage event env w
  | TimerFired id =>
      match timers w !! id with
      | None => Done w
      | Some (cb, _) => Done (run_callback cb env (clearTimeout (Zpos id) w))
      end
  end.

(** The process stops at the first uncaught exception. *)
Fixpoint run (w : World) (turns : list (Event * Env)) : Outcome :=
  match turns with
  | [] => Done w
  | (ev, env) :: rest =>
      match step w ev env with
      | Done w1 => run w1 rest
      | Uncaught e w1 => Uncaught e w1
      end
  end.

Definition initial : World :=
  {| clients_get := None; heap := ∅; floods := ∅; next_ref := 0;
     timers := ∅; next_timer := 1%positive; sent := [] |}.

(** A stream of binary frames, each with the environment of its turn. *)
Definition payloads (chunks : list (N * Env)) : list (Event * Env) :=
  map (λ c, (SocketMessage (BinaryData c.1), c.2)) chunks.

(** The bytes of a stream of chunks. *)
Definition total_bytes (chunks : list (N * Env)) : Z :=
  foldr (λ c acc, (Z.of_N c.1 + acc)%Z) 0%Z chunks.

(** [performance.now() - start], for the first reading of the turn [env]
    against the first reading of the turn [env1]. *)
Definition elapsed_since (env1 env : Env) : number :=
  JS.sub (Fin (performance_now env 0)) (Fin (performance_now env1 0)).

(** A state that is past its first payload: the count is a natural number. *)
Definition counting (start : number) (D : number) (k : Z) (s : UploadState) : Prop :=
  startTimeOnServerMs s = start ∧ requestedDurationMs s = D ∧
  bytesReceived s = JS.of_Z k ∧ (0 ≤ k)%Z.

(** Every pending chunk tick is the one timer that the state object of the
    connection's current download records. *)
Definition tick_invariant (w : World) : Prop :=
  ∀ id f delay,
    timers w !! id = Some (cb_sendDownloadChunk f, delay) →
    clients_get w = Some (Download f) ∧
    ∃ cl st, floods w !! f = Some cl ∧ clientState cl = f ∧
             heap w !! f = Some st ∧ downloadFloodTimer st = Zpos id.

Definition no_tick_pending (w : World) : Prop :=
  ∀ id f delay, timers w !! id ≠ Some (cb_sendDownloadChunk f, delay).

(** The worlds of a connection: opened once, then any turns that end
    normally. *)
Inductive reachable : World → Prop :=
| reachable_open : reachable (onopen initial)
| reachable_step w ev env w' :
    reachable w → ev ≠ SocketOpen → step w ev env = Done w' → reachable w'.

(** The part of the invariant that does not look at [clients]. *)
Definition ticks_of (f : nat) (w : World) : Prop :=
  ∀ id f' delay,
    timers w !! id = Some (cb_sendDownloadChunk f', delay) →
    f' = f ∧
    ∃ cl st, floods w !! f = Some cl ∧ clientState cl = f ∧
             heap w !! f = Some st ∧ downloadFloodTimer st = Zpos id.

(** Turns in which only timers fire. *)
Definition timer_turns (l : list (positive * Env)) : list (Event * Env) :=
  map (λ x, (TimerFired x.1, x.2)) l.

(** The constants of a closure: everything but the debounce bookkeeping. *)
Definition same_flood (cl cl' : FloodClosure) : Prop :=
  clientState cl' = clientState cl ∧
  floodStartTimeMs cl' = floodStartTimeMs cl ∧
  f_requestedDurationMs cl' = f_requestedDurationMs cl ∧
  backpressureThresholdBytes cl' = backpressureThresholdBytes cl ∧
  payload cl' = payload cl.

(** A frame that is not a result, or a result whose [elapsedMs] is at
    least [D]. *)
Definition result_past (D : number) (f : Frame) : bool :=
  match f with
  | Text (uploadResult elapsedMs _) => JS.ge elapsedMs D
  | _ => true
  end.

Definition is_uploadProgress (f : Frame) : bool :=
  match f with
  | Text (uploadProgress _ _ _) => true
  | _ => false
  end.

(** ** Notions for the properties of a whole test *)

(** [Math.min((elapsedMs / requestedDurationMs) * 100, 100)], the
    progress that [uploadData] reports. *)
Definition progress_of (elapsedMs D : number) : number :=
  JS.min (JS.mul (JS.div elapsedMs D) (JS.of_Z 100)) (JS.of_Z 100).

Definition progressPercent_of (f : Frame) : option number :=
  match f with
  | Text (uploadProgress _ _ progressPercent) => Some progressPercent
  | _ => None
  end.

(** The state a frame belongs to: chunks to a download, progress to an
    upload, and the two final messages to the idle state their handlers
    return. *)
Definition frame_state (f : Frame) (c : option ClientState) : Prop :=
  match f, c with
  | Binary _, Some (Download _) => True
  | Text (uploadProgress _ _ _), Some (Upload _) => True
  | Text (uploadResult _ _), Some Idle => True
  | Text downloadComplete, Some Idle => True
  | _, _ => False
  end.

(** The number that a call of [debounceBackPressureLog] prints in
    "Backpressure detected - delayed N chunks": the count after its
    increment, when no debounce timer is running; None when the call
    prints nothing. *)
Definition debounce_logged (flood : nat) (w : World) : option nat :=
  match floods w !! flood with
  | Some cl =>
      match backpressureDebounceTimer cl with
      | None => Some (S (backpressureCount cl))
      | Some _ => None
      end
  | None => None
  end.

(** What happens to the log bookkeeping of a flood: a tick that finds
    the buffer full calls [debounceBackPressureLog], or the debounce timer
    fires. *)
Inductive DebounceEvent : Type := Backpressure | DebounceExpiry.

(** The numbers printed along a sequence of such events, and the world
    after it. *)
Fixpoint debounce_trace (flood : nat) (w : World) (evs : list DebounceEvent)
  : list nat * World :=
  match evs with
  | [] => ([], w)
  | Backpressure :: rest =>
      let r := debounce_trace flood (debounceBackPressureLog flood w) rest in
      (match debounce_logged flood w with Some n => [n] | None => [] end ++ r.1, r.2)
  | DebounceExpiry :: rest => debounce_trace flood (debounceExpired flood w) rest
  end.

(** The ticks of a sequence of events that found the buffer full. *)
Definition delayed_chunks (evs : list DebounceEvent) : nat :=
  length (List.filter (λ e, match e with Backpressure => true | _ => false end) evs).

(** [backpressureCount] of the closure, 0 when there is none. *)
Definition pending_count (flood : nat) (w : World) : nat :=
  match floods w !! flood with
  | Some cl => backpressureCount cl
  | None => 0
  end.

End Server.

(** * The client (client.ts) *)

Module Client.

(** ** Constants and configuration *)

Definition MiB : Z := (1024 * 1024)%Z.
Definition BACKPRESSURE_THRESHOLD_BYTES : number := JS.of_Z (16 * MiB).
Definition BACKPRESSURE_WARNING_BYTES : number := JS.of_Z (8 * MiB).

Inductive Direction : Type := dir_upload | dir_download | dir_bidirectional.

(** [controlConfigValues]; the payload sizes the page offers are whole
    numbers of MiB, so the size is kept as a byte count. *)
Record Config : Type := {
  direction : Direction;
  durationMs : number;
  payloadSizeBytes : N;
}.

(** ** Wire protocol *)

Inductive ServerMessage : Type :=
| uploadProgress (elapsedMs receivedBytes progressPercent : number)
| uploadResult (elapsedMs receivedBytes : number)
| downloadComplete.

Inductive Action : Type :=
| StartUpload (durationMs : number)
| StartDownload (durationMs payloadSizeBytes : number)
| StopUpload
| StopDownload.

(** [event.data] when it is a string, by what the handler can see of it:
    [JSON.parse] throws; the value is null, on which reading [type]
    throws; the value is a server message (its fields are numbers, as the
    type ServerMessage says); or its [type] is none of the three. *)
Inductive TextData : Type :=
| BadJson
| JsonNull
| Parsed (message : ServerMessage)
| OtherType.

Inductive MessageData : Type :=
| TextFrame (text : TextData)
| BinaryFrame (byteLength : N).

(** What went through [ws.send]. *)
Inductive Frame : Type :=
| Control (message : Action)
| Payload (byteLength : N).

(** ** Client state *)

Record DownloadState : Type := {
  downloadBytesReceived : number;
  downloadStartTimeClient : number;
  downloadLastReceivedTimeClient : number;
  downloadCompleted : bool;
}.

Inductive Status : Type :=
| disconnected
| ready
| upload (uploadInterval : Z) (uploadPayload : N)
| download (d : DownloadState)
| completed
| error.

(** [ws] tells whether the field [ws] holds a socket (true) or null. *)
Record ClientState : Type := {
  status : Status;
  ws : bool;
}.

Definition status_name (s : Status) : string :=
  match s with
  | disconnected => "disconnected"
  | ready => "ready"
  | upload _ _ => "upload"
  | download _ => "download"
  | completed => "completed"
  | error => "error"
  end.

Inductive ReadyState : Type := CONNECTING | OPEN | CLOSING | CLOSED.

(** The text of the progress line: empty, or [`${bytesKiB} kiB ${what}`]. *)
Inductive ProgressText : Type :=
| no_text
| kiB (bytesKiB : number) (what : string).

(** One call of [updateSpeedDisplay]. *)
Record Display : Type := {
  speedMbps : number;
  status_text : string;
  progress : ProgressText;
  progressPercent : number;
}.

Inductive Callback : Type :=
| cb_sendUploadChunk (payload : N)
| cb_resetDisplay
| cb_connectWebSocket.

Record World : Type := {
  clientState : ClientState;
  controlConfigValues : Config;
  timers : gmap positive (Callback * Z);
  next_timer : positive;
  sent : list Frame;
  displayed : list Display;
  startButton : string;
  sockets_created : nat;
}.

Record Env : Type := {
  performance_now : nat → Q;
  readyState : ReadyState;
  bufferedAmount : N;
}.

Definition set_clientState (c : ClientState) (w : World) : World :=
  {| clientState := c; controlConfigValues := controlConfigValues w;
     timers := timers w; next_timer := next_timer w; sent := sent w;
     displayed := displayed w; startButton := startButton w;
     sockets_created := sockets_created w |}.

(** [clientState = { ...clientState, status-specific fields }] *)
Definition set_status (s : Status) (w : World) : World :=
  set_clientState {| status := s; ws := ws (clientState w) |} w.

Definition ws_send (f : Frame) (w : World) : World :=
  {| clientState := clientState w; controlConfigValues := controlConfigValues w;
     timers := timers w; next_timer := next_timer w; sent := sent w ++ [f];
     displayed := displayed w; startButton := startButton w;
     sockets_created := sockets_created w |}.

Definition updateSpeedDisplay (speedMbps : number) (status : string)
    (progress : ProgressText) (progressPercent : number) (w : World) : World :=
  {| clientState := clientState w; controlConfigValues := controlConfigValues w;
     timers := timers w; next_timer := next_timer w; sent := sent w;
     displayed := displayed w ++
       [{| speedMbps := speedMbps; status_text := status;
           progress := progress; progressPercent := progressPercent |}];
     startButton := startButton w; sockets_created := sockets_created w |}.

Definition set_startButton (text : string) (w : World) : World :=
  {| clientState := clientState w; controlConfigValues := controlConfigValues w;
     timers := timers w; next_timer := next_timer w; sent := sent w;
     displayed := displayed w; startButton := text;
     sockets_created := sockets_created w |}.

Definition setTimeout (cb : Callback) (delay : Z) (w : World) : positive * World :=
  (next_timer w,
   {| clientState := clientState w; controlConfigValues := controlConfigValues w;
      timers := <[next_timer w := (cb, delay)]> (timers w);
      next_timer := Pos.succ (next_timer w); sent := sent w;
      displayed := displayed w; startButton := startButton w;
      sockets_created := sockets_created w |}).

Definition clearTimeout (id : Z) (w : World) : World :=
  match id with
  | Zpos p =>
      {| clientState := clientState w; controlConfigValues := controlConfigValues w;
         timers := delete p (timers w); next_timer := next_timer w; sent := sent w;
         displayed := displayed w; startButton := startButton w;
         sockets_created := sockets_created w |}
  | _ => w
  end.

(** [clientState.ws && clientState.ws.readyState === WebSocket.OPEN] *)
Definition ws_open (env : Env) (w : World) : bool :=
  ws (clientState w) && match readyState env with OPEN => true | _ => false end.

(** ** Sending *)

Definition sendControlMessage (message : Action) (env : Env) (w : World) : World :=
  if ws_open env w then ws_send (Control message) w else w.

Definition stopUploadTest (w : World) : World :=
  match status (clientState w) with
  | upload uploadInterval uploadPayload =>
      if bool_decide (uploadInterval ≠ 0%Z)
      then set_status (upload 0 uploadPayload) (clearTimeout uploadInterval w)
      else w
  | _ => w
  end.

Definition resetToIdle (env : Env) (w : World) : World :=
  let w1 := stopUploadTest w in
  let w2 := updateSpeedDisplay (JS.of_Z 0) "Ready" no_text (JS.of_Z 0) w1 in
  let w3 := set_startButton "Start Test" w2 in
  if ws_open env w3
  then set_clientState {| status := ready; ws := ws (clientState w3) |} w3
  else set_clientState {| status := disconnected; ws := false |} w3.

(** One tick of the upload flood.  [ws.send] cannot throw on an open
    socket, so the catch branch of the source is not reached. *)
Definition sendUploadChunk (payload : N) (env : Env) (w : World) : World :=
  match status (clientState w) with
  | upload uploadInterval uploadPayload =>
      if negb (ws_open env w) then stopUploadTest w
      else if JS.ge (JS.of_N (bufferedAmount env)) BACKPRESSURE_THRESHOLD_BYTES then
        let '(timeoutId, w1) := setTimeout (cb_sendUploadChunk payload) 1 w in
        set_status (upload (Zpos timeoutId) uploadPayload) w1
      else
        let w1 := ws_send (Payload payload) w in
        let '(timeoutId, w2) := setTimeout (cb_sendUploadChunk payload) 0 w1 in
        set_status (upload (Zpos timeoutId) uploadPayload) w2
  | _ => stopUploadTest w
  end.

Definition startUploadTest (env : Env) (w : World) : World :=
  match status (clientState w) with
  | upload uploadInterval uploadPayload =>
      if bool_decide (uploadInterval ≠ 0%Z) then w
      else sendUploadChunk uploadPayload env w
  | _ => w
  end.

(** ** Messages from the server *)

(** [(bytes * 8 * 1000) / elapsedMs / (1024 * 1024)], the expression of
    the three result and progress branches of [handleServerMessage]. *)
Definition speed_of (bytes elapsedMs : number) : number :=
  JS.div (JS.div (JS.mul (JS.mul bytes (JS.of_Z 8)) (JS.of_Z 1000)) elapsedMs)
         (JS.of_Z (1024 * 1024)).

(** [Math.floor(bytes / 1024)] *)
Definition bytesKiB_of (bytes : number) : number :=
  JS.floor (JS.div bytes (JS.of_Z 1024)).

(** [clientState as DownloadState]: a field read on a state that is not a
    download state gives undefined, which is NaN in the arithmetic and false
    in the comparison that follow. *)
Definition as_DownloadState (s : Status) : DownloadState :=
  match s with
  | download d => d
  | _ => {| downloadBytesReceived := NaN; downloadStartTimeClient := NaN;
            downloadLastReceivedTimeClient := NaN; downloadCompleted := false |}
  end.

(** The elapsed time of a finished download: up to the last payload. *)
Definition download_elapsedMs (downloadState : DownloadState) (now : Q) : number :=
  if JS.gt (downloadLastReceivedTimeClient downloadState) (JS.of_Z 0)
  then JS.sub (downloadLastReceivedTimeClient downloadState)
              (downloadStartTimeClient downloadState)
  else JS.sub (Fin now) (downloadStartTimeClient downloadState).

(** The end of the branches uploadResult and downloadComplete: back to
    ready, and the display is reset two seconds later. *)
Definition test_complete (w : World) : World :=
  let w1 := set_clientState {| status := ready; ws := ws (clientState w) |} w in
  let w2 := set_startButton "Start Test" w1 in
  snd (setTimeout cb_resetDisplay 2000 w2).

Definition handleServerMessage (message : ServerMessage) (env : Env) (w : World) : World :=
  match message with
  | uploadProgress elapsedMs receivedBytes progressPercent =>
      match status (clientState w) with
      | upload _ _ =>
          updateSpeedDisplay (speed_of receivedBytes elapsedMs)
            ("Testing... " +:+ status_name (status (clientState w)))
            (kiB (bytesKiB_of receivedBytes) "transferred") progressPercent w
      | _ => w
      end
  | uploadResult elapsedMs receivedBytes =>
      let w1 :=
        match status (clientState w) with
        | upload _ _ =>
            stopUploadTest
              (updateSpeedDisplay (speed_of receivedBytes elapsedMs) "Complete"
                 (kiB (bytesKiB_of receivedBytes) "total") (JS.of_Z 100) w)
        | download downloadState =>
            let elapsedMs := download_elapsedMs downloadState (performance_now env 0) in
            updateSpeedDisplay (speed_of (downloadBytesReceived downloadState) elapsedMs)
              "Complete" (kiB (bytesKiB_of (downloadBytesReceived downloadState)) "total")
              (JS.of_Z 100) w
        | _ => w
        end in
      test_complete w1
  | downloadComplete =>
      let downloadState := as_DownloadState (status (clientState w)) in
      let elapsedMs := download_elapsedMs downloadState (performance_now env 0) in
      let w1 :=
        updateSpeedDisplay (speed_of (downloadBytesReceived downloadState) elapsedMs)
          "Complete" (kiB (bytesKiB_of (downloadBytesReceived downloadState)) "total")
          (JS.of_Z 100) w in
      test_complete w1
  end.

(** ** Payload from the server *)

Definition handlePayloadMessage (byteLength : N) (env : Env) (w : World) : World :=
  match status (clientState w) with
  | download downloadState =>
      if downloadCompleted downloadState then w
      else if JS.eq (downloadBytesReceived downloadState) (JS.of_Z (-1)) then
        let correctedStartTimeClient := Fin (performance_now env 0) in
        set_status (download {| downloadBytesReceived := JS.of_Z 0;
                                downloadStartTimeClient := correctedStartTimeClient;
                                downloadLastReceivedTimeClient := correctedStartTimeClient;
                                downloadCompleted := false |}) w
      else
        let newBytesReceived :=
          JS.add (downloadBytesReceived downloadState) (JS.of_N byteLength) in
        let newLastReceivedTime := Fin (performance_now env 0) in
        let updated := {| downloadBytesReceived := newBytesReceived;
                          downloadStartTimeClient := downloadStartTimeClient downloadState;
                          downloadLastReceivedTimeClient := newLastReceivedTime;
                          downloadCompleted := downloadCompleted downloadState |} in
        let w1 := set_status (download updated) w in
        let elapsedSoFar :=
          JS.sub (Fin (performance_now env 1)) (downloadStartTimeClient updated) in
        let speedBitsPerSec :=
          if JS.gt elapsedSoFar (JS.of_Z 0)
          then JS.floor (JS.div (JS.mul (JS.mul (downloadBytesReceived updated) (JS.of_Z 8))
                                        (JS.of_Z 1000)) elapsedSoFar)
          else JS.of_Z 0 in
        let speedMbps := JS.div speedBitsPerSec (JS.of_Z (1024 * 1024)) in
        let bytesKiB := bytesKiB_of (downloadBytesReceived updated) in
        let progressPercent :=
          JS.min (JS.mul (JS.div elapsedSoFar (durationMs (controlConfigValues w1)))
                         (JS.of_Z 100)) (JS.of_Z 100) in
        if JS.ge elapsedSoFar (durationMs (controlConfigValues w1)) then
          let w2 := updateSpeedDisplay speedMbps "Complete" (kiB bytesKiB "total")
                      (JS.of_Z 100) w1 in
          let w3 := set_status (download {| downloadBytesReceived := downloadBytesReceived updated;
                                            downloadStartTimeClient := downloadStartTimeClient updated;
                                            downloadLastReceivedTimeClient :=
                                              downloadLastReceivedTimeClient updated;
                                            downloadCompleted := true |}) w2 in
          sendControlMessage StopDownload env w3
        else
          updateSpeedDisplay speedMbps
            ("Testing... " +:+ status_name (status (clientState w1)))
            (kiB bytesKiB "received") progressPercent w1
  | _ => w
  end.

(** ** The start button *)

Definition startRealTest (env : Env) (w : World) : World :=
  match status (clientState w) with
  | ready =>
      let config := controlConfigValues w in
      match direction config with
      | dir_upload | dir_bidirectional =>
          let w1 := sendControlMessage (StartUpload (durationMs config)) env w in
          let w2 := set_status (upload 0 (payloadSizeBytes config)) w1 in
          let w3 := startUploadTest env w2 in
          set_startButton "Stop Test"
            (updateSpeedDisplay (JS.of_Z 0) "Starting..." no_text (JS.of_Z 0) w3)
      | dir_download =>
          let w1 := sendControlMessage
                      (StartDownload (durationMs config) (JS.of_N (payloadSizeBytes config)))
                      env w in
          let w2 := set_status
                      (download {| downloadBytesReceived := JS.of_Z (-1);
                                   downloadStartTimeClient := Fin (performance_now env 0);
                                   downloadLastReceivedTimeClient := JS.of_Z 0;
                                   downloadCompleted := false |}) w1 in
          set_startButton "Stop Test"
            (updateSpeedDisplay (JS.of_Z 0) "Starting..." no_text (JS.of_Z 0) w2)
      end
  | _ => w
  end.

Definition stopRealTest (env : Env) (w : World) : World :=
  match status (clientState w) with
  | upload _ _ | download _ =>
      let w1 := stopUploadTest w in
      let w2 := sendControlMessage
                  (match status (clientState w1) with
                   | upload _ _ => StopUpload
                   | _ => StopDownload
                   end) env w1 in
      let w3 := set_clientState {| status := ready; ws := ws (clientState w2) |} w2 in
      set_startButton "Start Test" w3
  | _ => w
  end.

Definition handleStartButtonClick (env : Env) (w : World) : World :=
  if String.eqb (startButton w) "Start Test" then startRealTest env w
  else stopRealTest env w.

(** ** The socket handlers of [connectWebSocket] *)

Definition connectWebSocket (w : World) : World :=
  if ws (clientState w) then w
  else
    {| clientState := clientState w; controlConfigValues := controlConfigValues w;
       timers := timers w; next_timer := next_timer w; sent := sent w;
       displayed := displayed w; startButton := startButton w;
       sockets_created := S (sockets_created w) |}.

Definition onopen (w : World) : World :=
  set_clientState {| status := ready; ws := true |} w.

Definition onmessage (data : MessageData) (env : Env) (w : World) : World :=
  match data with
  | TextFrame (Parsed message) => handleServerMessage message env w
  | TextFrame OtherType => w
  | TextFrame BadJson | TextFrame JsonNull =>
      resetToIdle env (set_clientState {| status := error; ws := ws (clientState w) |} w)
  | BinaryFrame byteLength => handlePayloadMessage byteLength env w
  end.

Definition onclose (env : Env) (w : World) : World :=
  let w1 := resetToIdle env w in
  let w2 := set_clientState {| status := disconnected; ws := false |} w1 in
  snd (setTimeout cb_connectWebSocket 2000 w2).

Definition onerror (env : Env) (w : World) : World :=
  resetToIdle env (set_clientState {| status := error; ws := ws (clientState w) |} w).

(** ** The event loop of the page *)

Inductive Event : Type :=
| WsOpen
| WsMessage (data : MessageData)
| WsClose
| WsError
| Click
| TimerFired (id : positive).

Definition run_callback (cb : Callback) (env : Env) (w : World) : World :=
  match cb with
  | cb_sendUploadChunk payload => sendUploadChunk payload env w
  | cb_resetDisplay => updateSpeedDisplay (JS.of_Z 0) "Ready" no_text (JS.of_Z 0) w
  | cb_connectWebSocket => connectWebSocket w
  end.

Definition step (w : World) (ev : Event) (env : Env) : World :=
  match ev with
  | WsOpen => onopen w
  | WsMessage data => onmessage data env w
  | WsClose => onclose env w
  | WsError => onerror env w
  | Click => handleStartButtonClick env w
  | TimerFired id =>
      match timers w !! id with
      | None => w
      | Some (cb, _) => run_callback cb env (clearTimeout (Zpos id) w)
      end
  end.

Fixpoint run (w : World) (turns : list (Event * Env)) : World :=
  match turns with
  | [] => w
  | (ev, env) :: rest => run (step w ev env) rest
  end.

(** The page once loaded, after [connectWebSocket] was called. *)
Definition initial (config : Config) : World :=
  {| clientState := {| status := disconnected; ws := false |};
     controlConfigValues := config;
     timers := ∅; next_timer := 1%positive; sent := []; displayed := [];
     startButton := "Start Test"; sockets_created := 1 |}.

(** A download state that is past its first payload. *)
Definition receiving (start : number) (d : DownloadState) : Prop :=
  downloadStartTimeClient d = start ∧
  ∃ k, downloadBytesReceived d = JS.of_Z k ∧ (0 ≤ k)%Z.

(** [formatSpeed(speedMbps)]: the number shown and its unit.  The number
    is the one handed to [toFixed(1)]; the rounding to one decimal of the
    text is left out. *)
Definition formatSpeed (speedMbps : number) : number * string :=
  let speedMbps := JS.min speedMbps (Fin (999999 # 10)) in
  if JS.gt speedMbps (JS.of_Z 0) && JS.lt speedMbps (JS.of_Z 10)
  then (JS.mul speedMbps (JS.of_Z 1000), "kbps")
  else (speedMbps, "Mbps").

(** The speed of the last call of [updateSpeedDisplay]. *)
Definition last_speed (w : World) : option number :=
  speedMbps <$> last (displayed w).

(** A stream of binary frames, each with the environment of its turn. *)
Definition payloads (chunks : list (N * Env)) : list (Event * Env) :=
  map (λ c, (WsMessage (BinaryFrame c.1), c.2)) chunks.

(** ** Notions for the properties of the page *)

(** The bytes of a stream of chunks. *)
Definition total_bytes (chunks : list (N * Env)) : Z :=
  foldr (λ c acc, (Z.of_N c.1 + acc)%Z) 0%Z chunks.

(** The speed that [handlePayloadMessage] displays:
    [Math.floor((bytes * 8 * 1000) / elapsedSoFar) / (1024 * 1024)], and 0
    when no time has elapsed. *)
Definition download_speed_of (bytes elapsedSoFar : number) : number :=
  JS.div (if JS.gt elapsedSoFar (JS.of_Z 0)
          then JS.floor (JS.div (JS.mul (JS.mul bytes (JS.of_Z 8)) (JS.of_Z 1000)) elapsedSoFar)
          else JS.of_Z 0)
         (JS.of_Z (1024 * 1024)).

(** The time of a payload since chunk #1: the second clock reading of its
    turn against the first reading of the turn of chunk #1. *)
Definition elapsed_since (env1 env : Env) : number :=
  JS.sub (Fin (performance_now env 1)) (Fin (performance_now env1 0)).

(** [x.toFixed(1)] for a finite [x] below 10^21, as the decimal it
    spells: the multiple of 1/10 nearest to [x], the larger one when two
    are as near; a negative [x] is formatted as [-x] with a minus sign. *)
Definition toFixed1 (x : Q) : Q :=
  if Qle_bool 0 x then (Qfloor (x * 10 + (1 # 2)) # 10)%Q
  else (- (Qfloor ((- x) * 10 + (1 # 2)) # 10))%Q.

(** The decimal that [formatSpeed(speedMbps).number] spells and the unit;
    None when the text is NaN or -Infinity. *)
Definition speed_shown (speedMbps : number) : option (Q * string) :=
  match formatSpeed speedMbps with
  | (Fin v, unit) => Some (toFixed1 v, unit)
  | _ => None
  end.

(** A test is running. *)
Definition is_testing (s : Status) : bool :=
  match s with
  | upload _ _ | download _ => true
  | _ => false
  end.

(** The label of the start button says what a click will do. *)
Definition button_agrees (w : World) : Prop :=
  startButton w = if is_testing (status (clientState w)) then "Stop Test" else "Start Test".

(** The worlds of the page: loaded, then any turns; a socket opens only
    while the page is disconnected, the one state in which
    [connectWebSocket] creates it. *)
Inductive reachable (config : Config) : World → Prop :=
| reachable_initial : reachable config (initial config)
| reachable_step w ev env :
    reachable config w →
    (ev = WsOpen → status (clientState w) = disconnected) →
    reachable config (step w ev env).

(** ** The debug panel *)

(** The CSS variables the panel uses as colours. *)
Inductive Colour : Type :=
| var_success
| var_warning
| var_error
| var_accent_primary
| var_text_secondary.

(** The text of the buffer status: "N/A", [`${bufferDisplay} MiB`] with
    the decimal [toFixed(1)] spells, or [`${bufferDisplay} KiB`] with a
    whole number. *)
Inductive BufferText : Type :=
| not_available
| buffer_MiB (bufferDisplay : Q)
| buffer_KiB (bufferDisplay : Z).

(** What [updateDebugDisplay] writes, with the two settings of
    [updateButtonStates] that it ends with: whether the start button is
    disabled and whether the inputs of the control panel are. *)
Record DebugDisplay : Type := {
  ws_state : string;
  ws_state_colour : Colour;
  client_state : string;
  client_state_colour : Colour;
  buffer_status : BufferText;
  buffer_status_colour : Colour;
  start_disabled : bool;
  controls_locked : bool;
}.

Definition updateDebugDisplay (env : Env) (w : World) : DebugDisplay :=
  let bufferBytes := bufferedAmount env in
  {| ws_state :=
       if ws (clientState w) then
         match readyState env with
         | CONNECTING => "Connecting"
         | OPEN => "Connected"
         | CLOSING => "Closing"
         | CLOSED => "Closed"
         end
       else "Disconnected";
     ws_state_colour :=
       if ws (clientState w) then
         match readyState env with
         | CONNECTING => var_warning
         | OPEN => var_success
         | CLOSING => var_warning
         | CLOSED => var_error
         end
       else var_error;
     client_state := status_name (status (clientState w));
     client_state_colour :=
       match status (clientState w) with
       | ready => var_success
       | upload _ _ | download _ => var_accent_primary
       | error => var_error
       | _ => var_text_secondary
       end;
     buffer_status :=
       if ws_open env w then
         if JS.ge (JS.of_N bufferBytes) (JS.of_Z (1024 * 1024))
         then buffer_MiB (toFixed1 (inject_Z (Z.of_N bufferBytes) / inject_Z (1024 * 1024)))
         else buffer_KiB (Qfloor (inject_Z (Z.of_N bufferBytes) / inject_Z 1024))
       else not_available;
     buffer_status_colour :=
       if ws_open env w then
         if JS.ge (JS.of_N bufferBytes) BACKPRESSURE_THRESHOLD_BYTES then var_error
         else if JS.ge (JS.of_N bufferBytes) BACKPRESSURE_WARNING_BYTES then var_warning
         else var_text_secondary
       else var_text_secondary;
     start_disabled :=
       negb (ws_open env w)
       || match status (clientState w) with error => true | _ => false end;
     controls_locked :=
       match status (clientState w) with ready => false | _ => true end |}.

(** ** The theme switcher *)

(** What [setTheme] touches: the attribute [data-theme] of the root
    element (None when absent), the theme buttons with their
    [dataset.theme] and whether they carry the class [active], and the
    entry [wiperf-theme] of localStorage (None when absent). *)
Record ThemePage : Type := {
  data_theme : option string;
  theme_buttons : list (string * bool);
  saved_theme : option string;
}.

Definition setTheme (theme : string) (p : ThemePage) : ThemePage :=
  {| data_theme := if String.eqb theme "system" then None else Some theme;
     theme_buttons := map (λ btn, (btn.1, String.eqb btn.1 theme)) (theme_buttons p);
     saved_theme := Some theme |}.

(** [localStorage.getItem("wiperf-theme") || "system"]: the empty string
    is falsy. *)
Definition initTheme (p : ThemePage) : ThemePage :=
  let savedTheme :=
    match saved_theme p with
    | Some s => if String.eqb s EmptyString then "system" else s
    | None => "system"
    end in
  setTheme savedTheme p.

End Client.

(** * The wire between the two endpoints *)

Module Wire.

(** [JSON.parse(JSON.stringify(x))] for a number: a finite number comes
    back as it was, NaN and the infinities come back as null. *)
Definition number_field (n : number) : json :=
  match n with
  | Fin q => JNum (Fin q)
  | _ => JNull
  end.

(** What the server's [JSON.parse] makes of the [JSON.stringify] of an
    action of the client. *)
Definition action_json (message : Client.Action) : json :=
  match message with
  | Client.StartUpload durationMs =>
      JObj [("type", JStr "startUpload"); ("durationMs", number_field durationMs)]
  | Client.StartDownload durationMs payloadSizeBytes =>
      JObj [("type", JStr "startDownload"); ("durationMs", number_field durationMs);
            ("payloadSizeBytes", number_field payloadSizeBytes)]
  | Client.StopUpload => JObj [("type", JStr "stopUpload")]
  | Client.StopDownload => JObj [("type", JStr "stopDownload")]
  end.

(** A frame of the client as the event the server gets. *)
Definition to_server (f : Client.Frame) : Server.MessageEvent :=
  match f with
  | Client.Control message => Server.TextData (Some (action_json message))
  | Client.Payload byteLength => Server.BinaryData byteLength
  end.

(** The action the server is to read from an action of the client. *)
Definition as_server (message : Client.Action) : Server.Action :=
  match message with
  | Client.StartUpload durationMs => Server.StartUpload durationMs
  | Client.StartDownload durationMs payloadSizeBytes =>
      Server.StartDownload durationMs payloadSizeBytes
  | Client.StopUpload => Server.StopUpload
  | Client.StopDownload => Server.StopDownload
  end.

(** A finite number above 0. *)
Definition positive_finite (n : number) : bool :=
  JS.is_finite n && JS.gt n (JS.of_Z 0).

(** The requests whose numbers are finite and above 0. *)
Definition well_formed (message : Client.Action) : bool :=
  match message with
  | Client.StartUpload durationMs => positive_finite durationMs
  | Client.StartDownload durationMs payloadSizeBytes =>
      positive_finite durationMs && positive_finite payloadSizeBytes
  | Client.StopUpload | Client.StopDownload => true
  end.

(** A frame of the server as the data of the event the client gets.  The
    numbers of a message reach the client as numbers when they are finite;
    a message with a field that is not (null on the wire) has no
    counterpart in [Client.ServerMessage]. *)
Definition to_client (f : Server.Frame) : option Client.MessageData :=
  match f with
  | Server.Binary byteLength => Some (Client.BinaryFrame byteLength)
  | Server.Text (Server.uploadProgress elapsedMs receivedBytes progressPercent) =>
      if JS.is_finite elapsedMs && JS.is_finite receivedBytes && JS.is_finite progressPercent
      then Some (Client.TextFrame
                   (Client.Parsed (Client.uploadProgress elapsedMs receivedBytes progressPercent)))
      else None
  | Server.Text (Server.uploadResult elapsedMs receivedBytes) =>
      if JS.is_finite elapsedMs && JS.is_finite receivedBytes
      then Some (Client.TextFrame (Client.Parsed (Client.uploadResult elapsedMs receivedBytes)))
      else None
  | Server.Text Server.downloadComplete =>
      Some (Client.TextFrame (Client.Parsed Client.downloadComplete))
  end.

End Wire.

(** * Definitions in the words of the specification *)

Module Spec.

(** *** The throughput formula *)

(** [speedBitsPerSecond = bytesReceived * 8 * 1000 / elapsedMs] *)
Definition speedBitsPerSecond (bytesReceived elapsedMs : number) : number :=
  JS.div (JS.mul (JS.mul bytesReceived (JS.of_Z 8)) (JS.of_Z 1000)) elapsedMs.

(** Decimal megabits per second. *)
Definition decimal_Mbps (bps : number) : number :=
  JS.div bps (JS.of_Z 1000000).

(** What the code divides by: [1024 * 1024]. *)
Definition binary_Mbps (bps : number) : number :=
  JS.div bps (JS.of_Z 1048576).

(** *** Control messages that are to be dropped *)

(** [v.k], undefined also when [v] is null. *)
Definition field (v : json) (k : string) : option json :=
  match get_prop v k with
  | Some x => x
  | None => None
  end.

(** The four control message types. *)
Definition known_type (v : json) : bool :=
  is_str (field v "type") "startUpload" || is_str (field v "type") "startDownload"
  || is_str (field v "type") "stopUpload" || is_str (field v "type") "stopDownload".

(** Not a number, or a number [<= 0]. *)
Definition bad_number (x : option json) : bool :=
  match as_number x with
  | None => true
  | Some n => JS.le n (JS.of_Z 0)
  end.

(** A text frame that is malformed JSON, or whose type is unknown, or
    that is a start request whose [durationMs] (for startDownload also
    [payloadSizeBytes]) is not a number or is [<= 0]. *)
Definition invalid_control (parsed : option json) : bool :=
  match parsed with
  | None => true
  | Some v =>
      negb (known_type v)
      || (is_str (field v "type") "startUpload" || is_str (field v "type") "startDownload")
         && bad_number (field v "durationMs")
      || is_str (field v "type") "startDownload" && bad_number (field v "payloadSizeBytes")
  end.

End Spec.

(** * Concrete scenarios *)

Module Scenario.

Definition server_env (t : Z) (buffered : N) : Server.Env :=
  {| Server.performance_now := λ _, inject_Z t; Server.bufferedAmount := buffered |}.

Definition client_env (t : Z) (buffered : N) : Client.Env :=
  {| Client.performance_now := λ _, inject_Z t;
     Client.readyState := Client.OPEN;
     Client.bufferedAmount := buffered |}.

Definition four_MiB : N := 4194304%N.

(** [{type: "startUpload", durationMs: 3000}] *)
Definition startUpload_3000 : Server.MessageEvent :=
  Server.TextData (Some (JObj [("type", JStr "startUpload");
                               ("durationMs", JNum (JS.of_Z 3000))])).

(** [{type: "startDownload", durationMs: 3000, payloadSizeBytes: 4194304}] *)
Definition startDownload_3000 : Server.MessageEvent :=
  Server.TextData (Some (JObj [("type", JStr "startDownload");
                               ("durationMs", JNum (JS.of_Z 3000));
                               ("payloadSizeBytes", JNum (JS.of_N four_MiB))])).

(** [{type: "startDownload", durationMs: 3000, payloadSizeBytes: 0}] *)
Definition startDownload_zero_payload : option json :=
  Some (JObj [("type", JStr "startDownload");
              ("durationMs", JNum (JS.of_Z 3000));
              ("payloadSizeBytes", JNum (JS.of_Z 0))]).

(** [{"type": "startUpload", "durationMs": 1e999}]: the number is too
    large for a double and parses to Infinity. *)
Definition startUpload_infinite : Server.MessageEvent :=
  Server.TextData (Some (JObj [("type", JStr "startUpload");
                               ("durationMs", JNum PosInf)])).


Definition stopUpload_msg : Server.MessageEvent :=
  Server.TextData (Some (JObj [("type", JStr "stopUpload")])).

Definition stopDownload_msg : Server.MessageEvent :=
  Server.TextData (Some (JObj [("type", JStr "stopDownload")])).

(** A connection that was just opened. *)
Definition server_connected : Server.World := Server.onopen Server.initial.

(** The connection after a startUpload handled at time 0. *)
Definition server_uploading : Server.World :=
  Server.set_clients
    (Some (Server.Upload (Server.startUpload (JS.of_Z 3000) (inject_Z 0))))
    server_connected.

(** The world of a turn that ended normally. *)
Definition world_of (o : Server.Outcome) : Server.World :=
  match o with
  | Server.Done w => w
  | Server.Uncaught _ w => w
  end.

(** The connection after a startDownload handled at time 0 with an empty
    socket buffer: the first chunk is out and the next tick is timer 1. *)
Definition server_flooding : Server.World :=
  world_of (Server.step server_connected (Server.SocketMessage startDownload_3000)
              (server_env 0 0)).

Definition download_config : Client.Config :=
  {| Client.direction := Client.dir_download;
     Client.durationMs := JS.of_Z 3000;
     Client.payloadSizeBytes := four_MiB |}.

Definition upload_config : Client.Config :=
  {| Client.direction := Client.dir_upload;
     Client.durationMs := JS.of_Z 3000;
     Client.payloadSizeBytes := four_MiB |}.

(** The page, connected and ready. *)
Definition client_ready (config : Client.Config) : Client.World :=
  Client.onopen (Client.initial config).

(** The page after a click on Start with the upload configuration, at
    time 0 and with an empty socket buffer: startUpload and the first chunk
    are out, the next tick is timer 1. *)
Definition client_uploading : Client.World :=
  Client.step (client_ready upload_config) Client.Click (client_env 0 0).

(** The page after a click on Start with the download configuration and
    two payloads from the server. *)
Definition client_downloading : Client.World :=
  Client.run (client_ready download_config)
    [(Client.Click, client_env 0 0);
     (Client.WsMessage (Client.BinaryFrame four_MiB), client_env 20 0);
     (Client.WsMessage (Client.BinaryFrame four_MiB), client_env 40 0)].

End Scenario.

(** * Facts about numbers *)

Module JSFacts.

Lemma add_of_Z a b : JS.add (JS.of_Z a) (JS.of_Z b) = JS.of_Z (a + b).
Proof.
  unfold JS.add, JS.of_Z, inject_Z, Qplus. simpl. do 2 f_equal. lia.
Qed.

Lemma eq_of_Z a b : JS.eq (JS.of_Z a) (JS.of_Z b) = bool_decide (a = b).
Proof.
  unfold JS.eq, JS.of_Z, inject_Z, Qeq_bool. simpl. rewrite !Z.mul_1_r.
  case_bool_decide as H.
  - subst. apply Z.eqb_refl.
  - by apply Z.eqb_neq.
Qed.

Lemma le_of_Z a b : JS.le (JS.of_Z a) (JS.of_Z b) = bool_decide (a ≤ b)%Z.
Proof.
  unfold JS.le, JS.of_Z, inject_Z, Qle_bool. simpl. rewrite !Z.mul_1_r.
  case_bool_decide as H.
  - by apply Z.leb_le.
  - by apply Z.leb_gt; lia.
Qed.

(** The elapsed time of a reading against itself is zero. *)
Lemma sub_self_le t d : JS.le d (JS.of_Z 0) = false → JS.ge (JS.sub (Fin t) (Fin t)) d = false.
Proof.
  unfold JS.ge, JS.sub, JS.add, JS.neg, JS.le, JS.of_Z. destruct d as [q| | |]; try done.
  intros H. apply not_true_is_false. intros H1. apply not_true_iff_false in H. apply H.
  apply Qle_bool_iff. apply Qle_bool_iff in H1.
  eapply Qle_trans; [exact H1|]. rewrite Qplus_opp_r. apply Qle_refl.
Qed.

End JSFacts.

(** * The upload measurement of the server *)

Import JSFacts.

Section ServerUpload.
Import Server.

Lemma set_clients_id w : set_clients (clients_get w) w = w.
Proof. by destruct w. Qed.

Lemma step_binary w st n env :
  clients_get w = Some st →
  step w (SocketMessage (BinaryData n)) env =
    match st with
    | Upload s =>
        Done (set_clients (Some (uploadData s n (performance_now env 0) w).1)
                (uploadData s n (performance_now env 0) w).2)
    | _ => Done w
    end.
Proof.
  intros H. unfold step, onmessage, processMessage. rewrite H. simpl.
  destruct st as [|s|r]; simpl.
  - by rewrite <- H, set_clients_id.
  - by destruct (uploadData s n (performance_now env 0) w).
  - by rewrite <- H, set_clients_id.
Qed.

Lemma uploadData_first D t0 n now w :
  uploadData (startUpload D t0) n now w =
    (Upload {| startTimeOnServerMs := Fin now; requestedDurationMs := D;
               bytesReceived := JS.of_Z 0 |}, w).
Proof. reflexivity. Qed.

Lemma uploadData_counting start D k s n now w :
  counting start D k s →
  uploadData s n now w =
    let elapsedMs := JS.sub (Fin now) start in
    let bytes := JS.of_Z (k + Z.of_N n) in
    if JS.ge elapsedMs D
    then (Idle, socket_send (Text (uploadResult elapsedMs bytes)) w)
    else (Upload {| startTimeOnServerMs := start; requestedDurationMs := D;
                    bytesReceived := bytes |},
          socket_send (Text (uploadProgress elapsedMs bytes
            (JS.min (JS.mul (JS.div elapsedMs D) (JS.of_Z 100)) (JS.of_Z 100)))) w).
Proof.
  intros (Hs & Hd & Hb & Hk). unfold uploadData.
  rewrite Hb, eq_of_Z, bool_decide_eq_false_2 by lia.
  unfold JS.of_N. rewrite add_of_Z, Hs, Hd. reflexivity.
Qed.


Lemma server_run_payloads_cons w n env chunks :
  run w (payloads ((n, env) :: chunks)) =
    match step w (SocketMessage (BinaryData n)) env with
    | Done w1 => run w1 (payloads chunks)
    | Uncaught e w1 => Uncaught e w1
    end.
Proof. reflexivity. Qed.

Lemma run_idle_payloads chunks w :
  clients_get w = Some Idle → run w (payloads chunks) = Done w.
Proof.
  induction chunks as [|[n env] chunks IH]; intros H; [done|].
  rewrite server_run_payloads_cons, (step_binary w Idle) by done. by apply IH.
Qed.

Lemma clients_get_set c w : clients_get (set_clients c w) = c.
Proof. done. Qed.

Lemma sent_set_clients c w : sent (set_clients c w) = sent w.
Proof. done. Qed.

(** Once the first payload is in, no later payload writes the start time. *)
Lemma run_counting_keeps_clock start D chunks :
  ∀ w k s,
    clients_get w = Some (Upload s) → counting start D k s →
    ∃ w', run w (payloads chunks) = Done w' ∧
      (clients_get w' = Some Idle ∨
       ∃ s' k', clients_get w' = Some (Upload s') ∧ counting start D k' s').
Proof.
  induction chunks as [|[n env] chunks IH]; intros w k s Hw Hs.
  - exists w. split; [done|]. right. by exists s, k.
  - rewrite server_run_payloads_cons, (step_binary w (Upload s)) by done.
    rewrite (uploadData_counting start D k s) by done. cbv zeta.
    destruct (JS.ge _ D); simpl.
    + eexists. split; [by apply run_idle_payloads|]. by left.
    + eapply IH; [done|]. repeat split; simpl; try done. destruct Hs as (_ & _ & _ & ?). lia.
Qed.

Lemma total_bytes_app a b : total_bytes (a ++ b) = (total_bytes a + total_bytes b)%Z.
Proof.
  unfold total_bytes. induction a as [|c a IH]; simpl; [done|]. rewrite IH. lia.
Qed.

(** The stream up to the first chunk that finds the duration elapsed. *)
Lemma run_until_complete env1 D cN envN middle :
  ∀ w k s,
    clients_get w = Some (Upload s) →
    counting (Fin (performance_now env1 0)) D k s →
    Forall (λ c, JS.ge (elapsed_since env1 c.2) D = false) middle →
    JS.ge (elapsed_since env1 envN) D = true →
    ∃ w' progress,
      run w (payloads (middle ++ [(cN, envN)])) = Done w' ∧
      clients_get w' = Some Idle ∧
      sent w' = sent w ++ progress ++
        [Text (uploadResult (elapsed_since env1 envN)
                 (JS.of_Z (k + total_bytes (middle ++ [(cN, envN)]))))] ∧
      forallb is_uploadProgress progress = true ∧
      length progress = length middle.
Proof.
  induction middle as [|[n env] middle IH]; intros w k s Hw Hs Hmid Hlast;
    (rewrite <- app_comm_cons || rewrite app_nil_l).
  - rewrite server_run_payloads_cons, (step_binary w (Upload s)) by done.
    rewrite (uploadData_counting _ D k s) by done. cbv zeta.
    unfold elapsed_since in Hlast. rewrite Hlast. cbn [fst snd].
    eexists; exists []. split; [apply run_idle_payloads; apply clients_get_set|].
    split; [done|]. split; [|done].
    cbn [sent set_clients socket_send app]. unfold total_bytes. cbn [foldr fst].
    by rewrite Z.add_0_r.
  - rewrite server_run_payloads_cons, (step_binary w (Upload s)) by done.
    rewrite (uploadData_counting _ D k s) by done. cbv zeta.
    inversion Hmid as [|? ? Hc Hmid']; subst. cbn [snd] in Hc.
    unfold elapsed_since in Hc. rewrite Hc. cbn [fst snd].
    match goal with
    | |- context [run ?w1 _] =>
        destruct (IH w1 (k + Z.of_N n)%Z
                    {| startTimeOnServerMs := Fin (performance_now env1 0);
                       requestedDurationMs := D;
                       bytesReceived := JS.of_Z (k + Z.of_N n) |})
          as (w' & progress & Hrun & Hst & Hsent & Hall & Hlen);
          [apply clients_get_set| |exact Hmid'|exact Hlast|]
    end.
    { repeat split; try done. destruct Hs as (_ & _ & _ & ?). lia. }
    exists w'. eexists (Text (uploadProgress _ _ _) :: progress).
    split; [exact Hrun|]. split; [done|]. split; [|split].
    + rewrite Hsent. cbn [sent set_clients socket_send].
      rewrite <- !app_assoc. cbn [app].
      replace (k + Z.of_N n + total_bytes (middle ++ [(cN, envN)]))%Z
        with (k + total_bytes ((n, env) :: middle ++ [(cN, envN)]))%Z; [done|].
      unfold total_bytes. cbn [foldr fst]. lia.
    + exact Hall.
    + cbn [length]. by rewrite Hlen.
Qed.

End ServerUpload.

(** * The download measurement of the client *)

Section ClientDownload.
Import Client.

Lemma status_sendControlMessage m env w :
  clientState (sendControlMessage m env w) = clientState w.
Proof. unfold sendControlMessage. by destruct (ws_open env w). Qed.

Lemma handlePayloadMessage_first start n env w :
  status (clientState w) =
    download {| downloadBytesReceived := JS.of_Z (-1);
                downloadStartTimeClient := start;
                downloadLastReceivedTimeClient := JS.of_Z 0;
                downloadCompleted := false |} →
  handlePayloadMessage n env w =
    set_status (download {| downloadBytesReceived := JS.of_Z 0;
                            downloadStartTimeClient := Fin (performance_now env 0);
                            downloadLastReceivedTimeClient := Fin (performance_now env 0);
                            downloadCompleted := false |}) w.
Proof. intros H. unfold handlePayloadMessage. by rewrite H. Qed.

Lemma handlePayloadMessage_receiving start d n env w :
  status (clientState w) = download d → receiving start d →
  ∃ d', status (clientState (handlePayloadMessage n env w)) = download d' ∧
        receiving start d'.
Proof.
  intros Hw (Hs & k & Hb & Hk). unfold handlePayloadMessage. rewrite Hw.
  destruct (downloadCompleted d) eqn:Hc.
  { exists d. split; [done|]. split; [done|]. by exists k. }
  rewrite Hb, eq_of_Z, bool_decide_eq_false_2 by lia.
  unfold JS.of_N. rewrite add_of_Z. cbv zeta.
  match goal with |- context [if ?c then _ else _] => destruct c end.
  - rewrite status_sendControlMessage. eexists. split; [reflexivity|].
    split; [done|]. exists (k + Z.of_N n)%Z. split; [done|lia].
  - eexists. split; [reflexivity|].
    split; [done|]. exists (k + Z.of_N n)%Z. split; [done|lia].
Qed.

Lemma client_run_payloads_cons w n env chunks :
  run w (payloads ((n, env) :: chunks)) =
    run (handlePayloadMessage n env w) (payloads chunks).
Proof. reflexivity. Qed.

Lemma run_receiving_keeps_clock start chunks :
  ∀ w d, status (clientState w) = download d → receiving start d →
    ∃ d', status (clientState (run w (payloads chunks))) = download d' ∧
          receiving start d'.
Proof.
  induction chunks as [|[n env] chunks IH]; intros w d Hw Hd.
  - by exists d.
  - rewrite client_run_payloads_cons.
    destruct (handlePayloadMessage_receiving start d n env w Hw Hd) as (d' & H1 & H2).
    by apply (IH _ d').
Qed.

Lemma startRealTest_download env w :
  status (clientState w) = ready →
  direction (controlConfigValues w) = dir_download →
  status (clientState (startRealTest env w)) =
    download {| downloadBytesReceived := JS.of_Z (-1);
                downloadStartTimeClient := Fin (performance_now env 0);
                downloadLastReceivedTimeClient := JS.of_Z 0;
                downloadCompleted := false |}.
Proof. intros H1 H2. unfold startRealTest. by rewrite H1, H2. Qed.

End ClientDownload.

(** * C1: the first payload *)

Lemma server_run_cons w ev env rest :
  Server.run w ((ev, env) :: rest) =
    match Server.step w ev env with
    | Server.Done w1 => Server.run w1 rest
    | Server.Uncaught e w1 => Server.Uncaught e w1
    end.
Proof. reflexivity. Qed.

Lemma step_startUpload w ev D env :
  Server.clients_get w = Some Server.Idle →
  Server.parseEventToAction ev = Some (Server.StartUpload D) →
  Server.step w (Server.SocketMessage ev) env =
    Server.Done (Server.set_clients
      (Some (Server.Upload (Server.startUpload D (Server.performance_now env 0)))) w).
Proof.
  intros Hidle Hev. cbn [Server.step]. unfold Server.onmessage, Server.processMessage.
  by rewrite Hidle, Hev.
Qed.

(** C1.  On both receiving sides the first binary frame after the start
    request is not counted: the turn that handles it only stores the clock
    reading of that turn as the start time and sets the byte count to 0;
    nothing else in the world changes, so no progress goes out (server) and
    nothing is displayed or sent (client).  Whatever payload follows, the
    start time stays the one of that first frame: the reset happens once. *)
Theorem first_payload_resets_clock_and_is_not_counted
    (sw : Server.World) (start : Server.MessageEvent) (D : number)
    (senv0 senv1 : Server.Env) (sn : N) (srest : list (N * Server.Env))
    (cw : Client.World) (cenv0 cenv1 : Client.Env) (cn : N)
    (crest : list (N * Client.Env)) :
  Server.clients_get sw = Some Server.Idle →
  Server.parseEventToAction start = Some (Server.StartUpload D) →
  Client.status (Client.clientState cw) = Client.ready →
  Client.direction (Client.controlConfigValues cw) = Client.dir_download →
  let sfirst :=
    {| Server.startTimeOnServerMs := Fin (Server.performance_now senv1 0);
       Server.requestedDurationMs := D;
       Server.bytesReceived := JS.of_Z 0 |} in
  let cw0 := Client.startRealTest cenv0 cw in
  let cfirst :=
    {| Client.downloadBytesReceived := JS.of_Z 0;
       Client.downloadStartTimeClient := Fin (Client.performance_now cenv1 0);
       Client.downloadLastReceivedTimeClient := Fin (Client.performance_now cenv1 0);
       Client.downloadCompleted := false |} in
  (Server.run sw [(Server.SocketMessage start, senv0);
                  (Server.SocketMessage (Server.BinaryData sn), senv1)]
     = Server.Done (Server.set_clients (Some (Server.Upload sfirst)) sw)
   ∧ ∃ sw2,
       Server.run (Server.set_clients (Some (Server.Upload sfirst)) sw)
         (Server.payloads srest) = Server.Done sw2
       ∧ (Server.clients_get sw2 = Some Server.Idle
          ∨ ∃ s k, Server.clients_get sw2 = Some (Server.Upload s)
                   ∧ Server.counting (Fin (Server.performance_now senv1 0)) D k s))
  ∧ (Client.step cw0 (Client.WsMessage (Client.BinaryFrame cn)) cenv1
       = Client.set_status (Client.download cfirst) cw0
     ∧ ∃ d, Client.status (Client.clientState
              (Client.run (Client.set_status (Client.download cfirst) cw0)
                 (Client.payloads crest))) = Client.download d
            ∧ Client.receiving (Fin (Client.performance_now cenv1 0)) d).
Proof.
  intros Hidle Hstart Hready Hdir sfirst cw0 cfirst. split; [split|split].
  - rewrite server_run_cons, (step_startUpload _ _ D) by done.
    rewrite server_run_cons.
    rewrite (step_binary _ (Server.Upload (Server.startUpload D (Server.performance_now senv0 0))))
      by done.
    rewrite uploadData_first. by destruct sw.
  - eapply run_counting_keeps_clock; [reflexivity|].
    repeat split; reflexivity || lia.
  - cbn [Client.step Client.onmessage].
    eapply handlePayloadMessage_first. by apply startRealTest_download.
  - eapply run_receiving_keeps_clock; [reflexivity|].
    split; [done|]. exists 0%Z. split; [done|lia].
Qed.

(** The scenario of a 3000 ms test with chunks of 4 MiB, on both sides. *)
Lemma first_payload_witness :
  Server.run Scenario.server_connected
    [(Server.SocketMessage Scenario.startUpload_3000, Scenario.server_env 0 0);
     (Server.SocketMessage (Server.BinaryData Scenario.four_MiB), Scenario.server_env 15 0)]
  = Server.Done (Server.set_clients
      (Some (Server.Upload {| Server.startTimeOnServerMs := Fin (inject_Z 15);
                              Server.requestedDurationMs := JS.of_Z 3000;
                              Server.bytesReceived := JS.of_Z 0 |}))
      Scenario.server_connected)
  ∧ Client.step
      (Client.startRealTest (Scenario.client_env 0 0)
         (Scenario.client_ready Scenario.download_config))
      (Client.WsMessage (Client.BinaryFrame Scenario.four_MiB)) (Scenario.client_env 20 0)
    = Client.set_status
        (Client.download {| Client.downloadBytesReceived := JS.of_Z 0;
                            Client.downloadStartTimeClient := Fin (inject_Z 20);
                            Client.downloadLastReceivedTimeClient := Fin (inject_Z 20);
                            Client.downloadCompleted := false |})
        (Client.startRealTest (Scenario.client_env 0 0)
           (Scenario.client_ready Scenario.download_config)).
Proof.
  destruct (first_payload_resets_clock_and_is_not_counted
              Scenario.server_connected Scenario.startUpload_3000 (JS.of_Z 3000)
              (Scenario.server_env 0 0) (Scenario.server_env 15 0) Scenario.four_MiB
              [(Scenario.four_MiB, Scenario.server_env 35 0)]
              (Scenario.client_ready Scenario.download_config)
              (Scenario.client_env 0 0) (Scenario.client_env 20 0) Scenario.four_MiB
              [(Scenario.four_MiB, Scenario.client_env 40 0)]
              eq_refl eq_refl eq_refl eq_refl) as [[Hs _] [Hc _]].
  split; [exact Hs | exact Hc].
Defined.

(** * C6, C8, C10: results and the registry of the server *)

Section ServerResults.
Import Server.

(** Whatever the stream, a result that a payload triggers reports an
    elapsed time of at least the requested duration. *)
Lemma run_payloads_results_past_duration start D chunks :
  ∀ w k s,
    clients_get w = Some (Upload s) → counting start D k s →
    ∃ w' new, run w (payloads chunks) = Done w' ∧ sent w' = sent w ++ new ∧
              forallb (result_past D) new = true.
Proof.
  induction chunks as [|[n env] chunks IH]; intros w k s Hw Hs.
  - exists w, []. by rewrite app_nil_r.
  - rewrite server_run_payloads_cons, (step_binary w (Upload s)) by done.
    rewrite (uploadData_counting start D k s) by done. cbv zeta.
    destruct (JS.ge _ D) eqn:Hge; cbn [fst snd].
    + eexists. exists [Text (uploadResult (JS.sub (Fin (performance_now env 0)) start)
                                          (JS.of_Z (k + Z.of_N n)))].
      split; [apply run_idle_payloads; apply clients_get_set|].
      split; [done|]. cbn [forallb result_past]. by rewrite Hge.
    + match goal with
      | |- context [run ?w1 _] =>
          destruct (IH w1 (k + Z.of_N n)%Z
                      {| startTimeOnServerMs := start; requestedDurationMs := D;
                         bytesReceived := JS.of_Z (k + Z.of_N n) |})
            as (w' & new & Hrun & Hsent & Hall); [apply clients_get_set| |]
      end.
      { repeat split; try done. destruct Hs as (_ & _ & _ & ?). lia. }
      exists w'. eexists (Text (uploadProgress _ _ _) :: new).
      split; [exact Hrun|]. split; [|exact Hall].
      rewrite Hsent. cbn [sent set_clients socket_send]. by rewrite <- app_assoc.
Qed.

(** A start request that the parser lets through asks for a duration
    that is not [<= 0]. *)
Lemma parseEventToAction_StartUpload event D :
  parseEventToAction event = Some (StartUpload D) → JS.le D (JS.of_Z 0) = false.
Proof.
  unfold parseEventToAction. intros H.
  repeat match type of H with
         | context [match ?x with _ => _ end] => destruct x eqn:?
         end; try discriminate H.
  by injection H as <-.
Qed.

(** C6.  After startUpload with duration [D], chunk #1 only resets the
    clock; the chunks that find less than [D] elapsed since that reset each
    produce one uploadProgress; the first chunk that finds at least [D]
    elapsed produces the uploadResult, whose [elapsedMs] is that elapsed time
    and whose [receivedBytes] is the sum of the sizes of all chunks but
    chunk #1, and the connection is idle again.  Chunk #1 itself never
    counts as past the duration.  For any stream at all, a result triggered
    by a chunk reports [elapsedMs >= D]. *)
Theorem upload_completes_at_first_chunk_past_duration
    (w : World) (start : MessageEvent) (D : number) (env0 : Env)
    (c1 : N) (env1 : Env) (middle : list (N * Env)) (cN : N) (envN : Env) :
  clients_get w = Some Idle →
  parseEventToAction start = Some (StartUpload D) →
  Forall (λ c, JS.ge (elapsed_since env1 c.2) D = false) middle →
  JS.ge (elapsed_since env1 envN) D = true →
  (∃ w' progress,
     run w ((SocketMessage start, env0)
              :: payloads ((c1, env1) :: middle ++ [(cN, envN)])) = Done w' ∧
     clients_get w' = Some Idle ∧
     sent w' = sent w ++ progress ++
       [Text (uploadResult (elapsed_since env1 envN)
                (JS.of_Z (total_bytes (middle ++ [(cN, envN)]))))] ∧
     forallb is_uploadProgress progress = true ∧
     length progress = length middle)
  ∧ JS.ge (elapsed_since env1 env1) D = false
  ∧ (∀ chunks, ∃ w' new,
       run w ((SocketMessage start, env0) :: payloads ((c1, env1) :: chunks)) = Done w' ∧
       sent w' = sent w ++ new ∧ forallb (result_past D) new = true).
Proof.
  intros Hidle Hstart Hmid Hlast.
  assert (Hfirst : ∀ chunks,
    run w ((SocketMessage start, env0) :: payloads ((c1, env1) :: chunks)) =
    run (set_clients (Some (Upload {| startTimeOnServerMs := Fin (performance_now env1 0);
                                      requestedDurationMs := D;
                                      bytesReceived := JS.of_Z 0 |})) w)
        (payloads chunks)).
  { intros chunks. rewrite server_run_cons, (step_startUpload _ _ D) by done.
    rewrite server_run_payloads_cons.
    rewrite (step_binary _ (Upload (startUpload D (performance_now env0 0)))) by done.
    rewrite uploadData_first. cbn [fst snd]. by destruct w. }
  assert (Hcount : counting (Fin (performance_now env1 0)) D 0
                     {| startTimeOnServerMs := Fin (performance_now env1 0);
                        requestedDurationMs := D;
                        bytesReceived := JS.of_Z 0 |}) by done.
  split; [|split].
  - rewrite Hfirst.
    destruct (run_until_complete env1 D cN envN middle _ 0%Z _
                (clients_get_set _ w) Hcount Hmid Hlast) as (w' & progress & H).
    by exists w', progress.
  - apply sub_self_le. by eapply parseEventToAction_StartUpload.
  - intros chunks. rewrite Hfirst.
    destruct (run_payloads_results_past_duration _ D chunks
                _ 0%Z _ (clients_get_set _ w) Hcount) as (w' & new & H).
    by exists w', new.
Qed.

(** startUpload of 3000 ms at time 0, then chunks of 4 MiB at times 15, 35,
    55 and 3015: two progress messages, then the result with 12 MiB. *)
Lemma upload_completes_witness :
  ∃ w' progress,
    run Scenario.server_connected
      ((SocketMessage Scenario.startUpload_3000, Scenario.server_env 0 0)
         :: payloads [(Scenario.four_MiB, Scenario.server_env 15 0);
                      (Scenario.four_MiB, Scenario.server_env 35 0);
                      (Scenario.four_MiB, Scenario.server_env 55 0);
                      (Scenario.four_MiB, Scenario.server_env 3015 0)]) = Done w' ∧
    clients_get w' = Some Idle ∧
    sent w' = sent Scenario.server_connected ++ progress ++
      [Text (uploadResult
               (elapsed_since (Scenario.server_env 15 0) (Scenario.server_env 3015 0))
               (JS.of_Z 12582912))] ∧
    forallb is_uploadProgress progress = true ∧
    length progress = 2.
Proof.
  refine (proj1 (upload_completes_at_first_chunk_past_duration
            Scenario.server_connected Scenario.startUpload_3000 (JS.of_Z 3000)
            (Scenario.server_env 0 0) Scenario.four_MiB (Scenario.server_env 15 0)
            [(Scenario.four_MiB, Scenario.server_env 35 0);
             (Scenario.four_MiB, Scenario.server_env 55 0)]
            Scenario.four_MiB (Scenario.server_env 3015 0)
            eq_refl eq_refl _ eq_refl)).
  repeat constructor.
Defined.

(** The registry has a handler exactly for the pairs of the table. *)
Lemma STATE_HANDLERS_registered clientState action :
  is_Some (STATE_HANDLERS clientState action)
  ↔ has_handler (status_of clientState) (type_of action) = true.
Proof.
  destruct clientState, action; cbn [STATE_HANDLERS status_of type_of];
    (split; [intros [? H]; try discriminate H; by vm_compute
            |intros H; try (by vm_compute in H); by eexists]).
Qed.

(** C8.  When the registry has no handler for the status of the
    connection and the type of a validated action, that is when the pair is
    not in the table, [processMessage] returns the state it was given and
    touches nothing, and the turn leaves the world as it was.  The registry
    has no handler for startUpload during an upload, nor for a binary frame
    outside an upload. *)
Theorem unregistered_action_leaves_state_unchanged :
  (∀ (clientState : ClientState) (action : Action),
     STATE_HANDLERS clientState action = None
     ↔ has_handler (status_of clientState) (type_of action) = false)
  ∧ (∀ (w : World) (clientState : ClientState) (event : MessageEvent)
       (action : Action) (env : Env),
       clients_get w = Some clientState →
       parseEventToAction event = Some action →
       STATE_HANDLERS clientState action = None →
       processMessage clientState event env w = Normal (clientState, w)
       ∧ step w (SocketMessage event) env = Done w)
  ∧ (∀ (state : UploadState) (durationMs : number),
       STATE_HANDLERS (Upload state) (StartUpload durationMs) = None)
  ∧ (∀ (clientState : ClientState) (byteLength : N),
       (∀ state, clientState ≠ Upload state) →
       STATE_HANDLERS clientState (UploadData byteLength) = None).
Proof.
  split; [|split; [|split]].
  - intros clientState action.
    rewrite <- not_true_iff_false, <- STATE_HANDLERS_registered.
    rewrite <- eq_None_not_Some. done.
  - intros w clientState event action env Hw Hev Hnone.
    assert (H : processMessage clientState event env w = Normal (clientState, w)).
    { unfold processMessage. by rewrite Hev, Hnone. }
    split; [exact H|]. cbn [step]. unfold onmessage. rewrite Hw, H.
    by rewrite <- Hw, set_clients_id.
  - reflexivity.
  - intros [|state|ref] byteLength Hne; try reflexivity. by destruct (Hne state).
Qed.

(** A second startUpload during an upload, and a binary frame while idle. *)
Lemma unregistered_action_witness :
  step Scenario.server_uploading (SocketMessage Scenario.startUpload_3000)
    (Scenario.server_env 5 0) = Done Scenario.server_uploading
  ∧ step Scenario.server_connected (SocketMessage (BinaryData Scenario.four_MiB))
      (Scenario.server_env 5 0) = Done Scenario.server_connected.
Proof.
  destruct unregistered_action_leaves_state_unchanged as (_ & H & _ & _).
  split.
  - refine (proj2 (H Scenario.server_uploading _ Scenario.startUpload_3000 _
                     (Scenario.server_env 5 0) eq_refl eq_refl eq_refl)).
  - refine (proj2 (H Scenario.server_connected _ (BinaryData Scenario.four_MiB) _
                     (Scenario.server_env 5 0) eq_refl eq_refl eq_refl)).
Defined.

(** C10.  A stopUpload that arrives in the upload phase before any binary
    frame is answered by an uploadResult whose [receivedBytes] is -1, the
    sentinel that startUpload stored. *)
Theorem stop_before_first_payload_reports_sentinel
    (w : World) (start stop : MessageEvent) (D : number) (env0 env1 : Env) :
  clients_get w = Some Idle →
  parseEventToAction start = Some (StartUpload D) →
  parseEventToAction stop = Some StopUpload →
  run w [(SocketMessage start, env0); (SocketMessage stop, env1)] =
    Done (set_clients (Some Idle)
            (socket_send
               (Text (uploadResult
                        (JS.sub (Fin (performance_now env1 0)) (Fin (performance_now env0 0)))
                        (JS.of_Z (-1)))) w)).
Proof.
  intros Hidle Hstart Hstop.
  rewrite server_run_cons, (step_startUpload _ _ D) by done.
  rewrite server_run_cons. cbn [step run]. unfold onmessage, processMessage.
  rewrite clients_get_set, Hstop. cbn [STATE_HANDLERS stopUpload startUpload].
  reflexivity.
Qed.

(** startUpload at time 10 and stopUpload at time 250, no payload between. *)
Lemma stop_before_first_payload_witness :
  run Scenario.server_connected
    [(SocketMessage Scenario.startUpload_3000, Scenario.server_env 10 0);
     (SocketMessage Scenario.stopUpload_msg, Scenario.server_env 250 0)] =
  Done (set_clients (Some Idle)
          (socket_send
             (Text (uploadResult (JS.sub (Fin (inject_Z 250)) (Fin (inject_Z 10)))
                      (JS.of_Z (-1)))) Scenario.server_connected)).
Proof.
  exact (stop_before_first_payload_reports_sentinel
           Scenario.server_connected Scenario.startUpload_3000 Scenario.stopUpload_msg
           (JS.of_Z 3000) (Scenario.server_env 10 0) (Scenario.server_env 250 0)
           eq_refl eq_refl eq_refl).
Defined.

End ServerResults.

(** * The flood loops *)

Section ServerFlood.
Import Server.

Lemma heap_clearTimeout id w : heap (clearTimeout id w) = heap w.
Proof. by destruct id. Qed.

Lemma sent_clearTimeout id w : sent (clearTimeout id w) = sent w.
Proof. by destruct id. Qed.

Lemma clients_get_clearTimeout id w : clients_get (clearTimeout id w) = clients_get w.
Proof. by destruct id. Qed.

Lemma clients_get_set_downloadFloodTimer ref v w :
  clients_get (set_downloadFloodTimer ref v w) = clients_get w.
Proof. unfold set_downloadFloodTimer. by destruct (heap w !! ref). Qed.

Lemma heap_set_downloadFloodTimer ref v w st :
  heap w !! ref = Some st →
  heap (set_downloadFloodTimer ref v w) !! ref =
    Some {| d_startTimeOnServerMs := d_startTimeOnServerMs st;
            d_requestedDurationMs := d_requestedDurationMs st;
            downloadFloodTimer := v |}.
Proof.
  intros H. unfold set_downloadFloodTimer. rewrite H. cbn [heap set_heap].
  apply lookup_insert_eq.
Qed.

Lemma cleanupForDownloadFlood_running w ref st :
  clients_get w = Some (Download ref) → heap w !! ref = Some st →
  (downloadFloodTimer st > 0)%Z →
  cleanupForDownloadFlood w =
    set_downloadFloodTimer ref FLOOD_CANCELLED (clearTimeout (downloadFloodTimer st) w).
Proof.
  intros Hc Hh Ht. unfold cleanupForDownloadFlood.
  by rewrite Hc, Hh, bool_decide_eq_true_2.
Qed.

Lemma cleanupForDownloadFlood_idempotent w :
  cleanupForDownloadFlood (cleanupForDownloadFlood w) = cleanupForDownloadFlood w.
Proof.
  destruct (clients_get w) as [[| |ref]|] eqn:Hc;
    try (unfold cleanupForDownloadFlood; rewrite Hc; by rewrite Hc).
  destruct (heap w !! ref) as [st|] eqn:Hh;
    [|unfold cleanupForDownloadFlood; rewrite Hc, Hh; by rewrite Hc, Hh].
  destruct (decide (downloadFloodTimer st > 0)%Z) as [Ht|Ht].
  - rewrite (cleanupForDownloadFlood_running w ref st) by done.
    unfold cleanupForDownloadFlood at 1.
    rewrite clients_get_set_downloadFloodTimer, clients_get_clearTimeout, Hc.
    erewrite heap_set_downloadFloodTimer by (rewrite heap_clearTimeout; exact Hh).
    reflexivity.
  - unfold cleanupForDownloadFlood. rewrite Hc, Hh, bool_decide_eq_false_2 by done.
    by rewrite Hc, Hh, bool_decide_eq_false_2.
Qed.

(** A tick that finds the marker does nothing, whatever the buffer. *)
Lemma sendDownloadChunk_cancelled w flood cl st buffered now :
  floods w !! flood = Some cl → heap w !! clientState cl = Some st →
  downloadFloodTimer st = FLOOD_CANCELLED →
  sendDownloadChunk flood buffered now w = w.
Proof.
  intros Hf Hh Ht. unfold sendDownloadChunk. by rewrite Hf, Hh, Ht.
Qed.


Lemma onclose_idempotent w : onclose (onclose w) = onclose w.
Proof.
  unfold onclose. unfold cleanupForDownloadFlood at 1.
  by rewrite (clients_get_set None).
Qed.

Lemma step_stopDownload w ref stop env :
  clients_get w = Some (Download ref) →
  parseEventToAction stop = Some StopDownload →
  step w (SocketMessage stop) env =
    Done (set_clients (Some Idle) (stopDownload ref w).2).
Proof.
  intros Hc Hs. cbn [step]. unfold onmessage, processMessage. by rewrite Hc, Hs.
Qed.

Lemma floods_set_downloadFloodTimer ref v w :
  floods (set_downloadFloodTimer ref v w) = floods w.
Proof. unfold set_downloadFloodTimer. by destruct (heap w !! ref). Qed.

Lemma timers_set_downloadFloodTimer ref v w :
  timers (set_downloadFloodTimer ref v w) = timers w.
Proof. unfold set_downloadFloodTimer. by destruct (heap w !! ref). Qed.

Lemma sent_set_downloadFloodTimer ref v w :
  sent (set_downloadFloodTimer ref v w) = sent w.
Proof. unfold set_downloadFloodTimer. by destruct (heap w !! ref). Qed.

(** The tick of a live flood that finds room in the socket buffer. *)
Lemma sendDownloadChunk_room w flood cl st buffered now :
  floods w !! flood = Some cl → heap w !! clientState cl = Some st →
  downloadFloodTimer st ≠ FLOOD_CANCELLED →
  JS.ge (JS.of_N buffered) (backpressureThresholdBytes cl) = false →
  sendDownloadChunk flood buffered now w =
    let w1 := socket_send (Binary (payload cl)) w in
    if JS.ge (JS.sub (Fin now) (floodStartTimeMs cl))
             (JS.add (f_requestedDurationMs cl) DOWNLOAD_DURATION_BUFFER_MS)
    then set_downloadFloodTimer (clientState cl) FLOOD_CANCELLED w1
    else set_downloadFloodTimer (clientState cl) (Zpos (next_timer w))
           (setTimeout (cb_sendDownloadChunk flood) 0 w1).2.
Proof.
  intros Hf Hh Ht Hb. unfold sendDownloadChunk.
  by rewrite Hf, Hh, bool_decide_eq_false_2, Hb.
Qed.

(** The tick of a live flood that finds the socket buffer at or over the
    threshold. *)
Lemma sendDownloadChunk_full w flood cl st buffered now :
  floods w !! flood = Some cl → heap w !! clientState cl = Some st →
  downloadFloodTimer st ≠ FLOOD_CANCELLED →
  JS.ge (JS.of_N buffered) (backpressureThresholdBytes cl) = true →
  sendDownloadChunk flood buffered now w =
    let w1 := debounceBackPressureLog flood w in
    set_downloadFloodTimer (clientState cl) (Zpos (next_timer w1))
      (setTimeout (cb_sendDownloadChunk flood) 1 w1).2.
Proof.
  intros Hf Hh Ht Hb. unfold sendDownloadChunk.
  by rewrite Hf, Hh, bool_decide_eq_false_2, Hb.
Qed.

Lemma sent_debounceBackPressureLog flood w :
  sent (debounceBackPressureLog flood w) = sent w.
Proof.
  unfold debounceBackPressureLog. destruct (floods w !! flood) as [cl|]; [|done].
  by destruct (backpressureDebounceTimer cl).
Qed.

(** Backpressure on the server: a tick that finds [bufferedAmount] at or
    over the threshold of its flood sends nothing and schedules itself
    again in 1 ms. *)
Lemma server_backpressure_pauses_sending w flood cl st buffered now :
  floods w !! flood = Some cl → heap w !! clientState cl = Some st →
  downloadFloodTimer st ≠ FLOOD_CANCELLED →
  JS.ge (JS.of_N buffered) (backpressureThresholdBytes cl) = true →
  let w' := sendDownloadChunk flood buffered now w in
  sent w' = sent w ∧
  ∃ id, timers w' !! id = Some (cb_sendDownloadChunk flood, 1%Z).
Proof.
  intros Hf Hh Ht Hb w'. subst w'.
  rewrite (sendDownloadChunk_full w flood cl st) by done. cbv zeta.
  rewrite sent_set_downloadFloodTimer, timers_set_downloadFloodTimer.
  cbn [setTimeout snd sent timers]. split; [apply sent_debounceBackPressureLog|].
  eexists. apply lookup_insert_eq.
Qed.

Lemma debounceBackPressureLog_same_flood flood w cl :
  floods w !! flood = Some cl →
  ∃ cl', floods (debounceBackPressureLog flood w) !! flood = Some cl' ∧ same_flood cl cl'.
Proof.
  intros Hf. unfold debounceBackPressureLog. rewrite Hf.
  destruct (backpressureDebounceTimer cl); cbn [setTimeout set_floods floods];
    rewrite lookup_insert_eq; by eexists.
Qed.


(** ** The download flood along a run *)

Lemma no_tick_pending_invariant w : no_tick_pending w → tick_invariant w.
Proof. intros H id f delay Ht. by destruct (H id f delay). Qed.

Lemma tick_invariant_not_download w :
  tick_invariant w → (∀ f, clients_get w ≠ Some (Download f)) → no_tick_pending w.
Proof. intros Hinv Hc id f delay Ht. destruct (Hinv _ _ _ Ht) as [H _]. by destruct (Hc f). Qed.

Lemma no_tick_pending_timers w w' :
  timers w' = timers w → no_tick_pending w → no_tick_pending w'.
Proof. intros Ht H id f delay. rewrite Ht. apply H. Qed.

Lemma timers_clearTimeout_pos id w : timers (clearTimeout (Zpos id) w) = delete id (timers w).
Proof. done. Qed.

(** Removing the recorded timer of the current download leaves no tick. *)
Lemma no_tick_after_clear w f st :
  tick_invariant w → clients_get w = Some (Download f) → heap w !! f = Some st →
  (downloadFloodTimer st > 0)%Z →
  no_tick_pending (clearTimeout (downloadFloodTimer st) w).
Proof.
  intros Hinv Hc Hh Hpos id f' delay Ht.
  destruct (downloadFloodTimer st) as [|p|p] eqn:Hp; try lia.
  rewrite timers_clearTimeout_pos in Ht.
  destruct (decide (p = id)) as [->|Hne]; [by rewrite lookup_delete_eq in Ht|].
  rewrite lookup_delete_ne in Ht by done.
  destruct (Hinv _ _ _ Ht) as (Hc' & cl & st' & _ & _ & Hh' & Hid).
  rewrite Hc in Hc'. injection Hc' as <-. rewrite Hh in Hh'. injection Hh' as <-.
  rewrite Hp in Hid. by injection Hid.
Qed.

(** Without a positive recorded timer there is no tick at all. *)
Lemma no_tick_without_timer w f :
  tick_invariant w → clients_get w = Some (Download f) →
  (∀ st, heap w !! f = Some st → ¬ (downloadFloodTimer st > 0)%Z) →
  no_tick_pending w.
Proof.
  intros Hinv Hc Hno id f' delay Ht.
  destruct (Hinv _ _ _ Ht) as (Hc' & cl & st & _ & _ & Hh & Hid).
  rewrite Hc in Hc'. injection Hc' as <-. apply (Hno st Hh). lia.
Qed.

Lemma no_tick_pending_cleanup w :
  tick_invariant w → no_tick_pending (cleanupForDownloadFlood w).
Proof.
  intros Hinv. unfold cleanupForDownloadFlood.
  destruct (clients_get w) as [[| |f]|] eqn:Hc;
    try (apply tick_invariant_not_download; [done|by rewrite Hc]).
  destruct (heap w !! f) as [st|] eqn:Hh.
  - case_bool_decide as Hpos.
    + eapply no_tick_pending_timers; [apply timers_set_downloadFloodTimer|].
      by apply (no_tick_after_clear w f st).
    + apply (no_tick_without_timer w f); [done..|]. intros st' Hst'. congruence.
  - apply (no_tick_without_timer w f); [done..|]. intros st' Hst'. congruence.
Qed.


Lemma ticks_of_invariant f w :
  ticks_of f w → clients_get w = Some (Download f) → tick_invariant w.
Proof.
  intros H Hc id f' delay Ht. destruct (H _ _ _ Ht) as (-> & Hrest). by split.
Qed.

Lemma no_tick_pending_ticks_of f w : no_tick_pending w → ticks_of f w.
Proof. intros H id f' delay Ht. by destruct (H id f' delay). Qed.

Lemma timers_debounceBackPressureLog flood w id f delay :
  timers (debounceBackPressureLog flood w) !! id = Some (cb_sendDownloadChunk f, delay) →
  timers w !! id = Some (cb_sendDownloadChunk f, delay).
Proof.
  unfold debounceBackPressureLog. destruct (floods w !! flood) as [cl|]; [|done].
  destruct (backpressureDebounceTimer cl); [done|].
  cbn [setTimeout set_floods timers].
  destruct (decide (next_timer w = id)) as [->|Hne].
  - by rewrite lookup_insert_eq.
  - by rewrite lookup_insert_ne.
Qed.

Lemma clients_get_debounceBackPressureLog flood w :
  clients_get (debounceBackPressureLog flood w) = clients_get w.
Proof.
  unfold debounceBackPressureLog. destruct (floods w !! flood) as [cl|]; [|done].
  by destruct (backpressureDebounceTimer cl).
Qed.

Lemma heap_debounceBackPressureLog flood w :
  heap (debounceBackPressureLog flood w) = heap w.
Proof.
  unfold debounceBackPressureLog. destruct (floods w !! flood) as [cl|]; [|done].
  by destruct (backpressureDebounceTimer cl).
Qed.

Lemma clients_get_sendDownloadChunk f buffered now w :
  clients_get (sendDownloadChunk f buffered now w) = clients_get w.
Proof.
  unfold sendDownloadChunk.
  destruct (floods w !! f) as [cl|]; [|done].
  destruct (heap w !! clientState cl) as [st|]; [|done].
  case_bool_decide; [done|].
  destruct (JS.ge (JS.of_N buffered) (backpressureThresholdBytes cl)).
  - cbn [setTimeout]. rewrite clients_get_set_downloadFloodTimer. cbn [clients_get].
    apply clients_get_debounceBackPressureLog.
  - match goal with |- context [if ?c then _ else _] => destruct c end;
      cbn [setTimeout]; by rewrite clients_get_set_downloadFloodTimer.
Qed.

(** A tick run on a world without pending tick leaves at most its own. *)
Lemma sendDownloadChunk_ticks_of f cl st buffered now w :
  no_tick_pending w → floods w !! f = Some cl → clientState cl = f →
  heap w !! f = Some st →
  ticks_of f (sendDownloadChunk f buffered now w).
Proof.
  intros Hno Hf Hcl Hh.
  destruct (decide (downloadFloodTimer st = FLOOD_CANCELLED)) as [Hc|Hc].
  { rewrite (sendDownloadChunk_cancelled w f cl st) by (by rewrite ?Hcl).
    by apply no_tick_pending_ticks_of. }
  assert (Hh' : heap w !! clientState cl = Some st) by (by rewrite Hcl).
  destruct (JS.ge (JS.of_N buffered) (backpressureThresholdBytes cl)) eqn:Hb.
  - rewrite (sendDownloadChunk_full w f cl st) by done. cbv zeta. rewrite Hcl.
    intros id f' delay. rewrite timers_set_downloadFloodTimer.
    cbn [setTimeout snd timers].
    destruct (decide (next_timer (debounceBackPressureLog f w) = id)) as [<-|Hne].
    + rewrite lookup_insert_eq. intros [= <- <-]. split; [done|].
      destruct (debounceBackPressureLog_same_flood f w cl Hf) as (cl' & Hcl' & Hsame & _).
      exists cl'. eexists. rewrite floods_set_downloadFloodTimer. cbn [floods].
      split; [exact Hcl'|]. split; [by rewrite Hsame|].
      split.
      { apply heap_set_downloadFloodTimer. cbn [heap].
        rewrite heap_debounceBackPressureLog. exact Hh. }
      reflexivity.
    + rewrite lookup_insert_ne by done. intros Ht.
      apply timers_debounceBackPressureLog in Ht. by destruct (Hno id f' delay).
  - rewrite (sendDownloadChunk_room w f cl st) by done. cbv zeta. rewrite Hcl.
    match goal with |- context [if ?c then _ else _] => destruct c end.
    + intros id f' delay. rewrite timers_set_downloadFloodTimer. cbn [socket_send timers].
      intros Ht. by destruct (Hno id f' delay).
    + intros id f' delay. rewrite timers_set_downloadFloodTimer.
      cbn [setTimeout snd socket_send timers next_timer].
      destruct (decide (next_timer w = id)) as [<-|Hne].
      * rewrite lookup_insert_eq. intros [= <- <-]. split; [done|].
        exists cl. eexists. rewrite floods_set_downloadFloodTimer. cbn [floods].
        split; [exact Hf|]. split; [done|].
        split.
        { apply heap_set_downloadFloodTimer. exact Hh. }
        reflexivity.
      * rewrite lookup_insert_ne by done. intros Ht. by destruct (Hno id f' delay).
Qed.


Lemma ticks_of_set_clients f c w : ticks_of f w → ticks_of f (set_clients c w).
Proof. done. Qed.

Lemma tick_invariant_startDownload durationMs payloadSizeBytes env w ref w' :
  no_tick_pending w →
  startDownload durationMs payloadSizeBytes env w = Normal (Download ref, w') →
  ticks_of ref w'.
Proof.
  intros Hno. unfold startDownload, initiateDownloadFlooding. cbn [alloc].
  destruct (JS.to_index payloadSizeBytes) as [n|]; [|done]. intros [= <- <-].
  eapply sendDownloadChunk_ticks_of.
  - eapply no_tick_pending_timers; [|exact Hno]. done.
  - apply lookup_insert_eq.
  - done.
  - apply lookup_insert_eq.
Qed.

Lemma tick_invariant_onmessage w event env w' :
  tick_invariant w → onmessage event env w = Done w' → tick_invariant w'.
Proof.
  intros Hinv. unfold onmessage.
  destruct (clients_get w) as [st|] eqn:Hc; [|by intros [= <-]].
  unfold processMessage.
  destruct (parseEventToAction event) as [action|];
    [|rewrite <- Hc, set_clients_id; by intros [= <-]].
  destruct st as [|state|f], action;
    cbn [STATE_HANDLERS]; cbv beta iota;
    try (rewrite <- Hc, set_clients_id; by intros [= <-]).
  - intros [= <-]. apply no_tick_pending_invariant.
    eapply no_tick_pending_timers; [|apply (tick_invariant_not_download w); [done|]]; [done|].
    by rewrite Hc.
  - destruct (startDownload durationMs payloadSizeBytes env w) as [[st' w1]|] eqn:Hs; [|done].
    intros [= <-].
    assert (Hno : no_tick_pending w).
    { apply tick_invariant_not_download; [done|]. by rewrite Hc. }
    assert (∃ ref, st' = Download ref) as [ref ->].
    { revert Hs. unfold startDownload, initiateDownloadFlooding. cbn [alloc].
      destruct (JS.to_index payloadSizeBytes); [|done]. intros [= <- _]. by eexists. }
    apply (ticks_of_invariant ref); [|done].
    apply ticks_of_set_clients. by eapply tick_invariant_startDownload.
  - intros [= <-]. apply no_tick_pending_invariant.
    eapply no_tick_pending_timers; [|apply (tick_invariant_not_download w); [done|]]; [done|].
    by rewrite Hc.
  - destruct (uploadData state byteLength (performance_now env 0) w) as [st' w1] eqn:Hu.
    intros [= <-]. apply no_tick_pending_invariant.
    eapply no_tick_pending_timers; [|apply (tick_invariant_not_download w); [done|]].
    + cbn [set_clients timers]. revert Hu. unfold uploadData.
      repeat case_match; by intros [= <- <-].
    + by rewrite Hc.
  - intros [= <-]. apply no_tick_pending_invariant. unfold stopDownload.
    destruct (heap w !! f) as [st|] eqn:Hh.
    + case_bool_decide as Hpos.
      * eapply no_tick_pending_timers; [|by apply (no_tick_after_clear w f st)]. done.
      * eapply no_tick_pending_timers; [|apply (no_tick_without_timer w f)]; [done..|].
        intros st' Hst'. congruence.
    + eapply no_tick_pending_timers; [|apply (no_tick_without_timer w f)]; [done..|].
      intros st' Hst'. congruence.
Qed.

Lemma tick_invariant_debounceExpired flood w :
  tick_invariant w → tick_invariant (debounceExpired flood w).
Proof.
  intros Hinv id f delay. unfold debounceExpired.
  destruct (floods w !! flood) as [cl0|] eqn:Hf0; [|apply Hinv].
  cbn [set_floods timers clients_get floods heap]. intros Ht.
  destruct (Hinv _ _ _ Ht) as (Hc & cl & st & Hf & Hcl & Hh & Hid).
  split; [done|].
  destruct (decide (flood = f)) as [->|Hne].
  - rewrite Hf0 in Hf. injection Hf as ->. eexists _, st. rewrite lookup_insert_eq.
    split; [done|]. by split.
  - exists cl, st. by rewrite lookup_insert_ne.
Qed.

(** The invariant holds along every run. *)
Lemma tick_invariant_step w ev env w' :
  tick_invariant w → ev ≠ SocketOpen → step w ev env = Done w' → tick_invariant w'.
Proof.
  intros Hinv Hev. destruct ev as [| | |event|id]; cbn [step]; try done.
  - intros [= <-]. apply no_tick_pending_invariant.
    eapply no_tick_pending_timers; [|by apply no_tick_pending_cleanup]. done.
  - intros [= <-]. apply no_tick_pending_invariant.
    eapply no_tick_pending_timers; [|by apply no_tick_pending_cleanup]. done.
  - by apply tick_invariant_onmessage.
  - destruct (timers w !! id) as [[cb delay]|] eqn:Ht; [|by intros [= <-]].
    intros [= <-]. destruct cb as [f|f]; cbn [run_callback].
    + destruct (Hinv _ _ _ Ht) as (Hc & cl & st & Hf & Hcl & Hh & Hid).
      assert (Hno : no_tick_pending (clearTimeout (Z.pos id) w)).
      { rewrite <- Hid. apply (no_tick_after_clear w f st); [done..|]. lia. }
      apply (ticks_of_invariant f).
      * by apply (sendDownloadChunk_ticks_of f cl st).
      * rewrite clients_get_sendDownloadChunk. exact Hc.
    + apply tick_invariant_debounceExpired. intros id' f' delay' Ht'.
      cbn [clearTimeout timers] in Ht'.
      apply lookup_delete_Some in Ht' as [_ Ht']. exact (Hinv _ _ _ Ht').
Qed.

Lemma reachable_tick_invariant w : reachable w → tick_invariant w.
Proof.
  induction 1 as [|w ev env w' _ IH Hev Hstep].
  - intros id f delay Ht. cbn [onopen initial set_clients timers] in Ht.
    by rewrite lookup_empty in Ht.
  - by eapply tick_invariant_step.
Qed.


(** Without a pending tick, a timer that fires sends nothing and leaves no
    pending tick. *)
Lemma no_tick_pending_timer_turn w id env :
  no_tick_pending w →
  ∃ w', step w (TimerFired id) env = Done w' ∧ sent w' = sent w ∧ no_tick_pending w'.
Proof.
  intros Hno. cbn [step].
  destruct (timers w !! id) as [[[f|f] delay]|] eqn:Ht.
  - by destruct (Hno id f delay).
  - eexists. split; [reflexivity|]. cbn [run_callback]. unfold debounceExpired.
    cbn [clearTimeout floods].
    assert (Hdel : no_tick_pending (clearTimeout (Zpos id) w)).
    { intros id' f' delay' Ht'. cbn [clearTimeout timers] in Ht'.
      apply lookup_delete_Some in Ht' as [_ Ht']. by destruct (Hno id' f' delay'). }
    destruct (floods w !! f); [|by split].
    split; [done|]. by eapply no_tick_pending_timers; [|exact Hdel].
  - by exists w.
Qed.

Lemma no_tick_pending_timer_turns l :
  ∀ w, no_tick_pending w →
    ∃ w', run w (timer_turns l) = Done w' ∧ sent w' = sent w ∧ no_tick_pending w'.
Proof.
  induction l as [|[id env] l IH]; intros w Hno.
  - by exists w.
  - destruct (no_tick_pending_timer_turn w id env Hno) as (w1 & Hstep & Hsent & Hno1).
    destruct (IH w1 Hno1) as (w' & Hrun & Hsent' & Hno').
    exists w'. split; [|split; [congruence|done]].
    change (run w (timer_turns ((id, env) :: l)))
      with (match step w (TimerFired id) env with
            | Done w1 => run w1 (timer_turns l)
            | Uncaught e w1 => Uncaught e w1
            end).
    by rewrite Hstep.
Qed.

(** The natural end of a flood, along a run: the tick that finds room in
    the buffer and the duration plus 500 ms elapsed sends its chunk and
    leaves no tick behind. *)
Lemma flood_tick_past_duration w id f delay cl env :
  reachable w →
  timers w !! id = Some (cb_sendDownloadChunk f, delay) →
  floods w !! f = Some cl →
  JS.ge (JS.of_N (bufferedAmount env)) (backpressureThresholdBytes cl) = false →
  JS.ge (JS.sub (Fin (performance_now env 0)) (floodStartTimeMs cl))
        (JS.add (f_requestedDurationMs cl) (JS.of_Z 500)) = true →
  ∃ w', step w (TimerFired id) env = Done w'
        ∧ sent w' = sent w ++ [Binary (payload cl)]
        ∧ no_tick_pending w'.
Proof.
  intros Hreach Ht Hf Hroom Hpast.
  pose proof (reachable_tick_invariant w Hreach) as Hinv.
  destruct (Hinv _ _ _ Ht) as (Hc & cl' & st & Hf' & Hcl & Hh & Hid).
  rewrite Hf in Hf'. injection Hf' as <-.
  assert (Hno : no_tick_pending (clearTimeout (Z.pos id) w)).
  { rewrite <- Hid. apply (no_tick_after_clear w f st); [done..|]. lia. }
  cbn [step]. rewrite Ht. eexists. split; [reflexivity|]. cbn [run_callback].
  rewrite (sendDownloadChunk_room _ f cl st); [|done|by rewrite Hcl|rewrite Hid; done|done].
  cbv zeta. change DOWNLOAD_DURATION_BUFFER_MS with (JS.of_Z 500). rewrite Hpast.
  split; [by rewrite sent_set_downloadFloodTimer|].
  eapply no_tick_pending_timers; [|exact Hno]. by rewrite timers_set_downloadFloodTimer.
Qed.

End ServerFlood.

Section ClientFlood.
Import Client.

(** One tick of the upload flood on an open socket with room in its
    buffer: the payload goes out and the next tick is scheduled at once.
    No clock is read. *)
Lemma sendUploadChunk_room payload env w uploadInterval uploadPayload :
  status (clientState w) = upload uploadInterval uploadPayload →
  ws_open env w = true →
  JS.ge (JS.of_N (bufferedAmount env)) BACKPRESSURE_THRESHOLD_BYTES = false →
  sendUploadChunk payload env w =
    set_status (upload (Zpos (next_timer w)) uploadPayload)
      (setTimeout (cb_sendUploadChunk payload) 0 (ws_send (Payload payload) w)).2.
Proof.
  intros Hs Ho Hb. unfold sendUploadChunk. by rewrite Hs, Ho, Hb.
Qed.

(** Backpressure on the client: at or over the fixed threshold of 16 MiB
    nothing is sent and the tick is scheduled again in 1 ms. *)
Lemma sendUploadChunk_full payload env w uploadInterval uploadPayload :
  status (clientState w) = upload uploadInterval uploadPayload →
  ws_open env w = true →
  JS.ge (JS.of_N (bufferedAmount env)) BACKPRESSURE_THRESHOLD_BYTES = true →
  sendUploadChunk payload env w =
    set_status (upload (Zpos (next_timer w)) uploadPayload)
      (setTimeout (cb_sendUploadChunk payload) 1 w).2.
Proof.
  intros Hs Ho Hb. unfold sendUploadChunk. by rewrite Hs, Ho, Hb.
Qed.

End ClientFlood.

(** * C9, C4, C5: cancellation, duration and backpressure of the floods *)

Section ServerCancellation.
Import Server.

(** The running flood of the scenario is a world of a run. *)
Lemma server_flooding_reachable : reachable Scenario.server_flooding.
Proof.
  apply (reachable_step (onopen initial) (SocketMessage Scenario.startDownload_3000)
           (Scenario.server_env 0 0)); [apply reachable_open|discriminate|reflexivity].
Defined.

(** C9.  Cancelling the download flood twice is cancelling it once: the
    disconnect cleanup is idempotent, and so is the whole close handler;
    after an explicit stop the cleanup finds nothing to do; after the
    cleanup of a running flood the marker FLOOD_CANCELLED is in the state
    object, its timer is gone, and a stop has no timer left to clear.  A
    tick that finds the marker returns the world as it is, whatever
    [bufferedAmount] says: nothing is sent and nothing is scheduled.  Along
    any run of a connection, once the close handler or a stopDownload has
    run, no timer that fires sends anything. *)
Theorem download_flood_cancellation_is_idempotent :
  (∀ w, cleanupForDownloadFlood (cleanupForDownloadFlood w) = cleanupForDownloadFlood w)
  ∧ (∀ w, onclose (onclose w) = onclose w)
  ∧ (∀ w ref stop env,
       clients_get w = Some (Download ref) →
       parseEventToAction stop = Some StopDownload →
       ∃ w1, step w (SocketMessage stop) env = Done w1 ∧
             cleanupForDownloadFlood w1 = w1)
  ∧ (∀ w ref st,
       clients_get w = Some (Download ref) → heap w !! ref = Some st →
       (downloadFloodTimer st > 0)%Z →
       let w1 := cleanupForDownloadFlood w in
       heap w1 !! ref = Some {| d_startTimeOnServerMs := d_startTimeOnServerMs st;
                                d_requestedDurationMs := d_requestedDurationMs st;
                                downloadFloodTimer := FLOOD_CANCELLED |}
       ∧ timers w1 = delete (Z.to_pos (downloadFloodTimer st)) (timers w)
       ∧ sent w1 = sent w
       ∧ stopDownload ref w1 = (Idle, socket_send (Text downloadComplete) w1))
  ∧ (∀ w flood cl st buffered now,
       floods w !! flood = Some cl → heap w !! clientState cl = Some st →
       downloadFloodTimer st = FLOOD_CANCELLED →
       sendDownloadChunk flood buffered now w = w)
  ∧ (∀ w l,
       reachable w →
       (∃ w', run (onclose w) (timer_turns l) = Done w' ∧ sent w' = sent w)
       ∧ (∀ ref stop env,
            clients_get w = Some (Download ref) →
            parseEventToAction stop = Some StopDownload →
            ∃ w1 w', step w (SocketMessage stop) env = Done w1
                     ∧ sent w1 = sent w ++ [Text downloadComplete]
                     ∧ run w1 (timer_turns l) = Done w' ∧ sent w' = sent w1)).
Proof.
  split; [exact cleanupForDownloadFlood_idempotent|].
  split; [exact onclose_idempotent|].
  split; [|split; [|split]]; [| |exact sendDownloadChunk_cancelled|].
  3: {
    intros w l Hreach. pose proof (reachable_tick_invariant w Hreach) as Hinv. split.
    - destruct (no_tick_pending_timer_turns l (onclose w)) as (w' & Hrun & Hsent & _).
      { eapply no_tick_pending_timers; [|by apply no_tick_pending_cleanup]. done. }
      exists w'. split; [exact Hrun|]. rewrite Hsent. unfold onclose.
      cbn [set_clients sent]. unfold cleanupForDownloadFlood.
      repeat case_match; by rewrite ?sent_set_downloadFloodTimer, ?sent_clearTimeout.
    - intros ref stop env Hc Hs.
      pose proof (step_stopDownload w ref stop env Hc Hs) as Hstep.
      assert (Hinv1 : tick_invariant (set_clients (Some Idle) (stopDownload ref w).2))
        by (by eapply (tick_invariant_step w); [| |exact Hstep]).
      destruct (no_tick_pending_timer_turns l _
                  (tick_invariant_not_download _ Hinv1 ltac:(done)))
        as (w' & Hrun & Hsent & _).
      eexists _, w'. split; [exact Hstep|]. split; [|by split].
      cbn [set_clients sent]. unfold stopDownload. cbn [snd socket_send sent].
      repeat case_match; by rewrite ?sent_clearTimeout. }
  - intros w ref stop env Hc Hs. eexists. split; [by apply step_stopDownload|].
    unfold cleanupForDownloadFlood. by rewrite clients_get_set.
  - intros w ref st Hc Hh Ht w1. subst w1.
    rewrite (cleanupForDownloadFlood_running w ref st) by done.
    assert (Hh1 : heap (clearTimeout (downloadFloodTimer st) w) !! ref = Some st)
      by (by rewrite heap_clearTimeout).
    split; [by rewrite (heap_set_downloadFloodTimer _ _ _ st)|].
    unfold stopDownload.
    rewrite (heap_set_downloadFloodTimer _ _ _ st) by done. cbn [downloadFloodTimer].
    unfold set_downloadFloodTimer. rewrite Hh1.
    destruct (downloadFloodTimer st) as [|p|p] eqn:Hp; try lia.
    by cbn.
Qed.

(** The running flood of the scenario, cleaned up twice, then ticked and
    closed. *)
Lemma download_flood_cancellation_witness :
  cleanupForDownloadFlood (cleanupForDownloadFlood Scenario.server_flooding)
    = cleanupForDownloadFlood Scenario.server_flooding
  ∧ timers (cleanupForDownloadFlood Scenario.server_flooding) = ∅
  ∧ sendDownloadChunk 0 0 (inject_Z 100) (cleanupForDownloadFlood Scenario.server_flooding)
    = cleanupForDownloadFlood Scenario.server_flooding
  ∧ ∃ w', run (onclose Scenario.server_flooding)
            (timer_turns [(1%positive, Scenario.server_env 5 0)]) = Done w'
          ∧ sent w' = sent Scenario.server_flooding.
Proof.
  destruct download_flood_cancellation_is_idempotent as (H1 & _ & _ & H4 & H5 & H6).
  split; [exact (H1 Scenario.server_flooding)|].
  apply and_assoc. split;
    [|exact (proj1 (H6 Scenario.server_flooding [(1%positive, Scenario.server_env 5 0)]
                      server_flooding_reachable))].
  destruct (H4 Scenario.server_flooding 0
              {| d_startTimeOnServerMs := Fin (inject_Z 0);
                 d_requestedDurationMs := JS.of_Z 3000;
                 downloadFloodTimer := 1 |} eq_refl eq_refl eq_refl)
    as (Hheap & Htimers & _).
  split; [rewrite Htimers; reflexivity|].
  refine (H5 (cleanupForDownloadFlood Scenario.server_flooding) 0
            {| clientState := 0; floodStartTimeMs := Fin (inject_Z 0);
               f_requestedDurationMs := JS.of_Z 3000;
               backpressureThresholdBytes := JS.mul (JS.of_Z 2) (JS.of_N Scenario.four_MiB);
               payload := Scenario.four_MiB; backpressureCount := 0;
               backpressureDebounceTimer := None |} _ 0%N (inject_Z 100) eq_refl Hheap eq_refl).
Defined.

End ServerCancellation.

(** C4, as the code has it.  On the server, a tick of a live download
    flood that sends a chunk then compares the time elapsed since the start
    of the flood with the requested duration plus 500 ms: when that much has
    elapsed, no tick is scheduled, the state object gets the marker
    FLOOD_CANCELLED and every later tick of the flood is a no-op; otherwise
    the next tick is scheduled with delay 0.  No message is involved: along
    any run of a connection, after the tick that finds the time elapsed no
    timer that fires sends anything.  The client's upload flood has no such
    test: a tick that sends always schedules the next one, whatever the
    clock reads; it ends only when the client leaves the upload state. *)
Theorem flood_duration_check_after_send :
  (∀ (w : Server.World) flood cl st buffered now,
     Server.floods w !! flood = Some cl →
     Server.heap w !! Server.clientState cl = Some st →
     Server.downloadFloodTimer st ≠ Server.FLOOD_CANCELLED →
     JS.ge (JS.of_N buffered) (Server.backpressureThresholdBytes cl) = false →
     let w' := Server.sendDownloadChunk flood buffered now w in
     let elapsedMs := JS.sub (Fin now) (Server.floodStartTimeMs cl) in
     let limit := JS.add (Server.f_requestedDurationMs cl) (JS.of_Z 500) in
     Server.sent w' = Server.sent w ++ [Server.Binary (Server.payload cl)]
     ∧ (JS.ge elapsedMs limit = true →
          Server.timers w' = Server.timers w
          ∧ Server.heap w' !! Server.clientState cl =
              Some {| Server.d_startTimeOnServerMs := Server.d_startTimeOnServerMs st;
                      Server.d_requestedDurationMs := Server.d_requestedDurationMs st;
                      Server.downloadFloodTimer := Server.FLOOD_CANCELLED |}
          ∧ ∀ buffered' now', Server.sendDownloadChunk flood buffered' now' w' = w')
     ∧ (JS.ge elapsedMs limit = false →
          Server.timers w' =
            <[Server.next_timer w := (Server.cb_sendDownloadChunk flood, 0%Z)]>
              (Server.timers w)))
  ∧ (∀ (w : Server.World) id flood delay cl env l,
       Server.reachable w →
       Server.timers w !! id = Some (Server.cb_sendDownloadChunk flood, delay) →
       Server.floods w !! flood = Some cl →
       JS.ge (JS.of_N (Server.bufferedAmount env)) (Server.backpressureThresholdBytes cl)
         = false →
       JS.ge (JS.sub (Fin (Server.performance_now env 0)) (Server.floodStartTimeMs cl))
             (JS.add (Server.f_requestedDurationMs cl) (JS.of_Z 500)) = true →
       ∃ w' w'',
         Server.step w (Server.TimerFired id) env = Server.Done w'
         ∧ Server.sent w' = Server.sent w ++ [Server.Binary (Server.payload cl)]
         ∧ Server.run w' (Server.timer_turns l) = Server.Done w''
         ∧ Server.sent w'' = Server.sent w')
  ∧ (∀ (w : Client.World) payload env uploadInterval uploadPayload,
       Client.status (Client.clientState w) = Client.upload uploadInterval uploadPayload →
       Client.ws_open env w = true →
       JS.ge (JS.of_N (Client.bufferedAmount env)) Client.BACKPRESSURE_THRESHOLD_BYTES
         = false →
       let w' := Client.sendUploadChunk payload env w in
       Client.sent w' = Client.sent w ++ [Client.Payload payload]
       ∧ Client.timers w' =
           <[Client.next_timer w := (Client.cb_sendUploadChunk payload, 0%Z)]>
             (Client.timers w)
       ∧ Client.status (Client.clientState w') =
           Client.upload (Zpos (Client.next_timer w)) uploadPayload).
Proof.
  split; [|split].
  2: {
    intros w id flood delay cl env l Hreach Ht Hf Hroom Hpast.
    destruct (flood_tick_past_duration w id flood delay cl env Hreach Ht Hf Hroom Hpast)
      as (w' & Hstep & Hsent & Hno).
    destruct (no_tick_pending_timer_turns l w' Hno) as (w'' & Hrun & Hsent' & _).
    by exists w', w''. }
  - intros w flood cl st buffered now Hf Hh Ht Hb w' elapsedMs limit. subst w'.
    rewrite (sendDownloadChunk_room w flood cl st) by done. cbv zeta.
    fold elapsedMs. change (JS.add _ Server.DOWNLOAD_DURATION_BUFFER_MS) with limit.
    destruct (JS.ge elapsedMs limit) eqn:Hge.
    + split; [by rewrite sent_set_downloadFloodTimer|]. split; [|done]. intros _.
      split; [by rewrite timers_set_downloadFloodTimer|].
      assert (Hh' : Server.heap (Server.set_downloadFloodTimer (Server.clientState cl)
                       Server.FLOOD_CANCELLED
                       (Server.socket_send (Server.Binary (Server.payload cl)) w))
                     !! Server.clientState cl = Some _)
        by (by apply heap_set_downloadFloodTimer).
      split; [exact Hh'|]. intros buffered' now'.
      eapply sendDownloadChunk_cancelled; [|exact Hh'|done].
      by rewrite floods_set_downloadFloodTimer.
    + split; [by rewrite sent_set_downloadFloodTimer|]. split; [done|]. intros _.
      by rewrite timers_set_downloadFloodTimer.
  - intros w payload env uploadInterval uploadPayload Hs Ho Hb w'. subst w'.
    by rewrite (sendUploadChunk_room payload env w uploadInterval uploadPayload).
Qed.

(** The flood of a 3000 ms download ticks at time 3600 with an empty
    buffer; the upload flood of the client ticks at the same time. *)
Lemma flood_duration_check_witness :
  Server.sent (Server.sendDownloadChunk 0 0 (inject_Z 3600) Scenario.server_flooding)
    = Server.sent Scenario.server_flooding ++ [Server.Binary Scenario.four_MiB]
  ∧ Server.timers (Server.sendDownloadChunk 0 0 (inject_Z 3600) Scenario.server_flooding)
    = Server.timers Scenario.server_flooding
  ∧ Client.sent (Client.sendUploadChunk Scenario.four_MiB (Scenario.client_env 3600 0)
                   Scenario.client_uploading)
    = Client.sent Scenario.client_uploading ++ [Client.Payload Scenario.four_MiB]
  ∧ ∃ w' w'',
      Server.step Scenario.server_flooding (Server.TimerFired 1) (Scenario.server_env 3600 0)
        = Server.Done w'
      ∧ Server.sent w' = Server.sent Scenario.server_flooding
                           ++ [Server.Binary Scenario.four_MiB]
      ∧ Server.run w' (Server.timer_turns [(1%positive, Scenario.server_env 3601 0);
                                           (2%positive, Scenario.server_env 3602 0)])
        = Server.Done w''
      ∧ Server.sent w'' = Server.sent w'.
Proof.
  destruct flood_duration_check_after_send as (Hserver & Hrun & Hclient).
  apply and_assoc. apply and_assoc. split;
    [|exact (Hrun Scenario.server_flooding 1%positive 0 0%Z
               {| Server.clientState := 0; Server.floodStartTimeMs := Fin (inject_Z 0);
                  Server.f_requestedDurationMs := JS.of_Z 3000;
                  Server.backpressureThresholdBytes :=
                    JS.mul (JS.of_Z 2) (JS.of_N Scenario.four_MiB);
                  Server.payload := Scenario.four_MiB; Server.backpressureCount := 0;
                  Server.backpressureDebounceTimer := None |}
               (Scenario.server_env 3600 0)
               [(1%positive, Scenario.server_env 3601 0);
                (2%positive, Scenario.server_env 3602 0)]
               server_flooding_reachable eq_refl eq_refl eq_refl eq_refl)].
  apply and_assoc.
  destruct (Hserver Scenario.server_flooding 0
              {| Server.clientState := 0; Server.floodStartTimeMs := Fin (inject_Z 0);
                 Server.f_requestedDurationMs := JS.of_Z 3000;
                 Server.backpressureThresholdBytes :=
                   JS.mul (JS.of_Z 2) (JS.of_N Scenario.four_MiB);
                 Server.payload := Scenario.four_MiB; Server.backpressureCount := 0;
                 Server.backpressureDebounceTimer := None |}
              {| Server.d_startTimeOnServerMs := Fin (inject_Z 0);
                 Server.d_requestedDurationMs := JS.of_Z 3000;
                 Server.downloadFloodTimer := 1 |}
              0%N (inject_Z 3600) eq_refl eq_refl ltac:(discriminate) eq_refl)
    as (Hsent & Hstop & _).
  destruct (Hstop eq_refl) as (Htimers & _).
  destruct (Hclient Scenario.client_uploading Scenario.four_MiB
              (Scenario.client_env 3600 0) 1%Z Scenario.four_MiB
              eq_refl eq_refl eq_refl) as (Hcsent & _).
  split; [exact Hsent|]. split; [exact Htimers|exact Hcsent].
Defined.

(** C4 as stated fails on the client.  The upload test of 3000 ms was
    started at time 0; the tick of timer 1 runs at time 10000, more than
    3000 + 500 ms after the start of the flood: it sends a chunk and
    schedules the next tick. *)
Lemma client_upload_flood_outlives_duration :
  JS.gt (JS.sub (Fin (inject_Z 10000)) (Fin (inject_Z 0)))
        (JS.add (Client.durationMs (Client.controlConfigValues Scenario.client_uploading))
                (JS.of_Z 500)) = true
  ∧ Client.sent (Client.step Scenario.client_uploading (Client.TimerFired 1)
                   (Scenario.client_env 10000 0))
    = Client.sent Scenario.client_uploading ++ [Client.Payload Scenario.four_MiB]
  ∧ Client.timers (Client.step Scenario.client_uploading (Client.TimerFired 1)
                     (Scenario.client_env 10000 0)) !! 2%positive
    = Some (Client.cb_sendUploadChunk Scenario.four_MiB, 0%Z).
Proof. repeat split; vm_compute; reflexivity. Qed.

(** C5 on the client, at a buffer of twice the chunk size.  The chunk is
    4 MiB and [bufferedAmount] reads 8 MiB when the tick of timer 1 runs:
    the tick sends a chunk all the same, because the client compares with
    the constant 16 MiB. *)
Lemma client_flood_sends_with_two_chunks_buffered :
  JS.ge (JS.of_N 8388608) (JS.mul (JS.of_Z 2) (JS.of_N Scenario.four_MiB)) = true
  ∧ Client.sent (Client.step Scenario.client_uploading (Client.TimerFired 1)
                   (Scenario.client_env 1 8388608))
    = Client.sent Scenario.client_uploading ++ [Client.Payload Scenario.four_MiB]
  ∧ Server.sent (Scenario.world_of
                   (Server.step Scenario.server_flooding (Server.TimerFired 1)
                      (Scenario.server_env 1 8388608)))
    = Server.sent Scenario.server_flooding.
Proof. repeat split; vm_compute; reflexivity. Qed.

(** * C2: the stop handshake of a download *)

Section ClientStop.
Import Client.

(** A click on Stop during a download: stopDownload goes out and the
    client is ready in the same turn. *)
Lemma stopRealTest_download w env d :
  status (clientState w) = download d → ws_open env w = true →
  status (clientState (stopRealTest env w)) = ready
  ∧ sent (stopRealTest env w) = sent w ++ [Control StopDownload].
Proof.
  intros Hs Ho. unfold stopRealTest, stopUploadTest. rewrite Hs.
  unfold sendControlMessage. by rewrite Hs, Ho.
Qed.

(** The sibling path: when a payload finds the duration elapsed, the client
    sends stopDownload and stays in the download state, completed. *)
Lemma handlePayloadMessage_completion w env d n :
  status (clientState w) = download d → downloadCompleted d = false →
  JS.eq (downloadBytesReceived d) (JS.of_Z (-1)) = false →
  ws_open env w = true →
  JS.ge (JS.sub (Fin (performance_now env 1)) (downloadStartTimeClient d))
        (durationMs (controlConfigValues w)) = true →
  let w' := handlePayloadMessage n env w in
  status (clientState w') =
    download {| downloadBytesReceived := JS.add (downloadBytesReceived d) (JS.of_N n);
                downloadStartTimeClient := downloadStartTimeClient d;
                downloadLastReceivedTimeClient := Fin (performance_now env 0);
                downloadCompleted := true |}
  ∧ sent w' = sent w ++ [Control StopDownload].
Proof.
  intros Hs Hc Hb Ho Hge w'. subst w'. unfold handlePayloadMessage.
  rewrite Hs, Hc, Hb. cbv zeta. cbn [downloadStartTimeClient controlConfigValues set_status set_clientState].
  rewrite Hge. unfold sendControlMessage.
  match goal with
  | |- context [ws_open env ?w1] => change (ws_open env w1) with (ws_open env w)
  end.
  by rewrite Ho.
Qed.

(** The acknowledgment takes the client to ready, whatever its state. *)
Lemma handleServerMessage_downloadComplete w env :
  status (clientState (handleServerMessage downloadComplete env w)) = ready.
Proof. reflexivity. Qed.

End ClientStop.

(** C2 fails on a user-initiated stop.  The page started a download test
    and received two payloads; the user clicks Stop at time 100.  At the end
    of that turn stopDownload has been sent and the client is already ready,
    though no downloadComplete has arrived. *)
Theorem user_stop_is_ready_before_the_acknowledgment :
  Client.status (Client.clientState Scenario.client_downloading)
    = Client.download {| Client.downloadBytesReceived := JS.of_N Scenario.four_MiB;
                         Client.downloadStartTimeClient := Fin (inject_Z 20);
                         Client.downloadLastReceivedTimeClient := Fin (inject_Z 40);
                         Client.downloadCompleted := false |}
  ∧ Client.status (Client.clientState
      (Client.step Scenario.client_downloading Client.Click (Scenario.client_env 100 0)))
    = Client.ready
  ∧ Client.sent (Client.step Scenario.client_downloading Client.Click
                   (Scenario.client_env 100 0))
    = [Client.Control (Client.StartDownload (JS.of_Z 3000) (JS.of_N Scenario.four_MiB));
       Client.Control Client.StopDownload].
Proof. repeat split; vm_compute; reflexivity. Qed.

(** * C3: the displayed speed *)

Section ClientSpeed.
Import Client.

Lemma last_speed_updateSpeedDisplay speed status progress percent w :
  last_speed (updateSpeedDisplay speed status progress percent w) = Some speed.
Proof. unfold last_speed. cbn [displayed updateSpeedDisplay]. by rewrite last_snoc. Qed.

Lemma displayed_stopUploadTest w : displayed (stopUploadTest w) = displayed w.
Proof.
  unfold stopUploadTest. destruct (status (clientState w)); try done.
  case_bool_decide; [|done]. cbn [set_status set_clientState displayed].
  by destruct uploadInterval.
Qed.

Lemma displayed_sendControlMessage m env w :
  displayed (sendControlMessage m env w) = displayed w.
Proof. unfold sendControlMessage. by destruct (ws_open env w). Qed.

Lemma binary_is_not_decimal q :
  ¬ (q == 0)%Q →
  JS.eq (Spec.binary_Mbps (Fin q)) (Spec.decimal_Mbps (Fin q)) = false.
Proof.
  intros Hq. unfold Spec.binary_Mbps, Spec.decimal_Mbps. cbn [JS.div JS.of_Z].
  change (Qeq_bool (inject_Z 1048576) 0) with false.
  change (Qeq_bool (inject_Z 1000000) 0) with false. cbn [JS.eq].
  apply not_true_is_false. intros H. apply Qeq_bool_iff in H.
  unfold Qdiv in H. apply Qmult_inj_l in H; [|done]. discriminate H.
Qed.


(** C3, as the code has it.  The client computes the speed from
    [bytes * 8 * 1000 / elapsedMs] in both directions and displays it divided
    by [1024 * 1024]: for an upload, on every uploadProgress and on the
    uploadResult, from the figures of the server; for a download, on every
    counted payload, where the bits per second are first rounded down (and
    are 0 when no time has elapsed), and on downloadComplete.  Dividing by
    [1024 * 1024] never gives the decimal value of a speed that is not 0. *)
Theorem displayed_speed_divides_by_binary_mega :
  (∀ w env elapsedMs receivedBytes progressPercent uploadInterval uploadPayload,
     status (clientState w) = upload uploadInterval uploadPayload →
     last_speed (handleServerMessage
                   (uploadProgress elapsedMs receivedBytes progressPercent) env w)
       = Some (Spec.binary_Mbps (Spec.speedBitsPerSecond receivedBytes elapsedMs))
     ∧ last_speed (handleServerMessage (uploadResult elapsedMs receivedBytes) env w)
       = Some (Spec.binary_Mbps (Spec.speedBitsPerSecond receivedBytes elapsedMs)))
  ∧ (∀ w env d byteLength,
       status (clientState w) = download d →
       downloadCompleted d = false →
       JS.eq (downloadBytesReceived d) (JS.of_Z (-1)) = false →
       let bytes := JS.add (downloadBytesReceived d) (JS.of_N byteLength) in
       let elapsedSoFar :=
         JS.sub (Fin (performance_now env 1)) (downloadStartTimeClient d) in
       last_speed (handlePayloadMessage byteLength env w)
         = Some (Spec.binary_Mbps
                   (if JS.gt elapsedSoFar (JS.of_Z 0)
                    then JS.floor (Spec.speedBitsPerSecond bytes elapsedSoFar)
                    else JS.of_Z 0)))
  ∧ (∀ w env d,
       status (clientState w) = download d →
       last_speed (handleServerMessage downloadComplete env w)
         = Some (Spec.binary_Mbps
                   (Spec.speedBitsPerSecond (downloadBytesReceived d)
                      (download_elapsedMs d (performance_now env 0)))))
  ∧ (∀ q, ¬ (q == 0)%Q →
       JS.eq (Spec.binary_Mbps (Fin q)) (Spec.decimal_Mbps (Fin q)) = false).
Proof.
  split; [|split; [|split]]; [| | |exact binary_is_not_decimal].
  - intros w env elapsedMs receivedBytes progressPercent uploadInterval uploadPayload Hs.
    split.
    + unfold handleServerMessage. rewrite Hs. apply last_speed_updateSpeedDisplay.
    + unfold handleServerMessage. rewrite Hs. unfold last_speed, test_complete.
      cbn [setTimeout snd set_startButton set_clientState displayed].
      rewrite displayed_stopUploadTest. apply last_speed_updateSpeedDisplay.
  - intros w env d byteLength Hs Hc Hb bytes elapsedSoFar.
    unfold handlePayloadMessage. rewrite Hs, Hc, Hb. cbv zeta.
    cbn [downloadStartTimeClient downloadBytesReceived controlConfigValues
         set_status set_clientState].
    fold bytes. fold elapsedSoFar.
    match goal with |- context [if JS.ge ?a ?b then _ else _] => destruct (JS.ge a b) end.
    + unfold last_speed. rewrite displayed_sendControlMessage.
      cbn [set_status set_clientState displayed]. apply last_speed_updateSpeedDisplay.
    + apply last_speed_updateSpeedDisplay.
  - intros w env d Hs. unfold handleServerMessage. rewrite Hs. cbn [as_DownloadState].
    unfold last_speed, test_complete.
    cbn [setTimeout snd set_startButton set_clientState displayed].
    apply last_speed_updateSpeedDisplay.
Qed.

(** 131072 bytes in 1000 ms on an uploadProgress, and a third payload of a
    download 40 ms after the first. *)
Lemma displayed_speed_witness :
  last_speed (handleServerMessage
                (uploadProgress (JS.of_Z 1000) (JS.of_Z 131072) (JS.of_Z 33))
                (Scenario.client_env 1000 0) Scenario.client_uploading)
    = Some (Spec.binary_Mbps (Spec.speedBitsPerSecond (JS.of_Z 131072) (JS.of_Z 1000)))
  ∧ last_speed (handlePayloadMessage Scenario.four_MiB (Scenario.client_env 60 0)
                  Scenario.client_downloading)
    = Some (Spec.binary_Mbps (JS.of_Z 1677721600))
  ∧ JS.eq (Spec.binary_Mbps (Fin (inject_Z 1048576)))
          (Spec.decimal_Mbps (Fin (inject_Z 1048576))) = false.
Proof.
  destruct displayed_speed_divides_by_binary_mega as (Hup & Hpay & _ & Hne).
  split; [|split].
  - exact (proj1 (Hup Scenario.client_uploading (Scenario.client_env 1000 0)
                    (JS.of_Z 1000) (JS.of_Z 131072) (JS.of_Z 33) 1%Z Scenario.four_MiB
                    eq_refl)).
  - exact (Hpay Scenario.client_downloading (Scenario.client_env 60 0)
             {| downloadBytesReceived := JS.of_N Scenario.four_MiB;
                downloadStartTimeClient := Fin (inject_Z 20);
                downloadLastReceivedTimeClient := Fin (inject_Z 40);
                downloadCompleted := false |} Scenario.four_MiB eq_refl eq_refl eq_refl).
  - apply Hne. discriminate.
Defined.

End ClientSpeed.

(** C3 as stated fails.  An uploadProgress reports 13107200 bytes in
    1000 ms, that is 104857600 bits per second: the client shows 100 Mbps,
    and the decimal value 104.8576 is another number. *)
Lemma displayed_speed_is_not_decimal :
  ∃ shown,
    Client.last_speed
      (Client.step Scenario.client_uploading
         (Client.WsMessage (Client.TextFrame (Client.Parsed
            (Client.uploadProgress (JS.of_Z 1000) (JS.of_Z 13107200) (JS.of_Z 33)))))
         (Scenario.client_env 1000 0)) = Some shown
    ∧ JS.eq shown (JS.of_Z 100) = true
    ∧ (Client.formatSpeed shown).2 = "Mbps"
    ∧ JS.eq (Spec.speedBitsPerSecond (JS.of_Z 13107200) (JS.of_Z 1000))
            (JS.of_Z 104857600) = true
    ∧ JS.eq shown
        (Spec.decimal_Mbps (Spec.speedBitsPerSecond (JS.of_Z 13107200) (JS.of_Z 1000)))
      = false
    ∧ JS.eq (Spec.decimal_Mbps (Spec.speedBitsPerSecond (JS.of_Z 13107200) (JS.of_Z 1000)))
            (Fin (1048576 # 10000)) = true.
Proof. eexists. split; [vm_compute; reflexivity|]. repeat split. Qed.

(** * C7: messages that are not valid *)

Section ServerValidation.
Import Server.

(** The parser rejects exactly the invalid text frames. *)
Lemma parseEventToAction_rejects parsed :
  Spec.invalid_control parsed = true ↔ parseEventToAction (TextData parsed) = None.
Proof.
  destruct parsed as [v|]; [|done].
  unfold Spec.invalid_control, Spec.known_type, Spec.bad_number, Spec.field, parseEventToAction.
  destruct (get_prop v "type") as [type|] eqn:Htype.
  - assert (Hd : get_prop v "durationMs" = Some (Spec.field v "durationMs")).
    { unfold Spec.field. destruct v; try done. }
    assert (Hp : get_prop v "payloadSizeBytes" = Some (Spec.field v "payloadSizeBytes")).
    { unfold Spec.field. destruct v; try done. }
    rewrite Hd, Hp. unfold Spec.field.
    destruct (is_str type "startUpload"), (is_str type "startDownload"),
      (is_str type "stopUpload"), (is_str type "stopDownload");
      cbn [orb andb negb];
      destruct (as_number (match get_prop v "durationMs" with Some x => x | None => None end))
        as [d|]; try done;
      try destruct (JS.le d (JS.of_Z 0)); cbn [orb andb negb]; try done;
      destruct (as_number (match get_prop v "payloadSizeBytes" with Some x => x | None => None end))
        as [p|]; try done;
      destruct (JS.le p (JS.of_Z 0)); done.
  - done.
Qed.

Lemma invalid_control_dropped w clientState parsed env :
  clients_get w = Some clientState → Spec.invalid_control parsed = true →
  processMessage clientState (TextData parsed) env w = Normal (clientState, w)
  ∧ step w (SocketMessage (TextData parsed)) env = Done w.
Proof.
  intros Hw Hinv. apply parseEventToAction_rejects in Hinv.
  assert (H : processMessage clientState (TextData parsed) env w = Normal (clientState, w)).
  { unfold processMessage. by rewrite Hinv. }
  split; [exact H|]. cbn [step]. unfold onmessage. rewrite Hw, H.
  by rewrite <- Hw, set_clients_id.
Qed.

(** A size that passes the validation but is no valid length makes
    [new ArrayBuffer] raise in the handler: nobody catches the RangeError
    and the entry of the connection is left as it was. *)
Lemma infinite_payload_size_raises :
  step Scenario.server_connected
    (SocketMessage (TextData (Some (JObj [("type", JStr "startDownload");
                                          ("durationMs", JNum (JS.of_Z 3000));
                                          ("payloadSizeBytes", JNum PosInf)]))))
    (Scenario.server_env 0 0)
  = Uncaught RangeError Scenario.server_connected.
Proof. reflexivity. Qed.

End ServerValidation.

Section ClientValidation.
Import Client.

Lemma onmessage_unparsable w env text :
  text = BadJson ∨ text = JsonNull →
  clientState (onmessage (TextFrame text) env w) =
    if ws_open env w
    then {| status := ready; ws := ws (clientState w) |}
    else {| status := disconnected; ws := false |}.
Proof.
  intros [-> | ->]; cbn [onmessage]; unfold resetToIdle;
    cbv zeta; unfold stopUploadTest; cbn [status clientState set_clientState];
    match goal with
    | |- context [ws_open env ?w1] => change (ws_open env w1) with (ws_open env w)
    end; by destruct (ws_open env w).
Qed.

End ClientValidation.

(** C7, as the code has it.  On the server a text frame that is malformed
    JSON, or has an unknown type, or is a start request whose [durationMs]
    or [payloadSizeBytes] is not a number or is [<= 0], is exactly what the
    parser rejects; such a frame leaves the state of the connection and the
    whole world unchanged.  On the client a message of unknown type changes
    nothing, while a text that does not parse (or parses to null) makes the
    client enter the error state and reset: it ends ready when the socket
    is open and disconnected otherwise.  All of this is total: no turn
    raises. *)
Theorem invalid_control_messages :
  (∀ parsed,
     Spec.invalid_control parsed = true
     ↔ Server.parseEventToAction (Server.TextData parsed) = None)
  ∧ (∀ w clientState parsed env,
       Server.clients_get w = Some clientState →
       Spec.invalid_control parsed = true →
       Server.processMessage clientState (Server.TextData parsed) env w
         = Server.Normal (clientState, w)
       ∧ Server.step w (Server.SocketMessage (Server.TextData parsed)) env
         = Server.Done w)
  ∧ (∀ w env,
       Client.step w (Client.WsMessage (Client.TextFrame Client.OtherType)) env = w)
  ∧ (∀ w env text,
       text = Client.BadJson ∨ text = Client.JsonNull →
       Client.clientState (Client.step w (Client.WsMessage (Client.TextFrame text)) env) =
         if Client.ws_open env w
         then {| Client.status := Client.ready; Client.ws := Client.ws (Client.clientState w) |}
         else {| Client.status := Client.disconnected; Client.ws := false |}).
Proof.
  split; [exact parseEventToAction_rejects|].
  split; [exact invalid_control_dropped|].
  split; [done|]. intros w env text H. by apply onmessage_unparsable.
Qed.

(** A startDownload with [payloadSizeBytes: 0] and an unparsable frame on
    the server, an unparsable frame on the client. *)
Lemma invalid_control_witness :
  Server.step Scenario.server_uploading
    (Server.SocketMessage (Server.TextData Scenario.startDownload_zero_payload))
    (Scenario.server_env 5 0) = Server.Done Scenario.server_uploading
  ∧ Server.step Scenario.server_uploading
      (Server.SocketMessage (Server.TextData None)) (Scenario.server_env 5 0)
    = Server.Done Scenario.server_uploading
  ∧ Client.status (Client.clientState
      (Client.step Scenario.client_uploading
         (Client.WsMessage (Client.TextFrame Client.BadJson)) (Scenario.client_env 5 0)))
    = Client.ready.
Proof.
  destruct invalid_control_messages as (_ & Hserver & _ & Hclient).
  split; [|split].
  - exact (proj2 (Hserver Scenario.server_uploading _ Scenario.startDownload_zero_payload
                    (Scenario.server_env 5 0) eq_refl eq_refl)).
  - exact (proj2 (Hserver Scenario.server_uploading _ None (Scenario.server_env 5 0)
                    eq_refl eq_refl)).
  - rewrite (Hclient Scenario.client_uploading (Scenario.client_env 5 0) Client.BadJson
               (or_introl eq_refl)).
    reflexivity.
Defined.

(** C7 as stated fails.  The client is in a download test when a text
    frame that is not JSON arrives: it leaves the download state and is
    ready.  On the server, [durationMs: 1e999] parses to Infinity, which is
    a number and not [<= 0]: the request is accepted and the connection
    goes from idle to upload. *)
Lemma malformed_message_changes_client_state :
  Client.status_name (Client.status (Client.clientState Scenario.client_downloading))
    = "download"
  ∧ Client.status (Client.clientState
      (Client.step Scenario.client_downloading
         (Client.WsMessage (Client.TextFrame Client.BadJson)) (Scenario.client_env 50 0)))
    = Client.ready
  ∧ Server.step Scenario.server_connected
      (Server.SocketMessage Scenario.startUpload_infinite) (Scenario.server_env 5 0)
    = Server.Done (Server.set_clients
        (Some (Server.Upload {| Server.startTimeOnServerMs := Fin (inject_Z 5);
                                Server.requestedDurationMs := PosInf;
                                Server.bytesReceived := JS.of_Z (-1) |}))
        Scenario.server_connected).
Proof. repeat split. Qed.

(** * Further properties of the upload measurement *)

Section ProgressFacts.
Import Server.

Lemma Qle_bool_false x y : Qle_bool x y = false ↔ (y < x)%Q.
Proof.
  split.
  - intros H. apply Qnot_le_lt. intros Hle. apply Qle_bool_iff in Hle. congruence.
  - intros H. apply not_true_is_false. intros Hle. apply Qle_bool_iff in Hle.
    apply Qlt_not_le in H. contradiction.
Qed.

Lemma Qle_bool_cases x y : (Qle_bool x y = true ∧ (x <= y)%Q) ∨ (Qle_bool x y = false ∧ (y < x)%Q).
Proof.
  destruct (Qle_bool x y) eqn:H.
  - left. split; [done|]. by apply Qle_bool_iff.
  - right. split; [done|]. by apply Qle_bool_false.
Qed.

Lemma min_not_above a b : JS.gt (JS.min a b) b = false.
Proof.
  unfold JS.gt, JS.min, JS.lt, JS.le.
  destruct a as [x| | |], b as [y| | |]; cbn; try done.
  - destruct (Qle_bool_cases x y) as [[-> H]|[-> H]]; cbn.
    + apply Qle_bool_iff in H. by rewrite H.
    + assert (Hy : Qle_bool y y = true) by (apply Qle_bool_iff; apply Qle_refl).
      by rewrite Hy.
  - assert (Hy : Qle_bool y y = true) by (apply Qle_bool_iff; apply Qle_refl).
    by rewrite Hy.
Qed.

Lemma progress_of_not_above e D : JS.gt (progress_of e D) (JS.of_Z 100) = false.
Proof. apply min_not_above. Qed.

(** The progress as a rational, for a finite elapsed time and a duration
    the parser accepts. *)
Lemma progress_of_Fin x D :
  JS.le D (JS.of_Z 0) = false →
  progress_of (Fin x) D = NaN ∧ D = NaN
  ∨ progress_of (Fin x) D = Fin (0 * 100)%Q ∧ D = PosInf
  ∨ ∃ d, D = Fin d ∧ (0 < d)%Q ∧
         progress_of (Fin x) D =
           if Qle_bool (x / d * 100) 100 then Fin (x / d * 100)%Q else Fin 100%Q.
Proof.
  intros HD. destruct D as [d| | |]; try done.
  - right. right. exists d. cbn in HD. apply Qle_bool_false in HD.
    split; [done|]. split; [exact HD|].
    unfold progress_of, JS.div.
    assert (Hd : Qeq_bool d 0 = false).
    { apply not_true_is_false. intros H. apply Qeq_bool_iff in H. rewrite H in HD.
      by apply Qlt_irrefl in HD. }
    rewrite Hd. cbn. reflexivity.
  - right. left. split; [|done]. unfold progress_of. cbn. reflexivity.
  - left. done.
Qed.

Lemma progress_of_not_below x D :
  (0 <= x)%Q → JS.le D (JS.of_Z 0) = false →
  JS.lt (progress_of (Fin x) D) (JS.of_Z 0) = false.
Proof.
  intros Hx HD.
  destruct (progress_of_Fin x D HD) as [[-> _]|[[-> _]|(d & -> & Hd & ->)]]; try done.
  assert (H0 : (0 <= x / d * 100)%Q).
  { apply Qmult_le_0_compat; [|done]. apply Qle_shift_div_l; [done|]. by rewrite Qmult_0_l. }
  apply Qle_bool_iff in H0.
  destruct (Qle_bool (x / d * 100) 100); unfold JS.lt, JS.of_Z;
    change (inject_Z 0) with 0%Q.
  - by rewrite H0.
  - done.
Qed.

Lemma progress_of_mono x y D :
  (x <= y)%Q → JS.le D (JS.of_Z 0) = false →
  JS.gt (progress_of (Fin x) D) (progress_of (Fin y) D) = false.
Proof.
  intros Hxy HD.
  destruct (progress_of_Fin x D HD) as [[Hx HDx]|[[Hx HDx]|(d & HDd & Hd & Hx)]];
    destruct (progress_of_Fin y D HD) as [[Hy HDy]|[[Hy HDy]|(d' & HDd' & _ & Hy)]];
    rewrite Hx, Hy; subst D; try done.
  injection HDd' as <-.
  assert (H : (x / d * 100 <= y / d * 100)%Q).
  { apply Qmult_le_compat_r; [|done]. unfold Qdiv. apply Qmult_le_compat_r; [done|].
    apply Qlt_le_weak. by apply Qinv_lt_0_compat. }
  unfold JS.gt, JS.lt.
  destruct (Qle_bool_cases (x / d * 100) 100) as [[-> Hx']|[-> Hx']];
    destruct (Qle_bool_cases (y / d * 100) 100) as [[-> Hy']|[-> Hy']].
  - apply Qle_bool_iff in H. by rewrite H.
  - apply Qle_bool_iff in Hx'. by rewrite Hx'.
  - exfalso. apply (Qlt_irrefl 100). eapply Qlt_le_trans; [exact Hx'|].
    eapply Qle_trans; [exact H|exact Hy'].
  - assert (H1 : Qle_bool 100 100 = true) by (apply Qle_bool_iff; apply Qle_refl).
    by rewrite H1.
Qed.

End ProgressFacts.

Section UploadAnswers.
Import Server.

Lemma total_bytes_cons n env chunks :
  total_bytes ((n, env) :: chunks) = (Z.of_N n + total_bytes chunks)%Z.
Proof. reflexivity. Qed.

(** The answers of a counting upload to a stream of chunks, one by one. *)
Lemma run_counting_answers env1 D chunks :
  ∀ w k s,
    clients_get w = Some (Upload s) →
    counting (Fin (performance_now env1 0)) D k s →
    ∃ w' new,
      run w (payloads chunks) = Done w' ∧ sent w' = sent w ++ new ∧
      (length new ≤ length chunks)%nat ∧
      (∀ i f, new !! i = Some f →
         ∃ c, chunks !! i = Some c ∧
           f = (if JS.ge (elapsed_since env1 c.2) D
                then Text (uploadResult (elapsed_since env1 c.2)
                             (JS.of_Z (k + total_bytes (take (S i) chunks))))
                else Text (uploadProgress (elapsed_since env1 c.2)
                             (JS.of_Z (k + total_bytes (take (S i) chunks)))
                             (progress_of (elapsed_since env1 c.2) D))) ∧
           (JS.ge (elapsed_since env1 c.2) D = true → length new = S i)) ∧
      (Forall (λ c, JS.ge (elapsed_since env1 c.2) D = false) chunks →
         length new = length chunks ∧
         ∃ s', clients_get w' = Some (Upload s') ∧
               counting (Fin (performance_now env1 0)) D (k + total_bytes chunks) s').
Proof.
  induction chunks as [|[n env] chunks IH]; intros w k s Hw Hs.
  - exists w, []. rewrite app_nil_r.
    split; [done|]. split; [done|]. split; [done|]. split; [by intros i f Hf|].
    intros _. split; [done|]. exists s. split; [done|].
    unfold total_bytes. cbn [foldr]. by rewrite Z.add_0_r.
  - rewrite server_run_payloads_cons, (step_binary w (Upload s)) by done.
    rewrite (uploadData_counting _ D k s) by done. cbv zeta.
    change (JS.sub (Fin (performance_now env 0)) (Fin (performance_now env1 0)))
      with (elapsed_since env1 env).
    destruct (JS.ge (elapsed_since env1 env) D) eqn:Hge; cbn [fst snd].
    + eexists. exists [Text (uploadResult (elapsed_since env1 env) (JS.of_Z (k + Z.of_N n)))].
      split; [apply run_idle_payloads; apply clients_get_set|].
      split; [done|]. split; [cbn [length]; lia|]. split.
      * intros [|i] f Hf; [|done]. injection Hf as <-.
        exists (n, env). split; [done|]. cbn [snd]. rewrite Hge.
        split; [|done]. cbn [take]. rewrite total_bytes_cons.
        unfold total_bytes at 1. cbn [foldr]. by rewrite Z.add_0_r.
      * intros Hall. inversion Hall as [|? ? Hc _]; subst. cbn [snd] in Hc. congruence.
    + match goal with
      | |- context [run ?w1 _] =>
          destruct (IH w1 (k + Z.of_N n)%Z
                      {| startTimeOnServerMs := Fin (performance_now env1 0);
                         requestedDurationMs := D;
                         bytesReceived := JS.of_Z (k + Z.of_N n) |})
            as (w' & new & Hrun & Hsent & Hlen & Hnew & Hall); [apply clients_get_set| |]
      end.
      { repeat split; try done. destruct Hs as (_ & _ & _ & ?). lia. }
      exists w'.
      exists (Text (uploadProgress (elapsed_since env1 env) (JS.of_Z (k + Z.of_N n))
                      (progress_of (elapsed_since env1 env) D)) :: new).
      split; [exact Hrun|]. split.
      { rewrite Hsent. cbn [sent set_clients socket_send]. by rewrite <- app_assoc. }
      split; [cbn [length]; lia|]. split.
      * intros [|i] f Hf.
        -- injection Hf as <-. exists (n, env). split; [done|]. cbn [snd]. rewrite Hge.
           split; [|done]. cbn [take]. rewrite total_bytes_cons.
           unfold total_bytes at 1. cbn [foldr]. by rewrite Z.add_0_r.
        -- cbn [lookup list_lookup] in Hf. destruct (Hnew i f Hf) as (c & Hc & Hf' & Hlast).
           exists c. split; [done|].
           replace (k + total_bytes (take (S (S i)) ((n, env) :: chunks)))%Z
             with (k + Z.of_N n + total_bytes (take (S i) chunks))%Z.
           { split; [exact Hf'|]. intros H. cbn [length]. by rewrite Hlast. }
           change (take (S (S i)) ((n, env) :: chunks)) with ((n, env) :: take (S i) chunks).
           rewrite total_bytes_cons. lia.
      * intros Hall'. inversion Hall' as [|? ? _ Hrest]; subst.
        destruct (Hall Hrest) as (Hl & s' & Hs' & Hc').
        split; [cbn [length]; by rewrite Hl|]. exists s'. split; [done|].
        rewrite total_bytes_cons.
        by replace (k + (Z.of_N n + total_bytes chunks))%Z
          with (k + Z.of_N n + total_bytes chunks)%Z by lia.
Qed.

(** The first two turns of an upload: the request, then chunk #1. *)
Lemma run_upload_start w start D env0 c1 env1 rest :
  clients_get w = Some Idle →
  parseEventToAction start = Some (StartUpload D) →
  run w ((SocketMessage start, env0) :: (SocketMessage (BinaryData c1), env1) :: rest) =
    run (set_clients (Some (Upload {| startTimeOnServerMs := Fin (performance_now env1 0);
                                      requestedDurationMs := D;
                                      bytesReceived := JS.of_Z 0 |})) w) rest.
Proof.
  intros Hidle Hstart. rewrite server_run_cons, (step_startUpload _ _ D) by done.
  rewrite server_run_cons.
  rewrite (step_binary _ (Upload (startUpload D (performance_now env0 0)))) by done.
  rewrite uploadData_first. cbn [fst snd]. by destruct w.
Qed.

(** The same from the state that chunk #1 leaves. *)
Lemma run_first_answers env1 D chunks w :
  let w1 := set_clients (Some (Upload {| startTimeOnServerMs := Fin (performance_now env1 0);
                                         requestedDurationMs := D;
                                         bytesReceived := JS.of_Z 0 |})) w in
  ∃ w' new,
    run w1 (payloads chunks) = Done w' ∧ sent w' = sent w ++ new ∧
    (length new ≤ length chunks)%nat ∧
    (∀ i f, new !! i = Some f →
       ∃ c, chunks !! i = Some c ∧
         f = (if JS.ge (elapsed_since env1 c.2) D
              then Text (uploadResult (elapsed_since env1 c.2)
                           (JS.of_Z (total_bytes (take (S i) chunks))))
              else Text (uploadProgress (elapsed_since env1 c.2)
                           (JS.of_Z (total_bytes (take (S i) chunks)))
                           (progress_of (elapsed_since env1 c.2) D))) ∧
         (JS.ge (elapsed_since env1 c.2) D = true → length new = S i)) ∧
    (Forall (λ c, JS.ge (elapsed_since env1 c.2) D = false) chunks →
       length new = length chunks ∧
       ∃ s', clients_get w' = Some (Upload s') ∧
             counting (Fin (performance_now env1 0)) D (total_bytes chunks) s').
Proof.
  intros w1.
  destruct (run_counting_answers env1 D chunks w1 0%Z
              {| startTimeOnServerMs := Fin (performance_now env1 0);
                 requestedDurationMs := D; bytesReceived := JS.of_Z 0 |})
    as (w' & new & Hrun & Hsent & Hlen & Hnew & Hfin); [done|done|].
  exists w', new. split; [exact Hrun|]. split; [exact Hsent|]. split; [exact Hlen|]. split.
  - intros i f Hf. destruct (Hnew i f Hf) as (c & Hc & Hf' & Hlast).
    exists c. by rewrite Z.add_0_l in Hf'.
  - intros Hall. destruct (Hfin Hall) as (Hl & s' & Hs' & Hc'). split; [done|].
    exists s'. by rewrite Z.add_0_l in Hc'.
Qed.

End UploadAnswers.

Section UploadExtras.
Import Server.

Lemma server_run_app a : ∀ w b,
  run w (a ++ b) =
    match run w a with
    | Done w1 => run w1 b
    | Uncaught e w1 => Uncaught e w1
    end.
Proof.
  induction a as [|[ev env] a IH]; intros w b; [done|].
  rewrite <- app_comm_cons, !server_run_cons. destruct (step w ev env); [apply IH|done].
Qed.

Lemma step_stopUpload w s stop env :
  clients_get w = Some (Upload s) →
  parseEventToAction stop = Some StopUpload →
  step w (SocketMessage stop) env =
    Done (set_clients (Some Idle)
            (socket_send
               (Text (uploadResult (JS.sub (Fin (performance_now env 0)) (startTimeOnServerMs s))
                        (bytesReceived s))) w)).
Proof.
  intros Hw Hstop. cbn [step]. unfold onmessage, processMessage. by rewrite Hw, Hstop.
Qed.

(** X1.  After a startUpload and chunk #1, the i-th message of the server
    answers the i-th further chunk: its [elapsedMs] is the time of that
    chunk since chunk #1 and its [receivedBytes] the sum of the sizes of the
    further chunks up to it; it is the result when that time has reached
    the duration, and then it is the last message; otherwise it is a
    progress.  No chunk is answered twice and none after the result. *)
Theorem upload_answers_report_time_and_running_total
    (w : World) (start : MessageEvent) (D : number) (env0 : Env)
    (c1 : N) (env1 : Env) (chunks : list (N * Env)) :
  clients_get w = Some Idle →
  parseEventToAction start = Some (StartUpload D) →
  ∃ w' new,
    run w ((SocketMessage start, env0) :: payloads ((c1, env1) :: chunks)) = Done w' ∧
    sent w' = sent w ++ new ∧
    (length new ≤ length chunks)%nat ∧
    ∀ i f, new !! i = Some f →
      ∃ c, chunks !! i = Some c ∧
        f = (if JS.ge (elapsed_since env1 c.2) D
             then Text (uploadResult (elapsed_since env1 c.2)
                          (JS.of_Z (total_bytes (take (S i) chunks))))
             else Text (uploadProgress (elapsed_since env1 c.2)
                          (JS.of_Z (total_bytes (take (S i) chunks)))
                          (progress_of (elapsed_since env1 c.2) D))) ∧
        (JS.ge (elapsed_since env1 c.2) D = true → length new = S i).
Proof.
  intros Hidle Hstart. cbn [payloads map fst snd].
  rewrite (run_upload_start w start D) by done.
  destruct (run_first_answers env1 D chunks w)
    as (w' & new & Hrun & Hsent & Hlen & Hnew & _).
  by exists w', new.
Qed.

(** startUpload of 3000 ms at time 0, chunks of 4 MiB at times 15, 35,
    55, 3015 and 3035: the third message is the result, with 12 MiB after
    3000 ms, and the last chunk is not answered. *)
Lemma upload_answers_witness :
  ∃ w' new,
    run Scenario.server_connected
      ((SocketMessage Scenario.startUpload_3000, Scenario.server_env 0 0)
         :: payloads [(Scenario.four_MiB, Scenario.server_env 15 0);
                      (Scenario.four_MiB, Scenario.server_env 35 0);
                      (Scenario.four_MiB, Scenario.server_env 55 0);
                      (Scenario.four_MiB, Scenario.server_env 3015 0);
                      (Scenario.four_MiB, Scenario.server_env 3035 0)]) = Done w' ∧
    sent w' = new ∧ length new = 3%nat ∧
    new !! 2%nat = Some (Text (uploadResult (Fin (3015 + - 15)%Q) (JS.of_Z 12582912))).
Proof.
  destruct (upload_answers_report_time_and_running_total
              Scenario.server_connected Scenario.startUpload_3000 (JS.of_Z 3000)
              (Scenario.server_env 0 0) Scenario.four_MiB (Scenario.server_env 15 0)
              [(Scenario.four_MiB, Scenario.server_env 35 0);
               (Scenario.four_MiB, Scenario.server_env 55 0);
               (Scenario.four_MiB, Scenario.server_env 3015 0);
               (Scenario.four_MiB, Scenario.server_env 3035 0)]
              eq_refl eq_refl) as (w' & new & Hrun & Hsent & _ & _).
  exists w', new. split; [exact Hrun|].
  vm_compute in Hrun. injection Hrun as <-. vm_compute in Hsent. subst new.
  repeat split.
Defined.

(** X2.  With a clock that never goes back, the progress percentages that the
    server reports during an upload never decrease from one message to a
    later one, and each lies between 0 and 100. *)
Theorem upload_progress_is_monotonic_and_bounded
    (w : World) (start : MessageEvent) (D : number) (env0 : Env)
    (c1 : N) (env1 : Env) (chunks : list (N * Env)) :
  clients_get w = Some Idle →
  parseEventToAction start = Some (StartUpload D) →
  (∀ i j ci cj, (i ≤ j)%nat →
     ((c1, env1) :: chunks) !! i = Some ci → ((c1, env1) :: chunks) !! j = Some cj →
     (performance_now ci.2 0 <= performance_now cj.2 0)%Q) →
  ∃ w' new,
    run w ((SocketMessage start, env0) :: payloads ((c1, env1) :: chunks)) = Done w' ∧
    sent w' = sent w ++ new ∧
    (∀ i f p, new !! i = Some f → progressPercent_of f = Some p →
       JS.lt p (JS.of_Z 0) = false ∧ JS.gt p (JS.of_Z 100) = false) ∧
    (∀ i j fi fj p q, (i ≤ j)%nat →
       new !! i = Some fi → new !! j = Some fj →
       progressPercent_of fi = Some p → progressPercent_of fj = Some q →
       JS.gt p q = false).
Proof.
  intros Hidle Hstart Hclock. cbn [payloads map fst snd].
  rewrite (run_upload_start w start D) by done.
  destruct (run_first_answers env1 D chunks w)
    as (w' & new & Hrun & Hsent & Hlen & Hnew & _).
  pose proof (parseEventToAction_StartUpload _ _ Hstart) as HD.
  assert (Hp : ∀ i f p, new !! i = Some f → progressPercent_of f = Some p →
            ∃ c, chunks !! i = Some c ∧
                 p = progress_of (Fin (performance_now c.2 0 + - performance_now env1 0)%Q) D).
  { intros i f p Hf Hpf. destruct (Hnew i f Hf) as (c & Hc & Hf' & _).
    exists c. split; [done|]. subst f.
    destruct (JS.ge (elapsed_since env1 c.2) D); [done|]. by injection Hpf as <-. }
  exists w', new. split; [exact Hrun|]. split; [exact Hsent|]. split.
  - intros i f p Hf Hpf. destruct (Hp i f p Hf Hpf) as (c & Hc & ->).
    split; [|apply progress_of_not_above].
    apply progress_of_not_below; [|exact HD].
    pose proof (Hclock 0%nat (S i) (c1, env1) c ltac:(lia) eq_refl Hc) as H.
    cbn [snd] in H. lra.
  - intros i j fi fj p q Hij Hfi Hfj Hpi Hpj.
    destruct (Hp i fi p Hfi Hpi) as (ci & Hci & ->).
    destruct (Hp j fj q Hfj Hpj) as (cj & Hcj & ->).
    apply progress_of_mono; [|exact HD].
    pose proof (Hclock (S i) (S j) ci cj ltac:(lia) Hci Hcj) as H. lra.
Qed.

Lemma upload_progress_witness :
  ∃ w' new,
    run Scenario.server_connected
      ((SocketMessage Scenario.startUpload_3000, Scenario.server_env 0 0)
         :: payloads [(Scenario.four_MiB, Scenario.server_env 15 0);
                      (Scenario.four_MiB, Scenario.server_env 315 0);
                      (Scenario.four_MiB, Scenario.server_env 1515 0)]) = Done w' ∧
    sent w' = new ∧
    progressPercent_of <$> new = [Some (Fin (30000 # 3000)); Some (Fin (150000 # 3000))] ∧
    JS.gt (Fin (30000 # 3000)) (Fin (150000 # 3000)) = false.
Proof.
  assert (Hclock : ∀ i j ci cj, (i ≤ j)%nat →
     [(Scenario.four_MiB, Scenario.server_env 15 0);
      (Scenario.four_MiB, Scenario.server_env 315 0);
      (Scenario.four_MiB, Scenario.server_env 1515 0)] !! i = Some ci →
     [(Scenario.four_MiB, Scenario.server_env 15 0);
      (Scenario.four_MiB, Scenario.server_env 315 0);
      (Scenario.four_MiB, Scenario.server_env 1515 0)] !! j = Some cj →
     (performance_now ci.2 0 <= performance_now cj.2 0)%Q).
  { intros [|[|[|i]]] [|[|[|j]]] ci cj Hij Hi Hj; try lia; try done;
      injection Hi as <-; injection Hj as <-; done. }
  destruct (upload_progress_is_monotonic_and_bounded
              Scenario.server_connected Scenario.startUpload_3000 (JS.of_Z 3000)
              (Scenario.server_env 0 0) Scenario.four_MiB (Scenario.server_env 15 0)
              [(Scenario.four_MiB, Scenario.server_env 315 0);
               (Scenario.four_MiB, Scenario.server_env 1515 0)]
              eq_refl eq_refl Hclock) as (w' & new & Hrun & Hsent & _ & Hmono).
  exists w', new. split; [exact Hrun|].
  vm_compute in Hrun. injection Hrun as <-. vm_compute in Hsent. subst new.
  split; [reflexivity|]. split; [reflexivity|].
  exact (Hmono 0%nat 1%nat _ _ _ _ ltac:(lia) eq_refl eq_refl eq_refl eq_refl).
Defined.

(** X3.  A stopUpload that arrives while the upload is counting is answered
    by a result with the bytes counted so far (the chunks after chunk #1)
    and the time since chunk #1, and the connection is idle again. *)
Theorem stop_during_upload_reports_bytes_so_far
    (w : World) (start stop : MessageEvent) (D : number) (env0 : Env)
    (c1 : N) (env1 : Env) (chunks : list (N * Env)) (envS : Env) :
  clients_get w = Some Idle →
  parseEventToAction start = Some (StartUpload D) →
  parseEventToAction stop = Some StopUpload →
  Forall (λ c, JS.ge (elapsed_since env1 c.2) D = false) chunks →
  ∃ w' progress,
    run w ((SocketMessage start, env0) :: payloads ((c1, env1) :: chunks)
             ++ [(SocketMessage stop, envS)]) = Done w' ∧
    clients_get w' = Some Idle ∧
    sent w' = sent w ++ progress ++
      [Text (uploadResult (elapsed_since env1 envS) (JS.of_Z (total_bytes chunks)))] ∧
    length progress = length chunks ∧
    forallb is_uploadProgress progress = true.
Proof.
  intros Hidle Hstart Hstop Hall. cbn [payloads map fst snd].
  rewrite <- !app_comm_cons. rewrite (run_upload_start w start D) by done.
  rewrite server_run_app.
  destruct (run_first_answers env1 D chunks w)
    as (w1 & new & Hrun & Hsent & _ & Hnew & Hfin).
  destruct (Hfin Hall) as (Hlen & s' & Hs' & Hst & Hdur & Hbytes & _).
  fold (payloads chunks). rewrite Hrun, server_run_cons.
  rewrite (step_stopUpload w1 s') by done. cbn [run].
  eexists. exists new. split; [reflexivity|]. split; [done|].
  split; [|split; [exact Hlen|]].
  - cbn [sent set_clients socket_send]. rewrite Hsent, Hst, Hbytes.
    by rewrite <- app_assoc.
  - apply forallb_forall. intros f Hf. apply list_elem_of_In in Hf.
    apply list_elem_of_lookup in Hf as [i Hi].
    destruct (Hnew i f Hi) as (c & Hc & -> & _).
    rewrite Forall_forall in Hall. rewrite (Hall c); [done|].
    by eapply list_elem_of_lookup_2.
Qed.

Lemma stop_during_upload_witness :
  ∃ w' progress,
    run Scenario.server_connected
      ((SocketMessage Scenario.startUpload_3000, Scenario.server_env 0 0)
         :: payloads [(Scenario.four_MiB, Scenario.server_env 15 0);
                      (Scenario.four_MiB, Scenario.server_env 35 0);
                      (Scenario.four_MiB, Scenario.server_env 55 0)]
         ++ [(SocketMessage Scenario.stopUpload_msg, Scenario.server_env 1015 0)]) = Done w' ∧
    clients_get w' = Some Idle ∧
    sent w' = sent Scenario.server_connected ++ progress ++
      [Text (uploadResult
               (elapsed_since (Scenario.server_env 15 0) (Scenario.server_env 1015 0))
               (JS.of_Z 8388608))] ∧
    length progress = 2%nat ∧
    forallb is_uploadProgress progress = true.
Proof.
  apply (stop_during_upload_reports_bytes_so_far
           Scenario.server_connected Scenario.startUpload_3000 Scenario.stopUpload_msg
           (JS.of_Z 3000) (Scenario.server_env 0 0) Scenario.four_MiB
           (Scenario.server_env 15 0)
           [(Scenario.four_MiB, Scenario.server_env 35 0);
            (Scenario.four_MiB, Scenario.server_env 55 0)]
           (Scenario.server_env 1015 0) eq_refl eq_refl eq_refl).
  repeat constructor.
Defined.

End UploadExtras.

(** * Further properties of the download flood *)

Section FloodExtras.
Import Server.




Lemma sent_debounceExpired flood w : sent (debounceExpired flood w) = sent w.
Proof. unfold debounceExpired. by destruct (floods w !! flood). Qed.

Lemma clients_get_debounceExpired flood w :
  clients_get (debounceExpired flood w) = clients_get w.
Proof. unfold debounceExpired. by destruct (floods w !! flood). Qed.

(** A tick sends nothing, or one chunk: the payload of its closure. *)
Lemma sent_sendDownloadChunk f buffered now w :
  sent (sendDownloadChunk f buffered now w) = sent w
  ∨ ∃ cl, floods w !! f = Some cl ∧
          sent (sendDownloadChunk f buffered now w) = sent w ++ [Binary (payload cl)].
Proof.
  unfold sendDownloadChunk.
  destruct (floods w !! f) as [cl|] eqn:Hf; [|by left].
  destruct (heap w !! clientState cl) as [st|]; [|by left].
  case_bool_decide; [by left|].
  destruct (JS.ge (JS.of_N buffered) (backpressureThresholdBytes cl)).
  - left. cbn [setTimeout]. rewrite sent_set_downloadFloodTimer. cbn [sent].
    apply sent_debounceBackPressureLog.
  - right. exists cl. split; [done|].
    match goal with |- context [if ?c then _ else _] => destruct c end;
      cbn [setTimeout]; by rewrite sent_set_downloadFloodTimer.
Qed.


Lemma sent_cleanupForDownloadFlood w : sent (cleanupForDownloadFlood w) = sent w.
Proof.
  unfold cleanupForDownloadFlood.
  destruct (clients_get w) as [[| |ref]|]; try done.
  destruct (heap w !! ref) as [st|]; [|done].
  case_bool_decide; [|done]. by rewrite sent_set_downloadFloodTimer, sent_clearTimeout.
Qed.

(** A turn in which a timer fires leaves the entry of the connection in
    [clients] as it is. *)
Lemma clients_get_timer_turn w id env w' :
  step w (TimerFired id) env = Done w' → clients_get w' = clients_get w.
Proof.
  cbn [step]. destruct (timers w !! id) as [[cb delay]|]; [|by intros [= <-]].
  intros [= <-]. destruct cb as [f|f]; cbn [run_callback].
  - by rewrite clients_get_sendDownloadChunk.
  - by rewrite clients_get_debounceExpired.
Qed.


(** In a world of a run, a timer turn sends nothing or one chunk of the
    current download. *)
Lemma sent_timer_turn w id env w' :
  tick_invariant w → step w (TimerFired id) env = Done w' →
  sent w' = sent w
  ∨ ∃ f cl, clients_get w = Some (Download f) ∧ floods w !! f = Some cl ∧
            sent w' = sent w ++ [Binary (payload cl)].
Proof.
  intros Hinv. cbn [step].
  destruct (timers w !! id) as [[cb delay]|] eqn:Ht; [|intros [= <-]; by left].
  intros [= <-]. destruct cb as [f|f]; cbn [run_callback].
  - destruct (Hinv _ _ _ Ht) as (Hc & _).
    match goal with
    | |- context [sendDownloadChunk ?f ?b ?t ?w0] =>
        destruct (sent_sendDownloadChunk f b t w0) as [H|(cl & Hcl & H)]
    end.
    + left. by rewrite H.
    + right. exists f, cl. split; [done|]. split; [exact Hcl|]. by rewrite H.
  - left. by rewrite sent_debounceExpired.
Qed.


End FloodExtras.

Section FloodTheorems.
Import Server.

(** X4.  Along any run of a connection, at most one tick of a download flood
    is pending: two pending chunk ticks are the same timer, the one that
    the state object of the connection's current download records.  The
    flood loop never runs twice in parallel. *)
Theorem at_most_one_chunk_tick_is_pending
    (w : World) (id1 id2 : positive) (f1 f2 : nat) (delay1 delay2 : Z) :
  reachable w →
  timers w !! id1 = Some (cb_sendDownloadChunk f1, delay1) →
  timers w !! id2 = Some (cb_sendDownloadChunk f2, delay2) →
  id1 = id2 ∧ f1 = f2 ∧ clients_get w = Some (Download f1) ∧
  ∃ st, heap w !! f1 = Some st ∧ downloadFloodTimer st = Zpos id1.
Proof.
  intros Hr H1 H2. pose proof (reachable_tick_invariant w Hr) as Hinv.
  destruct (Hinv _ _ _ H1) as (Hc1 & cl1 & st1 & _ & _ & Hh1 & Hid1).
  destruct (Hinv _ _ _ H2) as (Hc2 & cl2 & st2 & _ & _ & Hh2 & Hid2).
  rewrite Hc1 in Hc2. injection Hc2 as <-. rewrite Hh1 in Hh2. injection Hh2 as <-.
  rewrite Hid1 in Hid2. injection Hid2 as <-. split; [done|]. split; [done|].
  split; [done|]. by exists st1.
Qed.

Lemma at_most_one_chunk_tick_witness :
  timers Scenario.server_flooding !! 1%positive = Some (cb_sendDownloadChunk 0, 0%Z)
  ∧ clients_get Scenario.server_flooding = Some (Download 0)
  ∧ ∃ st, heap Scenario.server_flooding !! 0%nat = Some st ∧ downloadFloodTimer st = 1%Z.
Proof.
  split; [reflexivity|].
  destruct (at_most_one_chunk_tick_is_pending Scenario.server_flooding 1 1 0 0 0 0
              server_flooding_reachable eq_refl eq_refl) as (_ & _ & Hc & Hst).
  split; [exact Hc|exact Hst].
Defined.

(** X5.  The flood does not end the download: whatever timers fire, the
    connection stays in the download state, also after the flood has
    finished by itself; in that state every request but stopDownload is
    ignored. *)
Theorem download_state_outlives_its_flood
    (w : World) (f : nat) (l : list (positive * Env)) :
  clients_get w = Some (Download f) →
  ∃ w', run w (timer_turns l) = Done w' ∧ clients_get w' = Some (Download f) ∧
        ∀ event action env,
          parseEventToAction event = Some action → action ≠ StopDownload →
          step w' (SocketMessage event) env = Done w'.
Proof.
  revert w. induction l as [|[id env] l IH]; intros w Hw.
  - exists w. split; [done|]. split; [done|].
    intros event action env Hev Hne. cbn [step]. unfold onmessage, processMessage.
    rewrite Hw, Hev. destruct action; try done; cbn [STATE_HANDLERS];
      by rewrite <- Hw, set_clients_id.
  - cbn [timer_turns map fst snd]. rewrite server_run_cons.
    destruct (step w (TimerFired id) env) as [w1|e w1] eqn:Hstep.
    + apply IH. by rewrite (clients_get_timer_turn _ _ _ _ Hstep).
    + cbn [step] in Hstep. by destruct (timers w !! id) as [[cb delay]|].
Qed.

(** The flood of the scenario through its last tick, at 3600 ms, and a
    timer that fires after it: still download, and a new startDownload is
    ignored. *)
Lemma download_state_outlives_witness :
  ∃ w', run Scenario.server_flooding
          (timer_turns [(1%positive, Scenario.server_env 3600 0);
                        (2%positive, Scenario.server_env 3601 0)]) = Done w' ∧
        clients_get w' = Some (Download 0) ∧
        step w' (SocketMessage Scenario.startDownload_3000) (Scenario.server_env 3700 0)
          = Done w'.
Proof.
  destruct (download_state_outlives_its_flood Scenario.server_flooding 0
              [(1%positive, Scenario.server_env 3600 0);
               (2%positive, Scenario.server_env 3601 0)] eq_refl)
    as (w' & Hrun & Hc & Hign).
  exists w'. split; [exact Hrun|]. split; [exact Hc|].
  apply (Hign Scenario.startDownload_3000
           (StartDownload (JS.of_Z 3000) (JS.of_N Scenario.four_MiB))); [reflexivity|done].
Defined.




End FloodTheorems.

Section FrameState.
Import Server.

Lemma uploadData_outcome s n now w :
  (∃ s', uploadData s n now w = (Upload s', w))
  ∨ (∃ e b, uploadData s n now w = (Idle, socket_send (Text (uploadResult e b)) w))
  ∨ (∃ s' e b p, uploadData s n now w =
                   (Upload s', socket_send (Text (uploadProgress e b p)) w)).
Proof.
  unfold uploadData. destruct (JS.eq (bytesReceived s) (JS.of_Z (-1))).
  - left. by eexists.
  - right. match goal with |- context [if ?c then _ else _] => destruct c end.
    + left. by eexists _, _.
    + right. by eexists _, _, _, _.
Qed.


Local Ltac nothing_sent :=
  exists []; rewrite app_nil_r;
  split; [done|split; [cbn [length]; lia|constructor]].

Local Ltac one_sent :=
  split; [done|split; [cbn [length]; lia|by repeat constructor]].

(** What a message turn sends, by the state it ends in. *)
Lemma onmessage_frame_state w event env w' :
  onmessage event env w = Done w' →
  ∃ new, sent w' = sent w ++ new ∧ (length new ≤ 1)%nat ∧
         Forall (λ f, frame_state f (clients_get w')) new.
Proof.
  unfold onmessage.
  destruct (clients_get w) as [st|] eqn:Hc;
    [|intros [= <-]; nothing_sent].
  unfold processMessage.
  destruct (parseEventToAction event) as [action|] eqn:Hev;
    [|intros [= <-]; nothing_sent].
  destruct st as [|state|f], action; cbn [STATE_HANDLERS]; cbv beta iota;
    try (intros [= <-]; nothing_sent).
  - destruct (startDownload durationMs payloadSizeBytes env w) as [[st' w1]|] eqn:Hs; [|done].
    intros [= <-]. revert Hs. unfold startDownload, initiateDownloadFlooding. cbn [alloc].
    destruct (JS.to_index payloadSizeBytes) as [n|]; [|done]. intros [= <- <-].
    match goal with
    | |- context [sendDownloadChunk ?f ?b ?t ?w0] =>
        destruct (sent_sendDownloadChunk f b t w0) as [H|(cl0 & Hcl0 & H)]
    end.
    + cbn [set_clients sent]. rewrite H. nothing_sent.
    + eexists [_]. cbn [set_clients sent clients_get]. rewrite H. one_sent.
  - intros [= <-]. eexists [_]. one_sent.
  - destruct (uploadData_outcome state byteLength (performance_now env 0) w)
      as [(s' & ->)|[(e & b & ->)|(s' & e & b & p & ->)]]; intros [= <-].
    + nothing_sent.
    + eexists [_]. one_sent.
    + eexists [_]. one_sent.
  - intros [= <-]. exists [Text downloadComplete].
    cbn [set_clients sent clients_get stopDownload snd socket_send].
    split; [|split; [cbn [length]; lia|by repeat constructor]].
    destruct (heap w !! f) as [st|]; [|done]. case_bool_decide; [|done].
    by rewrite sent_clearTimeout.
Qed.

(** X7.  Along any run of a connection a turn sends at most one frame, and the
    frame tells the state in which the turn leaves the connection: a binary
    chunk goes out only in a turn that ends in the download state, an
    uploadProgress only in one that ends in the upload state, and an
    uploadResult or a downloadComplete only in one that ends idle. *)
Theorem every_frame_matches_the_state_after_its_turn
    (w : World) (ev : Event) (env : Env) (w' : World) :
  reachable w →
  step w ev env = Done w' →
  ∃ new, sent w' = sent w ++ new ∧ (length new ≤ 1)%nat ∧
         Forall (λ f, frame_state f (clients_get w')) new.
Proof.
  intros Hr Hstep. pose proof (reachable_tick_invariant w Hr) as Hinv.
  destruct ev as [| | |event|id].
  - injection Hstep as <-. nothing_sent.
  - injection Hstep as <-. unfold onclose. rewrite sent_set_clients.
    rewrite sent_cleanupForDownloadFlood. nothing_sent.
  - injection Hstep as <-. unfold onerror. rewrite sent_set_clients.
    rewrite sent_cleanupForDownloadFlood. nothing_sent.
  - by apply (onmessage_frame_state w event env).
  - destruct (sent_timer_turn _ _ _ _ Hinv Hstep) as [H|(f & cl & Hc & _ & H)].
    + rewrite H. nothing_sent.
    + eexists [_]. split; [exact H|]. split; [cbn [length]; lia|].
      rewrite (clients_get_timer_turn _ _ _ _ Hstep), Hc. by repeat constructor.
Qed.

(** A tick of the flood of the scenario sends one chunk and the
    connection is in the download state. *)
Lemma every_frame_witness :
  ∃ new,
    sent (Scenario.world_of
            (step Scenario.server_flooding (TimerFired 1) (Scenario.server_env 1 0)))
    = sent Scenario.server_flooding ++ new
    ∧ (length new ≤ 1)%nat
    ∧ Forall (λ f, frame_state f (Some (Download 0))) new.
Proof.
  exact (every_frame_matches_the_state_after_its_turn
           Scenario.server_flooding (TimerFired 1) (Scenario.server_env 1 0)
           (Scenario.world_of
              (step Scenario.server_flooding (TimerFired 1) (Scenario.server_env 1 0)))
           server_flooding_reachable eq_refl).
Defined.



End FrameState.

(** * The log of the backpressure *)

Section BackpressureLog.
Import Server.

Lemma debounceBackPressureLog_bookkeeping flood w cl :
  floods w !! flood = Some cl →
  ∃ cl', floods (debounceBackPressureLog flood w) !! flood = Some cl' ∧
    match backpressureDebounceTimer cl with
    | None => debounce_logged flood w = Some (S (backpressureCount cl)) ∧
              backpressureCount cl' = 0%nat ∧
              backpressureDebounceTimer cl' = Some (next_timer w)
    | Some id => debounce_logged flood w = None ∧
                 backpressureCount cl' = S (backpressureCount cl) ∧
                 backpressureDebounceTimer cl' = Some id
    end.
Proof.
  intros Hf. unfold debounceBackPressureLog, debounce_logged. rewrite Hf.
  destruct (backpressureDebounceTimer cl) as [id|] eqn:Ht;
    cbn [setTimeout set_floods floods]; rewrite lookup_insert_eq; eexists; split; done.
Qed.

Lemma debounceExpired_bookkeeping flood w cl :
  floods w !! flood = Some cl →
  ∃ cl', floods (debounceExpired flood w) !! flood = Some cl' ∧
         backpressureCount cl' = backpressureCount cl ∧
         backpressureDebounceTimer cl' = None.
Proof.
  intros Hf. unfold debounceExpired. rewrite Hf. cbn [set_floods floods].
  rewrite lookup_insert_eq. by eexists.
Qed.

Lemma sum_list_cons x l : sum_list (x :: l) = (x + sum_list l)%nat.
Proof. reflexivity. Qed.

Lemma delayed_chunks_cons_Backpressure evs :
  delayed_chunks (Backpressure :: evs) = S (delayed_chunks evs).
Proof. reflexivity. Qed.

Lemma delayed_chunks_cons_DebounceExpiry evs :
  delayed_chunks (DebounceExpiry :: evs) = delayed_chunks evs.
Proof. reflexivity. Qed.

(** While the debounce timer runs and does not expire, nothing is printed. *)
Lemma debounce_trace_throttled flood evs :
  ∀ w cl id,
    floods w !! flood = Some cl → backpressureDebounceTimer cl = Some id →
    Forall (λ e, e = Backpressure) evs →
    (debounce_trace flood w evs).1 = [].
Proof.
  induction evs as [|e evs IH]; intros w cl id Hf Ht Hall; [done|].
  inversion Hall as [|? ? -> Hrest]; subst. cbn [debounce_trace fst].
  destruct (debounceBackPressureLog_bookkeeping flood w cl Hf) as (cl' & Hf' & H).
  rewrite Ht in H. destruct H as (-> & _ & Ht'). cbn [app].
  by apply (IH _ cl' id).
Qed.

(** X9.  The log of the backpressure of a flood loses no delayed chunk: along
    any sequence of full-buffer ticks and expiries of the debounce timer,
    the numbers printed so far and the count kept for the next print add up
    to the number of ticks that found the buffer full (plus the count at
    the start).  The first such tick of a flood prints at once, and as long
    as the debounce timer does not expire nothing else is printed. *)
Theorem backpressure_log_counts_every_delayed_chunk
    (flood : nat) (w : World) (cl : FloodClosure) (evs : list DebounceEvent) :
  floods w !! flood = Some cl →
  (sum_list (debounce_trace flood w evs).1 + pending_count flood (debounce_trace flood w evs).2
   = backpressureCount cl + delayed_chunks evs)%nat
  ∧ (backpressureDebounceTimer cl = None →
     ∀ rest, evs = Backpressure :: rest →
       ∃ logs, (debounce_trace flood w evs).1 = S (backpressureCount cl) :: logs ∧
               (Forall (λ e, e = Backpressure) rest → logs = [])).
Proof.
  intros Hf. split.
  - revert w cl Hf. induction evs as [|[|] evs IH]; intros w cl Hf.
    + cbn [debounce_trace fst snd]. unfold pending_count, delayed_chunks.
      rewrite Hf. cbn. lia.
    + cbn [debounce_trace fst snd]. rewrite delayed_chunks_cons_Backpressure.
      destruct (debounceBackPressureLog_bookkeeping flood w cl Hf) as (cl' & Hf' & H).
      specialize (IH _ cl' Hf').
      destruct (backpressureDebounceTimer cl) as [id|];
        destruct H as (-> & Hcount & _); rewrite Hcount in IH.
      * cbn [app]. lia.
      * cbn [app]. rewrite sum_list_cons. lia.
    + cbn [debounce_trace]. rewrite delayed_chunks_cons_DebounceExpiry.
      destruct (debounceExpired_bookkeeping flood w cl Hf) as (cl' & Hf' & Hcount & _).
      specialize (IH _ cl' Hf'). rewrite Hcount in IH. exact IH.
  - intros Ht rest ->. cbn [debounce_trace fst].
    destruct (debounceBackPressureLog_bookkeeping flood w cl Hf) as (cl' & Hf' & H).
    rewrite Ht in H. destruct H as (-> & _ & Ht'). cbn [app]. eexists. split; [done|].
    intros Hall. by apply (debounce_trace_throttled flood rest _ cl' (next_timer w)).
Qed.

(** The flood of the scenario: three ticks find the buffer full, the
    debounce timer expires, two more ticks find it full.  The prints are 1
    and then 3, and 1 is kept for the next print. *)
Lemma backpressure_log_witness :
  (debounce_trace 0 Scenario.server_flooding
     [Backpressure; Backpressure; Backpressure; DebounceExpiry;
      Backpressure; Backpressure]).1 = [1; 3]%nat
  ∧ (sum_list (debounce_trace 0 Scenario.server_flooding
                 [Backpressure; Backpressure; Backpressure; DebounceExpiry;
                  Backpressure; Backpressure]).1
     + pending_count 0
         (debounce_trace 0 Scenario.server_flooding
            [Backpressure; Backpressure; Backpressure; DebounceExpiry;
             Backpressure; Backpressure]).2 = 5)%nat.
Proof.
  destruct (backpressure_log_counts_every_delayed_chunk 0 Scenario.server_flooding
              {| clientState := 0; floodStartTimeMs := Fin (inject_Z 0);
                 f_requestedDurationMs := JS.of_Z 3000;
                 backpressureThresholdBytes :=
                   JS.mul (JS.of_Z 2) (JS.of_N Scenario.four_MiB);
                 payload := Scenario.four_MiB; backpressureCount := 0;
                 backpressureDebounceTimer := None |}
              [Backpressure; Backpressure; Backpressure; DebounceExpiry;
               Backpressure; Backpressure] eq_refl) as [H _].
  split; [reflexivity|exact H].
Defined.

End BackpressureLog.

(** * A closed connection *)

Section ClosedConnection.
Import Server.

Lemma run_closed_silent turns :
  Forall (λ t, t.1 ≠ SocketOpen) turns →
  ∀ w, clients_get w = None → no_tick_pending w →
    ∃ w', run w turns = Done w' ∧ sent w' = sent w ∧ clients_get w' = None.
Proof.
  induction turns as [|[ev env] turns IH]; intros Hall w Hc Hno.
  - by exists w.
  - inversion Hall as [|? ? Hev Hrest]; subst. cbn [fst] in Hev.
    rewrite server_run_cons.
    assert (Hclean : cleanupForDownloadFlood w = w).
    { unfold cleanupForDownloadFlood. by rewrite Hc. }
    assert (Hset : set_clients None w = w) by (rewrite <- Hc; apply set_clients_id).
    destruct ev as [| | |event|id]; cbn [step]; try done.
    + unfold onclose. rewrite Hclean, Hset. by apply IH.
    + unfold onerror. rewrite Hclean, Hset. by apply IH.
    + unfold onmessage. rewrite Hc. by apply IH.
    + destruct (no_tick_pending_timer_turn w id env Hno) as (w1 & Hstep & Hsent & Hno1).
      cbn [step] in Hstep. rewrite Hstep.
      destruct (IH Hrest w1) as (w' & Hrun & Hsent' & Hc'); [|done|].
      { rewrite <- Hc. apply (clients_get_timer_turn w id env). by cbn [step]. }
      exists w'. split; [done|]. split; [by rewrite Hsent'|done].
Qed.

(** X10.  Once the socket has closed or failed, the connection is silent: along
    any run, after [onclose] or [onerror] nothing that happens on this
    socket, be it a message, a timer of a former flood, or another close,
    sends a frame or brings back a state for the connection. *)
Theorem closed_connection_stays_silent
    (w : World) (turns : list (Event * Env)) :
  reachable w →
  Forall (λ t, t.1 ≠ SocketOpen) turns →
  (∃ w', run (onclose w) turns = Done w' ∧ sent w' = sent w ∧ clients_get w' = None)
  ∧ (∃ w', run (onerror w) turns = Done w' ∧ sent w' = sent w ∧ clients_get w' = None).
Proof.
  intros Hr Hall.
  assert (H : ∃ w', run (set_clients None (cleanupForDownloadFlood w)) turns = Done w' ∧
                    sent w' = sent w ∧ clients_get w' = None).
  { destruct (run_closed_silent turns Hall (set_clients None (cleanupForDownloadFlood w)))
      as (w' & Hrun & Hsent & Hc); [done| |].
    - eapply no_tick_pending_timers; [|apply no_tick_pending_cleanup]; [done|].
      by apply reachable_tick_invariant.
    - exists w'. split; [done|]. split; [|done].
      by rewrite Hsent, sent_set_clients, sent_cleanupForDownloadFlood. }
  split; exact H.
Qed.

(** The flood of the scenario is cut by a close at 10 ms; its tick fires,
    a stopDownload and a payload arrive: nothing more is sent. *)
Lemma closed_connection_witness :
  ∃ w', run (onclose Scenario.server_flooding)
          [(TimerFired 1, Scenario.server_env 11 0);
           (SocketMessage Scenario.stopDownload_msg, Scenario.server_env 12 0);
           (SocketMessage (BinaryData Scenario.four_MiB), Scenario.server_env 13 0)]
          = Done w'
        ∧ sent w' = sent Scenario.server_flooding ∧ clients_get w' = None.
Proof.
  apply (closed_connection_stays_silent Scenario.server_flooding
           [(TimerFired 1, Scenario.server_env 11 0);
            (SocketMessage Scenario.stopDownload_msg, Scenario.server_env 12 0);
            (SocketMessage (BinaryData Scenario.four_MiB), Scenario.server_env 13 0)]
           server_flooding_reachable).
  repeat constructor; done.
Defined.

End ClosedConnection.

(** * The download test of the client *)

Section ClientDownloadExtras.
Import Client.

Lemma handlePayloadMessage_completed w d n env :
  status (clientState w) = download d → downloadCompleted d = true →
  handlePayloadMessage n env w = w.
Proof. intros Hw Hd. unfold handlePayloadMessage. by rewrite Hw, Hd. Qed.

Lemma run_payloads_completed chunks :
  ∀ w d, status (clientState w) = download d → downloadCompleted d = true →
         run w (payloads chunks) = w.
Proof.
  induction chunks as [|[n env] chunks IH]; intros w d Hw Hd; [done|].
  rewrite client_run_payloads_cons, (handlePayloadMessage_completed w d) by done.
  by apply (IH w d).
Qed.

(** A payload in a download that is past chunk #1 and not completed. *)
Lemma handlePayloadMessage_counting w start last k n env :
  status (clientState w) =
    download {| downloadBytesReceived := JS.of_Z k;
                downloadStartTimeClient := start;
                downloadLastReceivedTimeClient := last;
                downloadCompleted := false |} →
  (0 ≤ k)%Z →
  handlePayloadMessage n env w =
    let bytes := JS.of_Z (k + Z.of_N n) in
    let elapsedSoFar := JS.sub (Fin (performance_now env 1)) start in
    let w1 := set_status (download {| downloadBytesReceived := bytes;
                                      downloadStartTimeClient := start;
                                      downloadLastReceivedTimeClient :=
                                        Fin (performance_now env 0);
                                      downloadCompleted := false |}) w in
    if JS.ge elapsedSoFar (durationMs (controlConfigValues w)) then
      sendControlMessage StopDownload env
        (set_status (download {| downloadBytesReceived := bytes;
                                 downloadStartTimeClient := start;
                                 downloadLastReceivedTimeClient :=
                                   Fin (performance_now env 0);
                                 downloadCompleted := true |})
           (updateSpeedDisplay (download_speed_of bytes elapsedSoFar) "Complete"
              (kiB (bytesKiB_of bytes) "total") (JS.of_Z 100) w1))
    else
      updateSpeedDisplay (download_speed_of bytes elapsedSoFar) "Testing... download"
        (kiB (bytesKiB_of bytes) "received")
        (JS.min (JS.mul (JS.div elapsedSoFar (durationMs (controlConfigValues w)))
                        (JS.of_Z 100)) (JS.of_Z 100)) w1.
Proof.
  intros Hw Hk. unfold handlePayloadMessage. rewrite Hw.
  cbn [downloadCompleted downloadBytesReceived downloadStartTimeClient
       downloadLastReceivedTimeClient].
  rewrite eq_of_Z, bool_decide_eq_false_2 by lia.
  unfold JS.of_N. rewrite add_of_Z. reflexivity.
Qed.

(** X11.  Whatever the payloads of a download, the client sends at most one
    stopDownload in answer to them, and once the download is marked
    completed further payloads change nothing at all. *)
Theorem payloads_trigger_at_most_one_stopDownload
    (w : World) (d : DownloadState) (chunks : list (N * Env)) :
  status (clientState w) = download d →
  (∃ new, sent (run w (payloads chunks)) = sent w ++ new ∧
          (new = [] ∨ new = [Control StopDownload]))
  ∧ (downloadCompleted d = true → run w (payloads chunks) = w).
Proof.
  intros Hw. split; [|by apply run_payloads_completed].
  revert w d Hw. induction chunks as [|[n env] chunks IH]; intros w d Hw.
  { exists []. rewrite app_nil_r. split; [done|by left]. }
  rewrite client_run_payloads_cons. unfold handlePayloadMessage. rewrite Hw.
  destruct (downloadCompleted d) eqn:Hd; [by apply (IH w d)|].
  destruct (JS.eq (downloadBytesReceived d) (JS.of_Z (-1))).
  { match goal with
    | |- context [run (set_status (download ?d1) w) _] =>
        destruct (IH (set_status (download d1) w) d1 eq_refl) as (new & Hsent & Hnew)
    end.
    by exists new. }
  cbv zeta.
  match goal with |- context [if ?c then _ else _] => destruct c end.
  - match goal with
    | |- context [run (sendControlMessage _ _ ?w3) _] =>
        rewrite (run_payloads_completed chunks (sendControlMessage StopDownload env w3)
                   {| downloadBytesReceived := JS.add (downloadBytesReceived d) (JS.of_N n);
                      downloadStartTimeClient := downloadStartTimeClient d;
                      downloadLastReceivedTimeClient := Fin (performance_now env 0);
                      downloadCompleted := true |})
          by (by rewrite ?status_sendControlMessage)
    end.
    unfold sendControlMessage.
    match goal with |- context [if ?c then _ else _] => destruct c end.
    + exists [Control StopDownload]. split; [done|by right].
    + exists []. rewrite app_nil_r. split; [done|by left].
  - match goal with
    | |- context [run ?w1 _] =>
        destruct (IH w1 {| downloadBytesReceived :=
                             JS.add (downloadBytesReceived d) (JS.of_N n);
                           downloadStartTimeClient := downloadStartTimeClient d;
                           downloadLastReceivedTimeClient := Fin (performance_now env 0);
                           downloadCompleted := false |})
          as (new & Hsent & Hnew)
    end.
    { done. }
    by exists new.
Qed.

(** The download of the scenario: payloads at 20, 40, 3020, 3040 and
    3060 ms; the one at 3020 ms completes the test, and the stopDownload it
    triggers is the only one. *)
Lemma payloads_stopDownload_witness :
  ∃ new,
    sent (run (step (Scenario.client_ready Scenario.download_config) Click
                 (Scenario.client_env 0 0))
            (payloads [(Scenario.four_MiB, Scenario.client_env 20 0);
                       (Scenario.four_MiB, Scenario.client_env 40 0);
                       (Scenario.four_MiB, Scenario.client_env 3020 0);
                       (Scenario.four_MiB, Scenario.client_env 3040 0);
                       (Scenario.four_MiB, Scenario.client_env 3060 0)]))
    = [Control (StartDownload (JS.of_Z 3000) (JS.of_N Scenario.four_MiB))] ++ new
    ∧ (new = [] ∨ new = [Control StopDownload]).
Proof.
  destruct (payloads_trigger_at_most_one_stopDownload
              (step (Scenario.client_ready Scenario.download_config) Click
                 (Scenario.client_env 0 0))
              {| downloadBytesReceived := JS.of_Z (-1);
                 downloadStartTimeClient := Fin (inject_Z 0);
                 downloadLastReceivedTimeClient := JS.of_Z 0;
                 downloadCompleted := false |}
              [(Scenario.four_MiB, Scenario.client_env 20 0);
               (Scenario.four_MiB, Scenario.client_env 40 0);
               (Scenario.four_MiB, Scenario.client_env 3020 0);
               (Scenario.four_MiB, Scenario.client_env 3040 0);
               (Scenario.four_MiB, Scenario.client_env 3060 0)] eq_refl)
    as [(new & Hsent & Hnew) _].
  exists new. split; [exact Hsent|exact Hnew].
Defined.

Lemma client_total_bytes_cons n env chunks :
  total_bytes ((n, env) :: chunks) = (Z.of_N n + total_bytes chunks)%Z.
Proof. reflexivity. Qed.

Lemma ws_open_set_status env s w : ws_open env (set_status s w) = ws_open env w.
Proof. reflexivity. Qed.

Lemma ws_open_updateSpeedDisplay env a b c d w :
  ws_open env (updateSpeedDisplay a b c d w) = ws_open env w.
Proof. reflexivity. Qed.

(** The stream up to the first payload that finds the duration elapsed. *)
Lemma client_run_until_complete env1 cN envN middle :
  ∀ w k lastTime,
    status (clientState w) =
      download {| downloadBytesReceived := JS.of_Z k;
                  downloadStartTimeClient := Fin (performance_now env1 0);
                  downloadLastReceivedTimeClient := lastTime;
                  downloadCompleted := false |} →
    (0 ≤ k)%Z →
    Forall (λ c, JS.ge (elapsed_since env1 c.2) (durationMs (controlConfigValues w)) = false)
           middle →
    JS.ge (elapsed_since env1 envN) (durationMs (controlConfigValues w)) = true →
    ws_open envN w = true →
    let w' := run w (payloads (middle ++ [(cN, envN)])) in
    let bytes := JS.of_Z (k + total_bytes (middle ++ [(cN, envN)])) in
    status (clientState w') =
      download {| downloadBytesReceived := bytes;
                  downloadStartTimeClient := Fin (performance_now env1 0);
                  downloadLastReceivedTimeClient := Fin (performance_now envN 0);
                  downloadCompleted := true |}
    ∧ sent w' = sent w ++ [Control StopDownload]
    ∧ last (displayed w') =
        Some {| speedMbps := download_speed_of bytes (elapsed_since env1 envN);
                status_text := "Complete";
                progress := kiB (bytesKiB_of bytes) "total";
                progressPercent := JS.of_Z 100 |}
    ∧ length (displayed w') = S (length (displayed w) + length middle).
Proof.
  induction middle as [|[n env] middle IH]; intros w k last0 Hw Hk Hmid Hlast Hopen;
    (rewrite <- app_comm_cons || rewrite app_nil_l).
  - cbn [payloads map run fst snd step onmessage].
    rewrite (handlePayloadMessage_counting w _ last0 k) by done. cbv zeta.
    unfold elapsed_since in Hlast. rewrite Hlast.
    unfold sendControlMessage.
    rewrite ws_open_set_status, ws_open_updateSpeedDisplay, ws_open_set_status, Hopen.
    rewrite client_total_bytes_cons. unfold total_bytes at 1 2 3. cbn [foldr].
    rewrite Z.add_0_r. split; [done|]. split; [done|]. split.
    + cbn [ws_send set_status set_clientState updateSpeedDisplay displayed].
      by rewrite last_snoc.
    + cbn [ws_send set_status set_clientState updateSpeedDisplay displayed].
      rewrite length_app. cbn [length]. lia.
  - rewrite client_run_payloads_cons.
    rewrite (handlePayloadMessage_counting w _ last0 k) by done. cbv zeta.
    inversion Hmid as [|? ? Hc Hmid']; subst. cbn [snd] in Hc.
    unfold elapsed_since in Hc. rewrite Hc.
    match goal with
    | |- context [run ?w1 _] =>
        destruct (IH w1 (k + Z.of_N n)%Z (Fin (performance_now env 0)))
          as (Hst & Hsent & Hdisp & Hlen); [done|lia|exact Hmid'|exact Hlast|exact Hopen|]
    end.
    rewrite client_total_bytes_cons.
    replace (k + (Z.of_N n + total_bytes (middle ++ [(cN, envN)])))%Z
      with (k + Z.of_N n + total_bytes (middle ++ [(cN, envN)]))%Z by lia.
    split; [exact Hst|]. split; [exact Hsent|]. split; [exact Hdisp|].
    rewrite Hlen. cbn [set_status set_clientState updateSpeedDisplay displayed].
    rewrite length_app. cbn [length]. lia.
Qed.

End ClientDownloadExtras.

Section ClientTheorems.
Import Client.

Lemma startRealTest_download_world env w :
  status (clientState w) = ready →
  direction (controlConfigValues w) = dir_download →
  startRealTest env w =
    set_startButton "Stop Test"
      (updateSpeedDisplay (JS.of_Z 0) "Starting..." no_text (JS.of_Z 0)
         (set_status
            (download {| downloadBytesReceived := JS.of_Z (-1);
                         downloadStartTimeClient := Fin (performance_now env 0);
                         downloadLastReceivedTimeClient := JS.of_Z 0;
                         downloadCompleted := false |})
            (sendControlMessage
               (StartDownload (durationMs (controlConfigValues w))
                  (JS.of_N (payloadSizeBytes (controlConfigValues w)))) env w))).
Proof. intros H1 H2. unfold startRealTest. by rewrite H1, H2. Qed.

Lemma controlConfigValues_sendControlMessage m env w :
  controlConfigValues (sendControlMessage m env w) = controlConfigValues w.
Proof. unfold sendControlMessage. by destruct (ws_open env w). Qed.

(** X12.  A download test from the click on Start: chunk #1 only resets the
    clock; the payloads that find less than the configured duration elapsed
    since then are counted; the first payload that finds the duration
    elapsed completes the test: the state holds the sum of the sizes of all
    payloads but chunk #1 and the time of that last payload, the display
    shows "Complete" with the speed computed from that sum, one
    stopDownload goes out, and whatever payloads follow change nothing. *)
Theorem download_completes_at_first_payload_past_duration
    (w : World) (env0 : Env) (c1 : N) (env1 : Env) (middle : list (N * Env))
    (cN : N) (envN : Env) (after : list (N * Env)) :
  status (clientState w) = ready →
  direction (controlConfigValues w) = dir_download →
  Forall (λ c, JS.ge (elapsed_since env1 c.2) (durationMs (controlConfigValues w)) = false)
         middle →
  JS.ge (elapsed_since env1 envN) (durationMs (controlConfigValues w)) = true →
  ws_open envN w = true →
  let w0 := startRealTest env0 w in
  let w' := run w0 (payloads ((c1, env1) :: middle ++ [(cN, envN)])) in
  let bytes := JS.of_Z (total_bytes (middle ++ [(cN, envN)])) in
  status (clientState w') =
    download {| downloadBytesReceived := bytes;
                downloadStartTimeClient := Fin (performance_now env1 0);
                downloadLastReceivedTimeClient := Fin (performance_now envN 0);
                downloadCompleted := true |}
  ∧ sent w' = sent w0 ++ [Control StopDownload]
  ∧ last (displayed w') =
      Some {| speedMbps := download_speed_of bytes (elapsed_since env1 envN);
              status_text := "Complete";
              progress := kiB (bytesKiB_of bytes) "total";
              progressPercent := JS.of_Z 100 |}
  ∧ run w' (payloads after) = w'.
Proof.
  intros Hready Hdir Hmid Hlast Hopen w0 w' bytes.
  assert (Hw0 : status (clientState w0) =
            download {| downloadBytesReceived := JS.of_Z (-1);
                        downloadStartTimeClient := Fin (performance_now env0 0);
                        downloadLastReceivedTimeClient := JS.of_Z 0;
                        downloadCompleted := false |})
    by (by apply startRealTest_download).
  assert (Hcfg : controlConfigValues w0 = controlConfigValues w).
  { unfold w0. rewrite startRealTest_download_world by done.
    cbn [set_startButton updateSpeedDisplay set_status set_clientState controlConfigValues].
    apply controlConfigValues_sendControlMessage. }
  assert (Hopen0 : ws_open envN w0 = true).
  { unfold w0. rewrite startRealTest_download_world by done. unfold ws_open in *.
    cbn [set_startButton updateSpeedDisplay set_status set_clientState clientState ws].
    by rewrite status_sendControlMessage. }
  unfold w'. rewrite client_run_payloads_cons.
  rewrite (handlePayloadMessage_first _ _ _ _ Hw0).
  match goal with
  | |- context [run ?w1 _] =>
      destruct (client_run_until_complete env1 cN envN middle w1 0%Z
                  (Fin (performance_now env1 0)))
        as (Hst & Hsent & Hdisp & _);
        [done|done|by rewrite <- Hcfg in Hmid|by rewrite <- Hcfg in Hlast|exact Hopen0|]
  end.
  rewrite Z.add_0_l in Hst, Hdisp. fold bytes in Hst, Hdisp.
  split; [exact Hst|]. split; [exact Hsent|]. split; [exact Hdisp|].
  by eapply run_payloads_completed.
Qed.

(** The download of the scenario: payloads of 4 MiB at 20, 40 and 3020
    ms, then one at 3040 ms that is ignored. *)
Lemma download_completes_witness :
  status (clientState
    (run (startRealTest (Scenario.client_env 0 0)
            (Scenario.client_ready Scenario.download_config))
       (payloads [(Scenario.four_MiB, Scenario.client_env 20 0);
                  (Scenario.four_MiB, Scenario.client_env 40 0);
                  (Scenario.four_MiB, Scenario.client_env 3020 0)]))) =
  download {| downloadBytesReceived := JS.of_Z 8388608;
              downloadStartTimeClient := Fin (inject_Z 20);
              downloadLastReceivedTimeClient := Fin (inject_Z 3020);
              downloadCompleted := true |}.
Proof.
  destruct (download_completes_at_first_payload_past_duration
              (Scenario.client_ready Scenario.download_config)
              (Scenario.client_env 0 0) Scenario.four_MiB (Scenario.client_env 20 0)
              [(Scenario.four_MiB, Scenario.client_env 40 0)]
              Scenario.four_MiB (Scenario.client_env 3020 0)
              [(Scenario.four_MiB, Scenario.client_env 3040 0)]
              eq_refl eq_refl ltac:(repeat constructor) eq_refl eq_refl)
    as (Hst & _).
  exact Hst.
Defined.

(** The state the casts of the downloadComplete branch read when the
    client is not in a download gives NaN everywhere. *)
Lemma handleServerMessage_downloadComplete_display w env :
  last (displayed (handleServerMessage downloadComplete env w)) =
    Some {| speedMbps :=
              speed_of (downloadBytesReceived (as_DownloadState (status (clientState w))))
                (download_elapsedMs (as_DownloadState (status (clientState w)))
                   (performance_now env 0));
            status_text := "Complete";
            progress :=
              kiB (bytesKiB_of
                     (downloadBytesReceived (as_DownloadState (status (clientState w)))))
                  "total";
            progressPercent := JS.of_Z 100 |}.
Proof.
  unfold handleServerMessage, test_complete.
  cbn [setTimeout snd set_startButton set_clientState updateSpeedDisplay displayed].
  by rewrite last_snoc.
Qed.

(** X13.  A downloadComplete that reaches a client which is not in a download
    makes it display NaN as the final speed and as the byte count, with the
    status "Complete".  This is what the acknowledgment of a user-initiated
    stop does: [stopRealTest] has already put the client in the ready
    state.  The text [formatSpeed] makes of that speed is no decimal. *)
Theorem acknowledgment_outside_a_download_displays_NaN :
  (∀ w env,
     (∀ d, status (clientState w) ≠ download d) →
     last (displayed (handleServerMessage downloadComplete env w)) =
       Some {| speedMbps := NaN; status_text := "Complete";
               progress := kiB NaN "total"; progressPercent := JS.of_Z 100 |})
  ∧ (∀ w env env' d,
       status (clientState w) = download d →
       last (displayed (step (stopRealTest env w)
                          (WsMessage (TextFrame (Parsed downloadComplete))) env')) =
         Some {| speedMbps := NaN; status_text := "Complete";
                 progress := kiB NaN "total"; progressPercent := JS.of_Z 100 |})
  ∧ speed_shown NaN = None.
Proof.
  assert (H : ∀ w env,
     (∀ d, status (clientState w) ≠ download d) →
     last (displayed (handleServerMessage downloadComplete env w)) =
       Some {| speedMbps := NaN; status_text := "Complete";
               progress := kiB NaN "total"; progressPercent := JS.of_Z 100 |}).
  { intros w env Hs. rewrite handleServerMessage_downloadComplete_display.
    destruct (status (clientState w)) as [| | |d| |]; try done. by destruct (Hs d). }
  split; [exact H|]. split; [|done].
  intros w env env' d Hw. cbn [step onmessage]. apply H.
  unfold stopRealTest. rewrite Hw. done.
Qed.

(** The user stops the download of the scenario at 100 ms; the
    acknowledgment arrives at 105 ms. *)
Lemma acknowledgment_displays_NaN_witness :
  last (displayed
          (run Scenario.client_downloading
             [(Click, Scenario.client_env 100 0);
              (WsMessage (TextFrame (Parsed downloadComplete)), Scenario.client_env 105 0)])) =
    Some {| speedMbps := NaN; status_text := "Complete";
            progress := kiB NaN "total"; progressPercent := JS.of_Z 100 |}.
Proof.
  destruct acknowledgment_outside_a_download_displays_NaN as (_ & H & _).
  exact (H Scenario.client_downloading (Scenario.client_env 100 0)
           (Scenario.client_env 105 0) _ eq_refl).
Defined.

(** X14.  A start with a socket that is not open: the request is not sent and
    no upload tick is scheduled, yet the client enters the test state and
    the button reads "Stop Test". *)
Theorem start_without_open_socket_enters_the_test_state (w : World) (env : Env) :
  status (clientState w) = ready →
  ws_open env w = false →
  let w' := startRealTest env w in
  sent w' = sent w ∧ timers w' = timers w ∧
  is_testing (status (clientState w')) = true ∧ startButton w' = "Stop Test".
Proof.
  intros Hready Hopen. unfold startRealTest. rewrite Hready.
  unfold sendControlMessage. rewrite Hopen.
  destruct (direction (controlConfigValues w)); cbv zeta.
  - unfold startUploadTest. cbn [set_status set_clientState clientState status].
    rewrite bool_decide_eq_false_2 by (intros H; by apply H).
    unfold sendUploadChunk. cbn [set_status set_clientState clientState status].
    match goal with
    | |- context [ws_open env ?w1] => change (ws_open env w1) with (ws_open env w)
    end.
    rewrite Hopen. cbn [negb].
    unfold stopUploadTest. cbn [clientState status]. done.
  - done.
  - unfold startUploadTest. cbn [set_status set_clientState clientState status].
    rewrite bool_decide_eq_false_2 by (intros H; by apply H).
    unfold sendUploadChunk. cbn [set_status set_clientState clientState status].
    match goal with
    | |- context [ws_open env ?w1] => change (ws_open env w1) with (ws_open env w)
    end.
    rewrite Hopen. cbn [negb].
    unfold stopUploadTest. cbn [clientState status]. done.
Qed.

Lemma start_without_open_socket_witness :
  sent (startRealTest {| performance_now := λ _, inject_Z 0; readyState := CLOSING;
                         bufferedAmount := 0 |}
          (Scenario.client_ready Scenario.upload_config)) = []
  ∧ status (clientState
      (startRealTest {| performance_now := λ _, inject_Z 0; readyState := CLOSING;
                        bufferedAmount := 0 |}
         (Scenario.client_ready Scenario.upload_config))) = upload 0 Scenario.four_MiB.
Proof.
  destruct (start_without_open_socket_enters_the_test_state
              (Scenario.client_ready Scenario.upload_config)
              {| performance_now := λ _, inject_Z 0; readyState := CLOSING;
                 bufferedAmount := 0 |} eq_refl eq_refl) as (Hsent & _).
  split; [exact Hsent|reflexivity].
Defined.

End ClientTheorems.

(** * The start button *)

Section ClientButton.
Import Client.

Lemma button_agrees_same w w' :
  startButton w' = startButton w →
  is_testing (status (clientState w')) = is_testing (status (clientState w)) →
  button_agrees w → button_agrees w'.
Proof. unfold button_agrees. by intros -> ->. Qed.

Lemma stopUploadTest_same w :
  startButton (stopUploadTest w) = startButton w
  ∧ is_testing (status (clientState (stopUploadTest w))) = is_testing (status (clientState w)).
Proof.
  unfold stopUploadTest. destruct (status (clientState w)) eqn:Hs; try by rewrite Hs.
  case_bool_decide; [|by rewrite Hs]. by destruct uploadInterval.
Qed.

Lemma sendUploadChunk_same payload env w :
  startButton (sendUploadChunk payload env w) = startButton w
  ∧ is_testing (status (clientState (sendUploadChunk payload env w)))
    = is_testing (status (clientState w)).
Proof.
  unfold sendUploadChunk.
  destruct (status (clientState w)) eqn:Hs;
    try (rewrite <- Hs; apply stopUploadTest_same).
  destruct (negb (ws_open env w)); [rewrite <- Hs; apply stopUploadTest_same|].
  destruct (JS.ge _ _); cbn [setTimeout set_status set_clientState startButton clientState
                             status is_testing ws_send]; by rewrite ?Hs.
Qed.

Lemma handlePayloadMessage_same n env w :
  startButton (handlePayloadMessage n env w) = startButton w
  ∧ is_testing (status (clientState (handlePayloadMessage n env w)))
    = is_testing (status (clientState w)).
Proof.
  unfold handlePayloadMessage. destruct (status (clientState w)) eqn:Hs; try by rewrite Hs.
  destruct (downloadCompleted d); [by rewrite Hs|].
  destruct (JS.eq _ _); [done|]. cbv zeta.
  match goal with |- context [if ?c then _ else _] => destruct c end; [|done].
  unfold sendControlMessage.
  match goal with |- context [if ?c then _ else _] => destruct c end; done.
Qed.

Lemma resetToIdle_button env w :
  startButton (resetToIdle env w) = "Start Test"
  ∧ is_testing (status (clientState (resetToIdle env w))) = false.
Proof.
  unfold resetToIdle. cbv zeta.
  match goal with |- context [if ?c then _ else _] => destruct c end; done.
Qed.

Lemma test_complete_button w :
  startButton (test_complete w) = "Start Test"
  ∧ is_testing (status (clientState (test_complete w))) = false.
Proof. done. Qed.

Lemma button_agrees_of w :
  startButton w = "Start Test" ∧ is_testing (status (clientState w)) = false →
  button_agrees w.
Proof. unfold button_agrees. by intros [-> ->]. Qed.

Lemma handleServerMessage_button message env w :
  button_agrees w → button_agrees (handleServerMessage message env w).
Proof.
  intros Hw. destruct message; unfold handleServerMessage.
  - by destruct (status (clientState w)) eqn:Hs.
  - apply button_agrees_of, test_complete_button.
  - apply button_agrees_of, test_complete_button.
Qed.

Lemma startRealTest_button env w :
  button_agrees w → button_agrees (startRealTest env w).
Proof.
  intros Hw. unfold startRealTest. destruct (status (clientState w)) eqn:Hs; try done.
  destruct (direction (controlConfigValues w)); cbv zeta; unfold button_agrees;
    cbn [set_startButton startButton clientState updateSpeedDisplay]; try done.
  - unfold startUploadTest. cbn [set_status set_clientState clientState status].
    rewrite bool_decide_eq_false_2 by (intros H; by apply H).
    match goal with
    | |- context [sendUploadChunk ?p ?e ?w1] =>
        destruct (sendUploadChunk_same p e w1) as [_ ->]
    end. done.
  - unfold startUploadTest. cbn [set_status set_clientState clientState status].
    rewrite bool_decide_eq_false_2 by (intros H; by apply H).
    match goal with
    | |- context [sendUploadChunk ?p ?e ?w1] =>
        destruct (sendUploadChunk_same p e w1) as [_ ->]
    end. done.
Qed.

Lemma stopRealTest_button env w :
  button_agrees w → button_agrees (stopRealTest env w).
Proof.
  intros Hw. unfold stopRealTest. by destruct (status (clientState w)) eqn:Hs.
Qed.

(** Every turn but an unexpected open keeps the label of the button in
    step with the state. *)
Lemma button_agrees_step w ev env :
  (ev = WsOpen → status (clientState w) = disconnected) →
  button_agrees w → button_agrees (step w ev env).
Proof.
  intros Hopen Hw. destruct ev as [|data| | | |id]; cbn [step].
  - unfold button_agrees, onopen in *. rewrite Hopen in Hw by done. exact Hw.
  - unfold onmessage. destruct data as [[| |message|]|n]; try done.
    + apply button_agrees_of, resetToIdle_button.
    + apply button_agrees_of, resetToIdle_button.
    + by apply handleServerMessage_button.
    + eapply button_agrees_same; [apply handlePayloadMessage_same..|exact Hw].
  - apply button_agrees_of. split; [|done]. unfold onclose.
    cbn [setTimeout snd startButton set_clientState]. apply resetToIdle_button.
  - apply button_agrees_of, resetToIdle_button.
  - unfold handleStartButtonClick. destruct (String.eqb _ _).
    + by apply startRealTest_button.
    + by apply stopRealTest_button.
  - destruct (timers w !! id) as [[cb delay]|]; [|done].
    destruct cb as [payload| |]; cbn [run_callback].
    + eapply button_agrees_same; [apply sendUploadChunk_same..|]. by destruct id.
    + done.
    + unfold connectWebSocket. by destruct (ws (clientState (clearTimeout (Z.pos id) w))).
Qed.

(** X15.  Along any run of the page the label of the start button tells what a
    click does: it reads "Stop Test" exactly while a test is running, so a
    click during an upload or a download stops that test, and a click in
    any other state goes to [startRealTest], which starts a test when the
    client is ready. *)
Theorem button_label_follows_the_state (config : Config) (w : World) :
  reachable config w →
  button_agrees w
  ∧ (∀ env, is_testing (status (clientState w)) = true →
            step w Click env = stopRealTest env w
            ∧ status (clientState (step w Click env)) = ready)
  ∧ (∀ env, is_testing (status (clientState w)) = false →
            step w Click env = startRealTest env w).
Proof.
  intros Hr.
  assert (Hb : button_agrees w).
  { induction Hr as [|w ev env _ IH Hopen]; [done|]. by apply button_agrees_step. }
  split; [exact Hb|]. unfold button_agrees in Hb.
  split; intros env Ht; rewrite Ht in Hb; cbn [step]; unfold handleStartButtonClick;
    rewrite Hb; cbn [String.eqb]; [|done].
  split; [done|]. unfold stopRealTest.
  by destruct (status (clientState w)).
Qed.

(** The page of the scenario during its upload: a click stops the test. *)
Lemma button_label_witness :
  startButton Scenario.client_uploading = "Stop Test"
  ∧ status (clientState (step Scenario.client_uploading Click (Scenario.client_env 50 0)))
    = ready.
Proof.
  assert (Hr : reachable Scenario.upload_config Scenario.client_uploading).
  { apply (reachable_step _ (step (initial Scenario.upload_config) WsOpen
                               (Scenario.client_env 0 0)) Click (Scenario.client_env 0 0));
      [|done].
    apply (reachable_step _ (initial Scenario.upload_config)); [|done].
    apply reachable_initial. }
  destruct (button_label_follows_the_state _ _ Hr) as (Hb & Hstop & _).
  split; [exact Hb|]. exact (proj2 (Hstop (Scenario.client_env 50 0) eq_refl)).
Defined.

End ClientButton.

(** * Socket errors and the theme switcher *)

Section ClientReset.
Import Client.

Lemma timers_resetToIdle env w : timers (resetToIdle env w) = timers (stopUploadTest w).
Proof.
  unfold resetToIdle. cbv zeta.
  match goal with |- context [if ?c then _ else _] => destruct c end; done.
Qed.

Lemma sent_resetToIdle env w : sent (resetToIdle env w) = sent w.
Proof.
  unfold resetToIdle. cbv zeta.
  assert (H : sent (stopUploadTest w) = sent w).
  { unfold stopUploadTest. destruct (status (clientState w)); try done.
    case_bool_decide; [|done]. by destruct uploadInterval. }
  match goal with |- context [if ?c then _ else _] => destruct c end; exact H.
Qed.

(** X16.  When the socket closes during an upload, the pending tick of the
    flood is cleared; when the socket reports an error, or a text frame
    cannot be parsed, it is not: these handlers set the status to error
    before they call [resetToIdle], whose [stopUploadTest] then finds no
    upload to stop, and the table of timers is left as it was.  The tick
    that is left fires once more; as long as the client is not in an upload
    again it sends nothing and schedules nothing. *)
Theorem socket_error_leaves_the_upload_tick_pending
    (w : World) (env : Env) (id : positive) (uploadPayload : N) :
  status (clientState w) = upload (Zpos id) uploadPayload →
  (∀ payload delay,
     timers (onclose env w) !! id ≠ Some (cb_sendUploadChunk payload, delay))
  ∧ timers (onerror env w) = timers w
  ∧ timers (onmessage (TextFrame BadJson) env w) = timers w
  ∧ (∀ payload delay env',
       timers w !! id = Some (cb_sendUploadChunk payload, delay) →
       let w1 := onerror env w in
       let w2 := step w1 (TimerFired id) env' in
       is_testing (status (clientState w1)) = false
       ∧ sent w2 = sent w ∧ timers w2 = delete id (timers w)).
Proof.
  intros Hw.
  assert (Herr : ∀ w0, w0 = set_clientState {| status := error; ws := ws (clientState w) |} w →
            timers (resetToIdle env w0) = timers w).
  { intros w0 ->. by rewrite timers_resetToIdle. }
  split; [|split; [|split]].
  - intros payload delay. unfold onclose. cbn [setTimeout snd timers set_clientState].
    rewrite timers_resetToIdle. unfold stopUploadTest. rewrite Hw.
    rewrite bool_decide_eq_true_2 by done.
    cbn [set_status set_clientState clearTimeout timers next_timer].
    destruct (decide (next_timer (resetToIdle env w) = id)) as [Heq|Hne].
    + rewrite Heq, lookup_insert_eq. done.
    + rewrite lookup_insert_ne by done. by rewrite lookup_delete_eq.
  - by apply Herr.
  - by apply Herr.
  - intros payload delay env' Ht w1 w2.
    assert (Ht1 : timers w1 = timers w) by (by apply Herr).
    assert (Hs1 : is_testing (status (clientState w1)) = false).
    { unfold w1, onerror, resetToIdle. cbv zeta.
      match goal with |- context [if ?c then _ else _] => destruct c end; done. }
    assert (Hsent1 : sent w1 = sent w).
    { unfold w1, onerror. by rewrite sent_resetToIdle. }
    split; [exact Hs1|].
    unfold w2. cbn [step]. rewrite Ht1, Ht. cbn [run_callback].
    unfold sendUploadChunk.
    assert (Hst : stopUploadTest (clearTimeout (Z.pos id) w1) = clearTimeout (Z.pos id) w1).
    { unfold stopUploadTest. cbn [clearTimeout clientState].
      destruct (status (clientState w1)); try done. }
    cbn [clearTimeout clientState] in *.
    destruct (status (clientState w1)) eqn:Hs; try done; rewrite Hst;
      cbn [sent timers]; by rewrite Ht1.
Qed.

(** The upload of the scenario, with its tick 1 pending, gets a socket
    error at 5 ms; the tick fires at 6 ms. *)
Lemma socket_error_witness :
  timers (onerror (Scenario.client_env 5 0) Scenario.client_uploading) !! 1%positive
    = Some (cb_sendUploadChunk Scenario.four_MiB, 0%Z)
  ∧ sent (step (onerror (Scenario.client_env 5 0) Scenario.client_uploading)
            (TimerFired 1) (Scenario.client_env 6 0))
    = sent Scenario.client_uploading.
Proof.
  destruct (socket_error_leaves_the_upload_tick_pending Scenario.client_uploading
              (Scenario.client_env 5 0) 1 Scenario.four_MiB eq_refl)
    as (_ & Herr & _ & Hfire).
  split.
  - rewrite Herr. reflexivity.
  - exact (proj1 (proj2 (Hfire Scenario.four_MiB 0%Z (Scenario.client_env 6 0) eq_refl))).
Defined.

End ClientReset.

Section Theme.
Import Client.

(** X17.  The theme switcher: after [setTheme(theme)] the root element carries
    [data-theme] unless the theme is "system", exactly the buttons of that
    theme are active, and the theme is saved; setting a theme again or
    after another one gives what setting it alone gives; and [initTheme]
    on the next load restores the saved theme, any theme but the empty
    string, which it takes for "system".  A page with nothing saved starts
    with the system theme. *)
Theorem theme_is_restored_on_load (theme : string) (p : ThemePage) :
  theme ≠ EmptyString →
  initTheme (setTheme theme p) = setTheme theme p
  ∧ (∀ other, setTheme theme (setTheme other p) = setTheme theme p)
  ∧ (∀ t active, (t, active) ∈ theme_buttons (setTheme theme p) →
                 active = true ↔ t = theme)
  ∧ (data_theme (setTheme theme p) = None ↔ theme = "system")
  ∧ (saved_theme p = None → initTheme p = setTheme "system" p).
Proof.
  intros Hne.
  assert (Hmap : ∀ other, theme_buttons (setTheme theme (setTheme other p))
                          = theme_buttons (setTheme theme p)).
  { intros other. unfold setTheme. cbn [theme_buttons]. rewrite map_map.
    apply map_ext. by intros [t a]. }
  assert (Hset : ∀ other, setTheme theme (setTheme other p) = setTheme theme p).
  { intros other. pose proof (Hmap other) as H. unfold setTheme in *.
    cbn [theme_buttons] in *. by rewrite H. }
  split; [|split; [exact Hset|split; [|split]]].
  - unfold initTheme. cbn [setTheme saved_theme].
    destruct (String.eqb theme EmptyString) eqn:He.
    + apply String.eqb_eq in He. contradiction.
    + apply Hset.
  - intros t active Hin. unfold setTheme in Hin. cbn [theme_buttons] in Hin.
    apply list_elem_of_fmap in Hin as ([t0 a0] & [= -> ->] & _). cbn [fst].
    apply String.eqb_eq.
  - unfold setTheme. cbn [data_theme]. destruct (String.eqb theme "system") eqn:He.
    + apply String.eqb_eq in He. by split.
    + apply String.eqb_neq in He. by split.
  - intros Hs. unfold initTheme. by rewrite Hs.
Qed.

Lemma theme_is_restored_witness :
  initTheme (setTheme "dark" {| data_theme := None;
                                theme_buttons := [("light", false); ("dark", false);
                                                  ("system", true)];
                                saved_theme := None |})
  = {| data_theme := Some "dark";
       theme_buttons := [("light", false); ("dark", true); ("system", false)];
       saved_theme := Some "dark" |}.
Proof.
  destruct (theme_is_restored_on_load "dark"
              {| data_theme := None;
                 theme_buttons := [("light", false); ("dark", false); ("system", true)];
                 saved_theme := None |} ltac:(done)) as (H & _).
  rewrite H. reflexivity.
Defined.

End Theme.

(** * The text of the speed *)

Section SpeedText.
Import Client.

Lemma Qmake_tenth n : (n # 10 == inject_Z n * (1 # 10))%Q.
Proof. unfold Qeq, inject_Z, Qmult. simpl. lia. Qed.

Lemma Qfloor_half_bounds y :
  (inject_Z (Qfloor (y + (1 # 2))) <= y + (1 # 2))%Q
  ∧ (y - (1 # 2) < inject_Z (Qfloor (y + (1 # 2))))%Q.
Proof.
  split; [apply Qfloor_le|].
  pose proof (Qlt_floor (y + (1 # 2))) as H. rewrite inject_Z_plus in H.
  change (inject_Z 1) with 1%Q in H. lra.
Qed.

(** [toFixed(1)] is off by at most one twentieth. *)
Lemma toFixed1_bounds x :
  (x - (1 # 20) <= toFixed1 x)%Q ∧ (toFixed1 x <= x + (1 # 20))%Q.
Proof.
  unfold toFixed1. destruct (Qle_bool 0 x).
  - destruct (Qfloor_half_bounds (x * 10)) as [H1 H2]. rewrite Qmake_tenth. lra.
  - destruct (Qfloor_half_bounds (- x * 10)) as [H1 H2]. rewrite Qmake_tenth. lra.
Qed.





End SpeedText.

(** * Reconnection and the debug panel *)

Section ClientPanel.
Import Client.

Lemma next_timer_stopUploadTest w : next_timer (stopUploadTest w) = next_timer w.
Proof.
  unfold stopUploadTest. destruct (status (clientState w)); try done.
  case_bool_decide; [|done]. by destruct uploadInterval.
Qed.

Lemma sockets_created_stopUploadTest w :
  sockets_created (stopUploadTest w) = sockets_created w.
Proof.
  unfold stopUploadTest. destruct (status (clientState w)); try done.
  case_bool_decide; [|done]. by destruct uploadInterval.
Qed.

Lemma next_timer_resetToIdle env w : next_timer (resetToIdle env w) = next_timer w.
Proof.
  unfold resetToIdle. cbv zeta.
  match goal with |- context [if ?c then _ else _] => destruct c end;
    apply next_timer_stopUploadTest.
Qed.

Lemma sockets_created_resetToIdle env w :
  sockets_created (resetToIdle env w) = sockets_created w.
Proof.
  unfold resetToIdle. cbv zeta.
  match goal with |- context [if ?c then _ else _] => destruct c end;
    apply sockets_created_stopUploadTest.
Qed.

(** X19.  Every close of the socket leads to one new socket, 2000 ms later:
    [onclose] leaves the client disconnected without a socket and schedules
    [connectWebSocket] with that delay; when the timer fires one socket is
    created.  While the client holds a socket, [connectWebSocket] does
    nothing. *)
Theorem close_reconnects_once (w : World) (env env' : Env) :
  let w1 := onclose env w in
  clientState w1 = {| status := disconnected; ws := false |}
  ∧ timers w1 !! next_timer w = Some (cb_connectWebSocket, 2000%Z)
  ∧ sent w1 = sent w
  ∧ sockets_created w1 = sockets_created w
  ∧ sockets_created (step w1 (TimerFired (next_timer w)) env') = S (sockets_created w)
  ∧ (∀ w2, ws (clientState w2) = true → connectWebSocket w2 = w2).
Proof.
  intros w1.
  assert (Ht : timers w1 !! next_timer w = Some (cb_connectWebSocket, 2000%Z)).
  { unfold w1, onclose. cbn [setTimeout snd timers set_clientState next_timer].
    rewrite next_timer_resetToIdle. apply lookup_insert_eq. }
  split; [done|]. split; [exact Ht|]. split.
  { unfold w1, onclose. cbn [setTimeout snd sent set_clientState]. apply sent_resetToIdle. }
  split.
  { unfold w1, onclose. cbn [setTimeout snd sockets_created set_clientState].
    apply sockets_created_resetToIdle. }
  split.
  - cbn [step]. rewrite Ht. cbn [run_callback]. unfold connectWebSocket.
    cbn [clearTimeout clientState]. unfold w1 at 1, onclose at 1.
    cbn [setTimeout snd clientState set_clientState ws sockets_created].
    unfold w1, onclose. cbn [setTimeout snd sockets_created set_clientState].
    by rewrite sockets_created_resetToIdle.
  - intros w2 H. unfold connectWebSocket. by rewrite H.
Qed.

(** The scenario: the socket of the uploading page closes at 100 ms, the
    reconnect timer fires at 2100 ms. *)
Lemma close_reconnects_witness :
  sockets_created
    (run Scenario.client_uploading
       [(WsClose, Scenario.client_env 100 0);
        (TimerFired 2, Scenario.client_env 2100 0)]) = 2%nat
  ∧ connectWebSocket Scenario.client_uploading = Scenario.client_uploading.
Proof.
  destruct (close_reconnects_once Scenario.client_uploading (Scenario.client_env 100 0)
              (Scenario.client_env 2100 0)) as (_ & _ & _ & _ & Hs & Hc).
  split; [exact Hs|]. apply Hc. reflexivity.
Defined.

Lemma Qfloor_div_1024_bounds (b : N) :
  JS.ge (JS.of_N b) (JS.of_Z (1024 * 1024)) = false →
  (0 ≤ Qfloor (inject_Z (Z.of_N b) / inject_Z 1024) < 1024)%Z.
Proof.
  unfold JS.ge, JS.le, JS.of_N, JS.of_Z. intros H. apply Qle_bool_false in H.
  rewrite <- Zlt_Qlt in H.
  assert (E : (inject_Z (Z.of_N b) / inject_Z 1024 == Z.of_N b # 1024)%Q).
  { unfold Qeq, Qdiv, Qmult, Qinv, inject_Z. simpl. lia. }
  rewrite E. unfold Qfloor. split.
  - apply Z.div_pos; lia.
  - apply Z.div_lt_upper_bound; lia.
Qed.

(** X20.  The debug panel.  The buffer status is red exactly when a tick of the
    upload flood that finds this buffer sends nothing; a status in KiB shows
    a whole number below 1024 and one in MiB a decimal of at least 1.  The
    start button is enabled exactly when the socket is open and the client
    is not in the error state, and the inputs of the control panel are
    unlocked exactly in the ready state, so they are locked during a test
    and also while the page is disconnected. *)
Theorem debug_panel_agrees_with_flood_and_state (w : World) (env : Env) :
  (∀ payload uploadInterval uploadPayload,
     status (clientState w) = upload uploadInterval uploadPayload →
     ws_open env w = true →
     (buffer_status_colour (updateDebugDisplay env w) = var_error
      ↔ sent (sendUploadChunk payload env w) = sent w))
  ∧ (∀ n, buffer_status (updateDebugDisplay env w) = buffer_KiB n → (0 ≤ n < 1024)%Z)
  ∧ (∀ v, buffer_status (updateDebugDisplay env w) = buffer_MiB v → (1 <= v)%Q)
  ∧ (start_disabled (updateDebugDisplay env w) = false
     ↔ ws_open env w = true ∧ status (clientState w) ≠ error)
  ∧ (controls_locked (updateDebugDisplay env w) = false ↔ status (clientState w) = ready).
Proof.
  split; [|split; [|split; [|split]]].
  - intros payload uploadInterval uploadPayload Hw Hopen.
    unfold updateDebugDisplay. cbn [buffer_status_colour]. rewrite Hopen.
    destruct (JS.ge (JS.of_N (bufferedAmount env)) BACKPRESSURE_THRESHOLD_BYTES) eqn:Hge.
    + rewrite (sendUploadChunk_full payload env w uploadInterval uploadPayload) by done.
      done.
    + rewrite (sendUploadChunk_room payload env w uploadInterval uploadPayload) by done.
      cbn [setTimeout snd set_status set_clientState sent ws_send]. split.
      * by destruct (JS.ge (JS.of_N (bufferedAmount env)) BACKPRESSURE_WARNING_BYTES).
      * intros H. apply (f_equal length) in H. rewrite length_app in H.
        cbn [length] in H. lia.
  - intros n. unfold updateDebugDisplay. cbn [buffer_status].
    destruct (ws_open env w); [|done].
    destruct (JS.ge (JS.of_N (bufferedAmount env)) (JS.of_Z (1024 * 1024))) eqn:Hge; [done|].
    intros [= <-]. by apply Qfloor_div_1024_bounds.
  - intros v. unfold updateDebugDisplay. cbn [buffer_status].
    destruct (ws_open env w); [|done].
    destruct (JS.ge (JS.of_N (bufferedAmount env)) (JS.of_Z (1024 * 1024))) eqn:Hge; [|done].
    intros [= <-].
    unfold JS.ge, JS.le, JS.of_N, JS.of_Z in Hge. apply Qle_bool_iff in Hge.
    assert (Hq : (1 <= inject_Z (Z.of_N (bufferedAmount env)) / inject_Z (1024 * 1024))%Q).
    { apply Qle_shift_div_l; [done|]. by rewrite Qmult_1_l. }
    destruct (toFixed1_bounds (inject_Z (Z.of_N (bufferedAmount env)) / inject_Z (1024 * 1024)))
      as [B _].
    revert Hq B.
    generalize (inject_Z (Z.of_N (bufferedAmount env)) / inject_Z (1024 * 1024))%Q.
    intros x Hx _. unfold toFixed1.
    assert (E : Qle_bool 0 x = true) by (apply Qle_bool_iff; lra). rewrite E.
    rewrite Qmake_tenth.
    assert (H : (10 ≤ Qfloor (x * 10 + (1 # 2)))%Z).
    { exact (Qfloor_resp_le 10 (x * 10 + (1 # 2)) ltac:(lra)). }
    rewrite Zle_Qle in H. change (inject_Z 10) with 10%Q in H. lra.
  - unfold updateDebugDisplay. cbn [start_disabled].
    destruct (ws_open env w), (status (clientState w)); cbn; split; try done;
      intros [? ?]; done.
  - unfold updateDebugDisplay. cbn [controls_locked].
    by destruct (status (clientState w)).
Qed.

(** The uploading page of the scenario with 16 MiB in the socket buffer:
    the status is red and the tick sends nothing. *)
Lemma debug_panel_witness :
  buffer_status_colour (updateDebugDisplay (Scenario.client_env 5 16777216)
                          Scenario.client_uploading) = var_error
  ∧ sent (sendUploadChunk Scenario.four_MiB (Scenario.client_env 5 16777216)
            Scenario.client_uploading) = sent Scenario.client_uploading.
Proof.
  destruct (debug_panel_agrees_with_flood_and_state Scenario.client_uploading
              (Scenario.client_env 5 16777216)) as (H & _).
  split; [reflexivity|].
  apply (H Scenario.four_MiB 1%Z Scenario.four_MiB eq_refl eq_refl). reflexivity.
Defined.

End ClientPanel.

(** * The two endpoints together *)

Section WireTheorems.

(** X21.  What the client sends is what the server reads: a control message of
    the client, serialised and parsed, is read by the server's parser as the
    same action when its numbers are finite and above 0, and is dropped
    otherwise (a number that is not finite travels as null); the two stop
    requests are always read; a binary payload is read as uploadData with
    its length. *)
Theorem client_requests_are_read_as_sent :
  (∀ message,
     Server.parseEventToAction (Wire.to_server (Client.Control message)) =
       if Wire.well_formed message then Some (Wire.as_server message) else None)
  ∧ (∀ byteLength,
       Server.parseEventToAction (Wire.to_server (Client.Payload byteLength)) =
         Some (Server.UploadData byteLength)).
Proof.
  split; [|done].
  assert (H : ∀ q, JS.le (Fin q) (JS.of_Z 0) = negb (Wire.positive_finite (Fin q))).
  { intros q. unfold Wire.positive_finite, JS.gt, JS.lt, JS.le, JS.of_Z.
    cbn [JS.is_finite andb]. by rewrite negb_involutive. }
  intros [d|d p| |]; cbn [Wire.to_server Wire.action_json Wire.well_formed Wire.as_server];
    try done.
  - destruct d as [q| | |]; try done.
    unfold Server.parseEventToAction. cbn -[JS.le JS.of_Z Wire.positive_finite].
    rewrite H. by destruct (Wire.positive_finite (Fin q)).
  - destruct d as [q| | |]; try done.
    destruct p as [q'| | |].
    + unfold Server.parseEventToAction. cbn -[JS.le JS.of_Z Wire.positive_finite].
      rewrite !H.
      by destruct (Wire.positive_finite (Fin q)), (Wire.positive_finite (Fin q')).
    + unfold Server.parseEventToAction. cbn -[JS.le JS.of_Z Wire.positive_finite].
      rewrite !H. by destruct (Wire.positive_finite (Fin q)).
    + unfold Server.parseEventToAction. cbn -[JS.le JS.of_Z Wire.positive_finite].
      rewrite !H. by destruct (Wire.positive_finite (Fin q)).
    + unfold Server.parseEventToAction. cbn -[JS.le JS.of_Z Wire.positive_finite].
      rewrite !H. by destruct (Wire.positive_finite (Fin q)).
Qed.

(** X22.  The end of a download across the wire.  The payload with which the
    client finds the duration elapsed makes it send one frame; the server,
    in the download state of a run, reads that frame as stopDownload, goes
    idle with no tick of the flood left pending and sends one frame; the
    client reads that frame as downloadComplete, becomes ready with the
    button on "Start Test", sends nothing more, and displays the speed
    computed from the bytes counted up to the completing payload. *)
Theorem download_handshake_across_the_wire
    (cw : Client.World) (cenv cenv' : Client.Env) (n : N) (start lastTime : number) (k : Z)
    (sw : Server.World) (f : nat) (senv : Server.Env) :
  Client.status (Client.clientState cw) =
    Client.download {| Client.downloadBytesReceived := JS.of_Z k;
                       Client.downloadStartTimeClient := start;
                       Client.downloadLastReceivedTimeClient := lastTime;
                       Client.downloadCompleted := false |} →
  (0 ≤ k)%Z →
  JS.ge (JS.sub (Fin (Client.performance_now cenv 1)) start)
        (Client.durationMs (Client.controlConfigValues cw)) = true →
  Client.ws_open cenv cw = true →
  Server.reachable sw →
  Server.clients_get sw = Some (Server.Download f) →
  let cw1 := Client.step cw (Client.WsMessage (Client.BinaryFrame n)) cenv in
  let completed :=
    {| Client.downloadBytesReceived := JS.of_Z (k + Z.of_N n);
       Client.downloadStartTimeClient := start;
       Client.downloadLastReceivedTimeClient := Fin (Client.performance_now cenv 0);
       Client.downloadCompleted := true |} in
  ∃ stop sw1 ack data,
    Client.sent cw1 = Client.sent cw ++ [stop]
    ∧ Server.step sw (Server.SocketMessage (Wire.to_server stop)) senv = Server.Done sw1
    ∧ Server.clients_get sw1 = Some Server.Idle
    ∧ Server.no_tick_pending sw1
    ∧ Server.sent sw1 = Server.sent sw ++ [ack]
    ∧ Wire.to_client ack = Some data
    ∧ let cw2 := Client.step cw1 (Client.WsMessage data) cenv' in
      Client.status (Client.clientState cw2) = Client.ready
      ∧ Client.startButton cw2 = "Start Test"
      ∧ Client.sent cw2 = Client.sent cw1
      ∧ Client.last_speed cw2 =
          Some (Client.speed_of (JS.of_Z (k + Z.of_N n))
                  (Client.download_elapsedMs completed (Client.performance_now cenv' 0))).
Proof.
  intros Hcw Hk Hpast Hopen Hr Hsw cw1 completed.
  assert (Hcw1 : cw1 =
    Client.ws_send (Client.Control Client.StopDownload)
      (Client.set_status (Client.download completed)
         (Client.updateSpeedDisplay
            (Client.download_speed_of (JS.of_Z (k + Z.of_N n))
               (JS.sub (Fin (Client.performance_now cenv 1)) start))
            "Complete" (Client.kiB (Client.bytesKiB_of (JS.of_Z (k + Z.of_N n))) "total")
            (JS.of_Z 100)
            (Client.set_status
               (Client.download
                  {| Client.downloadBytesReceived := JS.of_Z (k + Z.of_N n);
                     Client.downloadStartTimeClient := start;
                     Client.downloadLastReceivedTimeClient :=
                       Fin (Client.performance_now cenv 0);
                     Client.downloadCompleted := false |}) cw)))).
  { unfold cw1. cbn [Client.step Client.onmessage].
    rewrite (handlePayloadMessage_counting cw start lastTime k) by done. cbv zeta.
    rewrite Hpast. unfold Client.sendControlMessage.
    rewrite ws_open_set_status, ws_open_updateSpeedDisplay, ws_open_set_status, Hopen.
    reflexivity. }
  exists (Client.Control Client.StopDownload).
  pose proof (step_stopDownload sw f (Wire.to_server (Client.Control Client.StopDownload))
                senv Hsw eq_refl) as Hstep.
  eexists. exists (Server.Text Server.downloadComplete).
  exists (Client.TextFrame (Client.Parsed Client.downloadComplete)).
  split; [by rewrite Hcw1|]. split; [exact Hstep|]. split; [done|]. split.
  { apply tick_invariant_not_download; [|done].
    apply reachable_tick_invariant.
    by eapply (Server.reachable_step sw (Server.SocketMessage _) senv). }
  split.
  { cbn [Server.set_clients Server.sent Server.stopDownload snd Server.socket_send].
    destruct (Server.heap sw !! f) as [st|]; [|done]. case_bool_decide; [|done].
    by rewrite sent_clearTimeout. }
  split; [done|]. cbv zeta. rewrite Hcw1. cbn [Client.step Client.onmessage].
  split; [by apply handleServerMessage_downloadComplete|]. split; [done|]. split; [done|].
  unfold Client.last_speed. rewrite handleServerMessage_downloadComplete_display. done.
Qed.

(** The download of the scenario completes with the payload at 3020 ms;
    the server, still flooding, gets the stopDownload at 3025 ms and the
    client its acknowledgment at 3030 ms. *)
Lemma download_handshake_witness :
  ∃ sw1,
    Server.step Scenario.server_flooding
      (Server.SocketMessage (Wire.to_server (Client.Control Client.StopDownload)))
      (Scenario.server_env 3025 0) = Server.Done sw1
    ∧ Server.clients_get sw1 = Some Server.Idle
    ∧ Server.timers sw1 = ∅
    ∧ Client.status (Client.clientState
        (Client.run Scenario.client_downloading
           [(Client.WsMessage (Client.BinaryFrame Scenario.four_MiB),
             Scenario.client_env 3020 0);
            (Client.WsMessage (Client.TextFrame (Client.Parsed Client.downloadComplete)),
             Scenario.client_env 3030 0)])) = Client.ready.
Proof.
  destruct (download_handshake_across_the_wire
              Scenario.client_downloading (Scenario.client_env 3020 0)
              (Scenario.client_env 3030 0) Scenario.four_MiB
              (Fin (inject_Z 20)) (Fin (inject_Z 40)) 4194304
              Scenario.server_flooding 0 (Scenario.server_env 3025 0)
              eq_refl ltac:(lia) eq_refl eq_refl server_flooding_reachable eq_refl)
    as (stop & sw1 & ack & data & Hstop & Hstep & Hidle & _ & _ & Hdata & Hready & _).
  vm_compute in Hstop. injection Hstop as <-.
  exists sw1. split; [exact Hstep|]. split; [exact Hidle|]. split.
  - vm_compute in Hstep. injection Hstep as <-. reflexivity.
  - reflexivity.
Defined.

(** X23.  The end of an upload across the wire.  The result that the server
    sends for the first chunk past the duration reaches the client as an
    uploadResult with the same numbers; the client, in its upload state,
    becomes ready, no tick of its flood stays recorded or pending under the
    recorded id, and the speed it displays is the sum of the sizes of all
    chunks but chunk #1, times 8000, over the elapsed time of the server,
    over 1024 * 1024. *)
Theorem upload_result_across_the_wire
    (sw : Server.World) (start : Server.MessageEvent) (D : number) (env0 : Server.Env)
    (c1 : N) (env1 : Server.Env) (middle : list (N * Server.Env)) (cN : N)
    (envN : Server.Env)
    (cw : Client.World) (cenv : Client.Env) (id : positive) (uploadPayload : N) :
  Server.clients_get sw = Some Server.Idle →
  Server.parseEventToAction start = Some (Server.StartUpload D) →
  Forall (λ c, JS.ge (Server.elapsed_since env1 c.2) D = false) middle →
  JS.ge (Server.elapsed_since env1 envN) D = true →
  Client.status (Client.clientState cw) = Client.upload (Zpos id) uploadPayload →
  ∃ sw' progress result data,
    Server.run sw ((Server.SocketMessage start, env0)
                     :: Server.payloads ((c1, env1) :: middle ++ [(cN, envN)]))
      = Server.Done sw'
    ∧ Server.sent sw' = Server.sent sw ++ progress ++ [result]
    ∧ Wire.to_client result = Some data
    ∧ let cw' := Client.step cw (Client.WsMessage data) cenv in
      Client.status (Client.clientState cw') = Client.ready
      ∧ Client.sent cw' = Client.sent cw
      ∧ (∀ payload delay,
           Client.timers cw' !! id ≠ Some (Client.cb_sendUploadChunk payload, delay))
      ∧ Client.last_speed cw' =
          Some (Spec.binary_Mbps
                  (Spec.speedBitsPerSecond
                     (JS.of_Z (Server.total_bytes (middle ++ [(cN, envN)])))
                     (Server.elapsed_since env1 envN))).
Proof.
  intros Hidle Hstart Hmid Hlast Hcw.
  cbn [Server.payloads map fst snd]. rewrite (run_upload_start sw start D) by done.
  destruct (run_until_complete env1 D cN envN middle
              (Server.set_clients
                 (Some (Server.Upload
                    {| Server.startTimeOnServerMs := Fin (Server.performance_now env1 0);
                       Server.requestedDurationMs := D;
                       Server.bytesReceived := JS.of_Z 0 |})) sw)
              0%Z _ eq_refl ltac:(done) Hmid Hlast)
    as (sw' & progress & Hrun & _ & Hsent & _ & _).
  rewrite Z.add_0_l in Hsent.
  exists sw', progress. eexists. eexists.
  split; [exact Hrun|]. split; [exact Hsent|]. split; [reflexivity|].
  cbv zeta. cbn [Client.step Client.onmessage]. unfold Client.handleServerMessage.
  rewrite Hcw. split; [done|]. split.
  { unfold Client.test_complete, Client.stopUploadTest.
    cbn [Client.updateSpeedDisplay Client.clientState]. rewrite Hcw.
    by rewrite bool_decide_eq_true_2. }
  split.
  - intros payload delay. unfold Client.test_complete, Client.stopUploadTest.
    cbn [Client.updateSpeedDisplay Client.clientState]. rewrite Hcw.
    rewrite bool_decide_eq_true_2 by done.
    cbn [Client.setTimeout snd Client.timers Client.set_startButton Client.set_clientState
         Client.set_status Client.clearTimeout Client.next_timer].
    match goal with
    | |- <[?k := _]> _ !! _ ≠ _ => destruct (decide (k = id)) as [Heq|Hne]
    end.
    + rewrite Heq, lookup_insert_eq. done.
    + rewrite lookup_insert_ne by done. by rewrite lookup_delete_eq.
  - unfold Client.last_speed, Client.test_complete.
    cbn [Client.setTimeout snd Client.displayed Client.set_startButton
         Client.set_clientState].
    rewrite displayed_stopUploadTest.
    cbn [Client.updateSpeedDisplay Client.displayed]. by rewrite last_snoc.
Qed.

(** The upload of the scenario on both sides: chunks at 15, 35 and 3015
    ms on the server; the page displays 8 MiB in 3000 ms, 64/3 Mbps in units
    of 1024 * 1024 bits. *)
Lemma upload_result_witness :
  ∃ sw' progress result data,
    Server.run Scenario.server_connected
      ((Server.SocketMessage Scenario.startUpload_3000, Scenario.server_env 0 0)
         :: Server.payloads [(Scenario.four_MiB, Scenario.server_env 15 0);
                             (Scenario.four_MiB, Scenario.server_env 35 0);
                             (Scenario.four_MiB, Scenario.server_env 3015 0)])
      = Server.Done sw'
    ∧ Server.sent sw' = Server.sent Scenario.server_connected ++ progress ++ [result]
    ∧ Wire.to_client result = Some data
    ∧ Client.status (Client.clientState
        (Client.step Scenario.client_uploading (Client.WsMessage data)
           (Scenario.client_env 3020 0))) = Client.ready.
Proof.
  destruct (upload_result_across_the_wire
              Scenario.server_connected Scenario.startUpload_3000 (JS.of_Z 3000)
              (Scenario.server_env 0 0) Scenario.four_MiB (Scenario.server_env 15 0)
              [(Scenario.four_MiB, Scenario.server_env 35 0)]
              Scenario.four_MiB (Scenario.server_env 3015 0)
              Scenario.client_uploading (Scenario.client_env 3020 0) 1 Scenario.four_MiB
              eq_refl eq_refl ltac:(repeat constructor) eq_refl eq_refl)
    as (sw' & progress & result & data & Hrun & Hsent & Hdata & Hready & _).
  exists sw', progress, result, data. by repeat split.
Defined.

End WireTheorems.
